(** * A mini blockchain ledger with a zakat levy

    Shallow embedding of the three front-ends of the repository
    ([console_main.py], [streamlit_main.py], [main.py]) and of the
    properties their mining pipeline is expected to satisfy.

    Conventions
    - The ledger is embedded twice.  In the first embedding Python [float]
      balances and amounts are read as exact rationals [Q]; it carries the
      statements about the control flow of the front-ends, which do not
      depend on how a sum or a product is rounded.  The second embedding
      ([Binary64]) reads them as IEEE 754 binary64 numbers, as Python
      does; it carries the statements about computed amounts and about
      the numbers that the console accepts.
    - A Python [dict] is an insertion-ordered association list with unique
      keys ([dict_wf]).
    - A log line produced by an f-string is kept as a structured [entry]
      whose constructor names the f-string it stands for.
    - The modules [block], [transaction] and [miner] are imported by the
      front-ends but are not part of the sources at hand; their behaviour is
      taken from the written specification and marked as such. *)

From Stdlib Require Import Floats ZArith QArith String List Bool Arith Lia.
Import ListNotations.
Open Scope Q_scope.
Open Scope string_scope.
Open Scope list_scope.


(* ================================================================= *)
(** ** Comparisons on amounts *)

(** Python [x >= y]. *)
Definition Qgeb (x y : Q) : bool := Qle_bool y x.
(** Python [x < y]. *)
Definition Qltb (x y : Q) : bool := negb (Qle_bool y x).
(** Python [x > y]. *)
Definition Qgtb (x y : Q) : bool := negb (Qle_bool x y).
(** Python [x <= y]. *)
Definition Qleb (x y : Q) : bool := Qle_bool x y.

(* ================================================================= *)
(** ** Python dictionaries keyed by strings *)

Section Dict.
Variable V : Type.

Definition dict := list (string * V).

(** [list(d.keys())], in insertion order. *)
Definition dict_keys (d : dict) : list string := map fst d.

(** [d[k]]; [None] stands for [KeyError]. *)
Fixpoint dict_get (k : string) (d : dict) : option V :=
  match d with
  | [] => None
  | (k', v) :: rest => if String.eqb k k' then Some v else dict_get k rest
  end.

(** [k in d]. *)
Definition dict_mem (k : string) (d : dict) : bool :=
  match dict_get k d with Some _ => true | None => false end.

(** [d[k] = v]: overwrites in place when the key exists, appends a new
    item otherwise. *)
Fixpoint dict_set (k : string) (v : V) (d : dict) : dict :=
  match d with
  | [] => [(k, v)]
  | (k', v') :: rest =>
      if String.eqb k k' then (k', v) :: rest
      else (k', v') :: dict_set k v rest
  end.

(** Keys of a dictionary are pairwise distinct. *)
Definition dict_wf (d : dict) : Prop := NoDup (dict_keys d).

End Dict.

Arguments dict_get {V} k d.
Arguments dict_mem {V} k d.
Arguments dict_set {V} k v d.
Arguments dict_keys {V} d.
Arguments dict_wf {V} d.


(* ================================================================= *)
(** ** Accounts ([console_main.py], [streamlit_main.py]) *)

(** One value of [self.accounts] / [st.session_state.accounts]:
    [{"balance": amount, "roll_no": roll_number}].  The balance is read as
    an exact rational here; [Binary64.account] keeps it as the binary64
    number that Python holds. *)
Record account : Type := mk_account {
  balance : Q;
  roll_no : string
}.

Definition account_dict := dict account.

(** [accounts[name]["balance"] = b]: the inner dictionary is mutated in
    place, its ["roll_no"] is kept. *)
Definition with_balance (b : Q) (a : account) : account :=
  mk_account b (roll_no a).

(** Balance shown for an account name; a missing name has no balance. *)
Definition balance_of (name : string) (accs : account_dict) : option Q :=
  option_map balance (dict_get name accs).


(* ----------------------------------------------------------------- *)
(** *** The zakat levy *)

(** Default value of the [rate] argument: [0.025]. *)
Definition zakat_rate : Q := 25 # 1000.

(** [calculate_zakat(balance, rate=0.025)]: [balance * rate], as an exact
    product; the rounded product is [Binary64.calculate_zakat]. *)
Definition calculate_zakat (bal rate : Q) : Q := bal * rate.

(** One item of [zakat_details]; stands for
    [f"{account_name} ({roll_no}): {zakat_amount:.2f}"] and keeps the three
    values interpolated, where the text shows the amount with two
    decimals. *)
Record zakat_detail : Type := mk_detail {
  detail_account : string;
  detail_roll : string;
  detail_amount : Q
}.

(** The three locals of [apply_zakat_to_accounts] that survive an
    iteration: the account store, [zakat_collected], [zakat_details]. *)
Definition zakat_acc : Type := (account_dict * Q * list zakat_detail)%type.

(** Body of [for account_name in accounts:]. *)
Definition zakat_step (zakat_threshold : Q) (s : zakat_acc)
    (account_name : string) : zakat_acc :=
  let '(accs, zakat_collected, zakat_details) := s in
  match dict_get account_name accs with
  | None => s
  | Some a =>
      let bal := balance a in
      if Qgeb bal zakat_threshold then
        let zakat_amount := calculate_zakat bal zakat_rate in
        (dict_set account_name (with_balance (bal - zakat_amount) a) accs,
         zakat_collected + zakat_amount,
         zakat_details ++ [mk_detail account_name (roll_no a) zakat_amount])
      else s
  end.

(** [apply_zakat_to_accounts] with its local constant [zakat_threshold]
    taken as an argument: the loop runs over the keys of the dictionary it
    updates and returns [(zakat_collected, zakat_details)] next to the
    updated store. *)
Definition apply_zakat_with (zakat_threshold : Q) (accs : account_dict)
    : zakat_acc :=
  fold_left (zakat_step zakat_threshold) (dict_keys accs) (accs, 0, []).

(** The two front-ends that keep a roll number per account. *)
Inductive frontend : Type := Console | Streamlit.

(** [zakat_threshold = 100] in [console_main.py],
    [zakat_threshold = 1000] in [streamlit_main.py]. *)
Definition zakat_threshold (fe : frontend) : Q :=
  match fe with
  | Console => 100
  | Streamlit => 1000
  end.

Definition apply_zakat_to_accounts (fe : frontend) (accs : account_dict)
    : zakat_acc :=
  apply_zakat_with (zakat_threshold fe) accs.

(** What the loop does to one item, and the items it records. *)
Definition levied (t : Q) (a : account) : account :=
  if Qgeb (balance a) t
  then with_balance (balance a - calculate_zakat (balance a) zakat_rate) a
  else a.

Definition levied_item (t : Q) (kv : string * account) : string * account :=
  (fst kv, levied t (snd kv)).

Definition qualifies (t : Q) (kv : string * account) : bool :=
  Qgeb (balance (snd kv)) t.

Definition detail_of (kv : string * account) : zakat_detail :=
  mk_detail (fst kv) (roll_no (snd kv))
            (calculate_zakat (balance (snd kv)) zakat_rate).

Definition collect (c : Q) (kv : string * account) : Q :=
  c + calculate_zakat (balance (snd kv)) zakat_rate.

(* ================================================================= *)
(** ** Transfers ([TransactionWrapper]) *)

(** [TransactionWrapper(sender, receiver, amount)].  The console variant
    also stores [accounts_ref], an alias of [self.accounts], which is never
    rebound: the store is therefore passed explicitly. *)
Record TransactionWrapper : Type := mk_tx {
  sender : string;
  receiver : string;
  amount : Q
}.

(** Exceptions that the transfer code can raise. *)
Inductive exn : Type :=
| SenderOrReceiverMissing   (** [Exception("Sender or receiver does not exist.")] *)
| InsufficientBalance       (** [Exception("Insufficient balance.")] *)
| InvalidAmount             (** only in the specified [apply_transfer] *)
| KeyError (key : string).

Inductive result (A : Type) : Type :=
| Ok (a : A)
| Raise (e : exn).
Arguments Ok {A} a.
Arguments Raise {A} e.

(** [accounts[name]["balance"] = f(accounts[name]["balance"])], for a
    name that the caller has checked to be present. *)
Definition update_balance (name : string) (f : Q -> Q) (accs : account_dict)
    : account_dict :=
  match dict_get name accs with
  | Some a => dict_set name (with_balance (f (balance a)) a) accs
  | None => accs
  end.

(** [TransactionWrapper.apply_to_accounts]: the two guards, then the debit
    and the credit, each reading the current store.  Debit and credit are
    exact here; [Binary64.apply_to_accounts] rounds them as Python does. *)
Definition apply_to_accounts (tx : TransactionWrapper) (accs : account_dict)
    : result account_dict :=
  if negb (dict_mem (sender tx) accs) || negb (dict_mem (receiver tx) accs)
  then Raise SenderOrReceiverMissing
  else
    match dict_get (sender tx) accs with
    | None => Raise (KeyError (sender tx))
    | Some s =>
        if Qltb (balance s) (amount tx) then Raise InsufficientBalance
        else
          let accs1 := update_balance (sender tx) (fun b => b - amount tx) accs in
          Ok (update_balance (receiver tx) (fun b => b + amount tx) accs1)
    end.

(* ================================================================= *)
(** ** Block log lines *)

(** One element of [transaction_records] (or of a block's
    [transactions]). *)
Inductive entry : Type :=
| GenesisMarker
    (** the fixed marker carried by the genesis block *)
| ZakatCollection (zakat_collected : Q)
    (** [f"Zakat Collection: {zakat_collected:.2f} collected"] *)
| ZakatFrom (d : zakat_detail)
    (** [f"  Zakat from {detail}"] *)
| TransferRecord (snd_name snd_roll rcv_name rcv_roll : string) (amt : Q)
    (** [f"{sender} ({sender_roll}) -> {receiver} ({receiver_roll}): {amount}"] *)
| PlainTransferRecord (snd_name rcv_name : string) (amt : Q).
    (** [f"{sender} -> {receiver}: {amount}"] ([main.py]) *)

Definition is_zakat_entry (e : entry) : bool :=
  match e with
  | ZakatCollection _ | ZakatFrom _ => true
  | _ => false
  end.

Definition is_zakat_detail (e : entry) : bool :=
  match e with
  | ZakatFrom _ => true
  | _ => false
  end.

Definition is_transfer_record (e : entry) : bool :=
  match e with
  | TransferRecord _ _ _ _ _ | PlainTransferRecord _ _ _ => true
  | _ => false
  end.

(* ================================================================= *)
(** ** Blocks and the chain ([block.py], [miner.py]) *)

(** Modelled from the spec: the digest function used by [Block].  The
    specification asks for a deterministic digest over
    [(previous_digest, created_at, creator_id, entries)] and a fixed
    sentinel as the genesis block's previous digest; nothing else is
    assumed here. *)
Class Hasher (D : Type) : Type := {
  digest_eq_dec : forall x y : D, {x = y} + {x <> y};
  sentinel : D;
  digest_of : D -> Q -> string -> list entry -> D
}.

(** Collision freedom in the logged entries, the property that tamper
    detection relies on. *)
Definition collision_free (D : Type) (H : Hasher D) : Prop :=
  forall p t r e1 e2, digest_of p t r e1 = digest_of p t r e2 -> e1 = e2.

Module Block.
(** Modelled from the spec: the [Block] class of [block.py], with the
    attribute names the front-ends read ([prev_hash], [timestamp],
    [roll_no], [transactions], [hash]). *)
Record t (D : Type) : Type := make {
  prev_hash : D;
  timestamp : Q;
  roll_no : string;
  transactions : list entry;
  hash : D
}.
Arguments make {D}.
Arguments prev_hash {D}.
Arguments timestamp {D}.
Arguments roll_no {D}.
Arguments transactions {D}.
Arguments hash {D}.

(** Recomputation of the digest from the other four fields. *)
Definition calculate_hash {D} {H : Hasher D} (b : t D) : D :=
  digest_of (prev_hash b) (timestamp b) (roll_no b) (transactions b).

(** Construction: the digest is computed once, from the contents. *)
Definition create {D} {H : Hasher D} (prev : D) (now : Q) (roll : string)
    (txs : list entry) : t D :=
  make prev now roll txs (digest_of prev now roll txs).

(** [verify()]: the stored digest matches a recomputation. *)
Definition verify {D} {H : Hasher D} (b : t D) : bool :=
  if digest_eq_dec (calculate_hash b) (hash b) then true else false.
End Block.

Section Chain.
Context {D : Type} {H : Hasher D}.

(** Modelled from the spec: the [chain] attribute of [Blockchain]
    ([miner.py]), an ordered sequence of blocks with the genesis block at
    index 0. *)
Definition Blockchain : Type := list (Block.t D).

(** Modelled from the spec: [Blockchain(roll_no=...)], a chain holding
    only the genesis block. *)
Definition new_blockchain (roll : string) (now : Q) : Blockchain :=
  [Block.create sentinel now roll [GenesisMarker]].

(** Digest of the current tail. *)
Definition tail_digest (c : Blockchain) : D :=
  last (map Block.hash c) sentinel.

(** Modelled from the spec: [add_block(transactions, roll_no)], the
    specified [append(entries, creator_id, now)]: fails on an empty entry
    list, otherwise links a new block to the tail and appends it. *)
Definition add_block (txs : list entry) (roll : string) (now : Q)
    (c : Blockchain) : option Blockchain :=
  match txs with
  | [] => None
  | _ :: _ => Some (c ++ [Block.create (tail_digest c) now roll txs])
  end.

(** Modelled from the spec: the walk performed by [is_valid()], from the
    genesis block forward.  Each block's digest is recomputed and compared
    with the stored digest and with the successor's previous digest; the
    index of the first block that fails is reported (the successor's index
    when it is the link that fails). *)
Fixpoint first_invalid_from (i : nat) (c : Blockchain) : option nat :=
  match c with
  | [] => None
  | b :: rest =>
      if negb (Block.verify b) then Some i
      else
        match rest with
        | [] => None
        | s :: _ =>
            if digest_eq_dec (Block.calculate_hash b) (Block.prev_hash s)
            then first_invalid_from (S i) rest
            else Some (S i)
        end
  end.

(** [validate_chain().first_invalid_index]. *)
Definition first_invalid_index (c : Blockchain) : option nat :=
  first_invalid_from 0 c.

(** [is_valid()]. *)
Definition is_valid (c : Blockchain) : bool :=
  match first_invalid_index c with
  | None => true
  | Some _ => false
  end.

(** Chains obtained from a fresh chain by appending only. *)
Inductive built_by_append : Blockchain -> Prop :=
| built_new (roll : string) (now : Q) :
    built_by_append (new_blockchain roll now)
| built_add (c c' : Blockchain) (txs : list entry) (roll : string)
    (now : Q) :
    built_by_append c ->
    add_block txs roll now c = Some c' ->
    built_by_append c'.

(** In-place edits that bypass [add_block]. *)
Fixpoint edit_block (i : nat) (f : Block.t D -> Block.t D)
    (c : Blockchain) : Blockchain :=
  match c, i with
  | [], _ => []
  | b :: rest, O => f b :: rest
  | b :: rest, S j => b :: edit_block j f rest
  end.

Definition set_transactions (txs : list entry) (b : Block.t D)
    : Block.t D :=
  Block.make (Block.prev_hash b) (Block.timestamp b) (Block.roll_no b)
             txs (Block.hash b).

Definition set_hash (d : D) (b : Block.t D) : Block.t D :=
  Block.make (Block.prev_hash b) (Block.timestamp b) (Block.roll_no b)
             (Block.transactions b) d.
(** The chain invariant: every stored digest matches a recomputation, and
    every block carries the digest of its predecessor. *)
Fixpoint well_linked (c : Blockchain) : Prop :=
  match c with
  | [] => True
  | b :: rest =>
      Block.calculate_hash b = Block.hash b
      /\ match rest with
         | [] => True
         | s :: _ => Block.calculate_hash b = Block.prev_hash s
         end
      /\ well_linked rest
  end.

End Chain.

Arguments Blockchain D : clear implicits.


(* ================================================================= *)
(** ** Session state and mining ([console_main.py],
       [streamlit_main.py]) *)

(** Values a front-end function hands back. *)
Inductive pyvalue : Type :=
| PyNone
| PyBool (b : bool).

Section Ledger.
Context {D : Type} {H : Hasher D}.

(** [self.blockchain], [self.accounts], [self.pending_transactions]
    (respectively the three [st.session_state] slots). *)
Record state : Type := mk_state {
  blockchain : Blockchain D;
  accounts : account_dict;
  pending_transactions : list TransactionWrapper
}.

(** The record appended after a transfer has been applied; both roll
    numbers are read from the store. *)
Definition transfer_record (tx : TransactionWrapper) (accs : account_dict)
    : result entry :=
  match dict_get (sender tx) accs with
  | None => Raise (KeyError (sender tx))
  | Some s =>
      match dict_get (receiver tx) accs with
      | None => Raise (KeyError (receiver tx))
      | Some r =>
          Ok (TransferRecord (sender tx) (roll_no s)
                             (receiver tx) (roll_no r) (amount tx))
      end
  end.

(** [for transaction in pending_transactions: try: ... except: return
    False].  The store is returned as it stands when the loop is left,
    together with either the completed [transaction_records] or the
    exception that ended the loop. *)
Fixpoint process_transactions (txs : list TransactionWrapper)
    (accs : account_dict) (transaction_records : list entry)
    : account_dict * result (list entry) :=
  match txs with
  | [] => (accs, Ok transaction_records)
  | tx :: rest =>
      match apply_to_accounts tx accs with
      | Raise e => (accs, Raise e)
      | Ok accs' =>
          match transfer_record tx accs' with
          | Raise e => (accs', Raise e)
          | Ok r => process_transactions rest accs' (transaction_records ++ [r])
          end
      end
  end.

(** [console_main.py] prints the per-account details; only
    [streamlit_main.py] appends them to [transaction_records]. *)
Definition logs_zakat_details (fe : frontend) : bool :=
  match fe with
  | Console => false
  | Streamlit => true
  end.

(** [if zakat_collected > 0: transaction_records.append(...) ...]. *)
Definition zakat_records (fe : frontend) (zakat_collected : Q)
    (zakat_details : list zakat_detail) : list entry :=
  if Qgtb zakat_collected 0 then
    ZakatCollection zakat_collected
      :: (if logs_zakat_details fe then map ZakatFrom zakat_details else [])
  else [].

(** Value returned at the queue gate: a bare [return] in
    [console_main.py], [return False] in [streamlit_main.py]. *)
Definition empty_batch_return (fe : frontend) : pyvalue :=
  match fe with
  | Console => PyNone
  | Streamlit => PyBool false
  end.

(** [accounts[pending_transactions[0].sender]["roll_no"] if
    pending_transactions else "SYSTEM"]. *)
Definition miner_roll_of (accs : account_dict)
    (pending : list TransactionWrapper) : result string :=
  match pending with
  | [] => Ok "SYSTEM"
  | first :: _ =>
      match dict_get (sender first) accs with
      | Some a => Ok (roll_no a)
      | None => Raise (KeyError (sender first))
      end
  end.

(** The part of [mine_block] that follows the queue gate: levy, transfer
    loop, block creation. *)
Definition mine_pending (fe : frontend) (now : Q) (st : state)
    : result pyvalue * state :=
  let '(accs1, zakat_collected, zakat_details) :=
    apply_zakat_to_accounts fe (accounts st) in
  let records0 := zakat_records fe zakat_collected zakat_details in
  match process_transactions (pending_transactions st) accs1 records0 with
  | (accs2, Raise _) =>
      (Ok (PyBool false),
       mk_state (blockchain st) accs2 (pending_transactions st))
  | (accs2, Ok transaction_records) =>
      let st2 := mk_state (blockchain st) accs2 (pending_transactions st) in
      match transaction_records with
      | [] => (Ok (PyBool false), st2)
      | _ :: _ =>
          match miner_roll_of accs2 (pending_transactions st) with
          | Raise e => (Raise e, st2)
          | Ok miner_roll =>
              match add_block transaction_records miner_roll now
                              (blockchain st) with
              | Some chain' => (Ok (PyBool true), mk_state chain' accs2 [])
              | None => (Ok (PyBool false), st2)
              end
          end
      end
  end.

(** [BlockchainConsole.mine_block] and, for [Streamlit],
    [process_pending_transactions].  [now] is the clock value read when the
    block is created. *)
Definition mine_block (fe : frontend) (now : Q) (st : state)
    : result pyvalue * state :=
  match pending_transactions st with
  | [] => (Ok (empty_batch_return fe), st)
  | _ :: _ => mine_pending fe now st
  end.

Definition process_pending_transactions : Q -> state -> result pyvalue * state :=
  mine_block Streamlit.

(** Python truth value of a string. *)
Definition nonempty (s : string) : bool :=
  match s with
  | EmptyString => false
  | String _ _ => true
  end.

(* ----------------------------------------------------------------- *)
(** *** Creating an account *)

(** [BlockchainConsole.create_account], on the stripped inputs;
    [initial_balance] is [None] when [float(input(...))] raises
    [ValueError].  Every refusal leaves the state as it is.  The inputs
    that [float] reads as NaN or as an infinity have no rational value;
    [Binary64.create_account] covers them. *)
Definition create_account (account_name roll : string)
    (initial_balance : option Q) (st : state) : state :=
  if negb (nonempty account_name) then st
  else if dict_mem account_name (accounts st) then st
  else if negb (nonempty roll) then st
  else
    match initial_balance with
    | None => st
    | Some b =>
        if Qltb b 0 then st
        else
          mk_state (blockchain st)
                   (dict_set account_name (mk_account b roll) (accounts st))
                   (pending_transactions st)
    end.

(* ----------------------------------------------------------------- *)
(** *** Submitting a transfer *)

(** Message shown by the submission code; [TransactionAdded] is the only
    one that goes with an enqueued transfer. *)
Inductive submit_message : Type :=
| NeedTwoAccounts          (** "Need at least 2 accounts to create transactions!" *)
| InvalidSenderSelection   (** "Invalid sender selection!" *)
| InvalidReceiverSelection (** "Invalid receiver selection!" *)
| SameSenderReceiver       (** "Sender and receiver cannot be the same!" *)
| AmountNotPositive        (** "Amount must be positive!" *)
| InsufficientBalanceMsg   (** "Insufficient balance!" *)
| InvalidInput             (** "Invalid input!" *)
| FillAllFields            (** "Please fill all fields with valid values." *)
| NothingSelected          (** a select box without a value: the button
                               handler has nothing to run on *)
| TransactionAdded (tx : TransactionWrapper).

Definition enqueue (tx : TransactionWrapper) (st : state) : state :=
  mk_state (blockchain st) (accounts st) (pending_transactions st ++ [tx]).

(** [accounts_list[idx]] for an index already checked to be in range. *)
Definition list_item (l : list string) (idx : Z) : option string :=
  nth_error l (Z.to_nat idx).

(** [BlockchainConsole.create_transaction].  The three arguments are what
    [int(input(...))], [int(input(...))] and [float(input(...))] deliver;
    [None] is an input on which the conversion raises [ValueError].  Past
    the range checks the two list accesses and the lookup of the sender
    cannot fail; their failing branches are kept for totality and refuse the
    input.  An amount read as NaN or as an infinity has no rational value;
    [Binary64.create_transaction] covers it. *)
Definition create_transaction (sender_input receiver_input : option Z)
    (amount_input : option Q) (st : state) : submit_message * state :=
  if (length (accounts st) <? 2)%nat then (NeedTwoAccounts, st)
  else
    let accounts_list := dict_keys (accounts st) in
    match sender_input, receiver_input with
    | Some sender_no, Some receiver_no =>
        let sender_idx := (sender_no - 1)%Z in
        let receiver_idx := (receiver_no - 1)%Z in
        let n := Z.of_nat (length accounts_list) in
        if ((sender_idx <? 0) || (sender_idx >=? n))%Z
        then (InvalidSenderSelection, st)
        else if ((receiver_idx <? 0) || (receiver_idx >=? n))%Z
        then (InvalidReceiverSelection, st)
        else if (sender_idx =? receiver_idx)%Z
        then (SameSenderReceiver, st)
        else
          match list_item accounts_list sender_idx,
                list_item accounts_list receiver_idx with
          | Some sender_name, Some receiver_name =>
              match amount_input with
              | None => (InvalidInput, st)
              | Some amt =>
                  if Qleb amt 0 then (AmountNotPositive, st)
                  else
                    match dict_get sender_name (accounts st) with
                    | None => (InvalidInput, st)
                    | Some s =>
                        if Qltb (balance s) amt
                        then (InsufficientBalanceMsg, st)
                        else
                          let tx := mk_tx sender_name receiver_name amt in
                          (TransactionAdded tx, enqueue tx st)
                    end
              end
          | _, _ => (InvalidInput, st)
          end
    | _, _ => (InvalidInput, st)
    end.

(** [[name for i, name in enumerate(account_names) if i != sender_idx]]. *)
Fixpoint names_except (sender_idx : nat) (account_names : list string)
    : list string :=
  match account_names, sender_idx with
  | [], _ => []
  | _ :: rest, O => rest
  | name :: rest, S j => name :: names_except j rest
  end.

(** The "Add to Pending" handler of [streamlit_main.py].  [sender_idx] is
    the position chosen in the "From:" select box, [receiver_pos] the
    position chosen in the "To:" select box (whose options leave the sender
    out), [amt] the value of the amount field.  A select box always holds
    one of its options: a position outside the options stands for no
    selection at all.  The handler itself goes from the text of the chosen
    option back to a position with [list.index]; that step is followed in
    [Binary64.add_to_pending]. *)
Definition add_to_pending (sender_idx receiver_pos : nat) (amt : Q)
    (st : state) : submit_message * state :=
  if (length (accounts st) <? 2)%nat then (NeedTwoAccounts, st)
  else
    let account_names := dict_keys (accounts st) in
    match nth_error account_names sender_idx with
    | None => (NothingSelected, st)
    | Some sender_name =>
        let receiver_names := names_except sender_idx account_names in
        match nth_error receiver_names receiver_pos with
        | None => (NothingSelected, st)
        | Some receiver_name =>
            if nonempty sender_name && nonempty receiver_name && Qgtb amt 0
            then
              match dict_get sender_name (accounts st) with
              | None => (NothingSelected, st)
              | Some s =>
                  if Qgeb (balance s) amt then
                    let tx := mk_tx sender_name receiver_name amt in
                    (TransactionAdded tx, enqueue tx st)
                  else (InsufficientBalanceMsg, st)
              end
            else (FillAllFields, st)
        end
    end.

(* ----------------------------------------------------------------- *)
(** *** What the console shows as zakat due *)





(* ----------------------------------------------------------------- *)
(** *** Vocabulary of the statements *)

(** Python truth value of a returned value. *)
Definition truthy (v : pyvalue) : bool :=
  match v with
  | PyNone => false
  | PyBool b => b
  end.

(** Two stores give every account name the same roll number. *)
Definition same_rolls (accs accs' : account_dict) : Prop :=
  forall name,
    option_map roll_no (dict_get name accs')
    = option_map roll_no (dict_get name accs).

(** [e] is the log line of transfer [tx], with the roll numbers that
    [accs] gives to its two parties. *)
Definition records_transfer (accs : account_dict) (tx : TransactionWrapper)
    (e : entry) : Prop :=
  exists s r,
    dict_get (sender tx) accs = Some s
    /\ dict_get (receiver tx) accs = Some r
    /\ e = TransferRecord (sender tx) (roll_no s)
                          (receiver tx) (roll_no r) (amount tx).

(** The four constraints on a pending transfer, against a store. *)
Definition transfer_constraints (accs : account_dict)
    (tx : TransactionWrapper) : Prop :=
  sender tx <> receiver tx
  /\ 0 < amount tx
  /\ dict_mem (receiver tx) accs = true
  /\ exists s, dict_get (sender tx) accs = Some s /\ amount tx <= balance s.

(** The transfer that the three console inputs denote: the accounts
    listed under the two typed numbers, and the typed amount. *)
Definition console_selection (st : state)
    (sender_input receiver_input : option Z) (amount_input : option Q)
    (tx : TransactionWrapper) : Prop :=
  exists sender_no receiver_no,
    sender_input = Some sender_no
    /\ receiver_input = Some receiver_no
    /\ amount_input = Some (amount tx)
    /\ list_item (dict_keys (accounts st)) (sender_no - 1) = Some (sender tx)
    /\ list_item (dict_keys (accounts st)) (receiver_no - 1)
       = Some (receiver tx).

(** The transfer that the dashboard widgets denote. *)
Definition dashboard_selection (st : state) (sender_idx receiver_pos : nat)
    (amt : Q) (tx : TransactionWrapper) : Prop :=
  nth_error (dict_keys (accounts st)) sender_idx = Some (sender tx)
  /\ nth_error (names_except sender_idx (dict_keys (accounts st)))
               receiver_pos = Some (receiver tx)
  /\ amount tx = amt.

(** A submission either enqueues the one transfer that the input denotes,
    which then meets the four constraints, or changes nothing; it never
    touches the chain or the accounts. *)
Definition submission_sound (st : state)
    (selected : TransactionWrapper -> Prop) (r : submit_message * state)
    : Prop :=
  blockchain (snd r) = blockchain st
  /\ accounts (snd r) = accounts st
  /\ match fst r with
     | TransactionAdded tx =>
         pending_transactions (snd r) = pending_transactions st ++ [tx]
         /\ selected tx
         /\ transfer_constraints (accounts st) tx
     | _ => snd r = st
     end.

(** What the commit-time guards of [apply_to_accounts] ask for. *)
Definition commit_guards (accs : account_dict) (tx : TransactionWrapper)
    : Prop :=
  dict_mem (sender tx) accs = true
  /\ dict_mem (receiver tx) accs = true
  /\ exists s, dict_get (sender tx) accs = Some s /\ amount tx <= balance s.

(** [tx] names [name] as sender or receiver. *)
Definition involves (name : string) (tx : TransactionWrapper) : Prop :=
  sender tx = name \/ receiver tx = name.

End Ledger.

Arguments state D : clear implicits.

(* ================================================================= *)
(** ** The first dashboard ([main.py]) *)

Module Main.

(** [Transaction(sender, receiver, amount)] of [transaction.py], as far as
    [main.py] reads it. *)
Record Transaction : Type := mk_transaction {
  sender : string;
  receiver : string;
  amount : Q
}.

(** [st.session_state.accounts]: account name to balance, no roll
    number. *)
Definition account_dict := dict Q.

(** Modelled from the spec: [Transaction.apply(accounts)] of
    [transaction.py], the specified [apply_transfer]: fails when either
    account is missing, when [amount <= 0], or when the sender's balance is
    below [amount]; otherwise debits the sender and credits the receiver by
    exactly [amount] and hands back the store. *)
Definition apply (tx : Transaction) (accs : account_dict)
    : result account_dict :=
  match dict_get (sender tx) accs, dict_get (receiver tx) accs with
  | Some s, Some _ =>
      if Qleb (amount tx) 0 then Raise InvalidAmount
      else if Qltb s (amount tx) then Raise InsufficientBalance
      else
        let accs1 := dict_set (sender tx) (s - amount tx) accs in
        match dict_get (receiver tx) accs1 with
        | Some r => Ok (dict_set (receiver tx) (r + amount tx) accs1)
        | None => Raise (KeyError (receiver tx))
        end
  | _, _ => Raise SenderOrReceiverMissing
  end.

(** Body of [for account in accounts:] in [apply_zakat_to_accounts];
    [zakat_threshold = 1000]. *)
Definition zakat_step (s : account_dict * Q) (account_name : string)
    : account_dict * Q :=
  let '(accs, zakat_collected) := s in
  match dict_get account_name accs with
  | None => s
  | Some bal =>
      if Qgeb bal 1000 then
        let zakat_amount := calculate_zakat bal zakat_rate in
        (dict_set account_name (bal - zakat_amount) accs,
         zakat_collected + zakat_amount)
      else s
  end.

Definition apply_zakat_to_accounts (accs : account_dict)
    : account_dict * Q :=
  fold_left zakat_step (dict_keys accs) (accs, 0).

(** What the loop does to one balance. *)
Definition levied (bal : Q) : Q :=
  if Qgeb bal 1000 then bal - calculate_zakat bal zakat_rate else bal.

Section Ledger.
Context {D : Type} {H : Hasher D}.

Record state : Type := mk_state {
  blockchain : Blockchain D;
  accounts : account_dict;
  pending_transactions : list Transaction
}.

Fixpoint process_transactions (txs : list Transaction)
    (accs : account_dict) (transaction_records : list entry)
    : account_dict * result (list entry) :=
  match txs with
  | [] => (accs, Ok transaction_records)
  | tx :: rest =>
      match apply tx accs with
      | Raise e => (accs, Raise e)
      | Ok accs' =>
          process_transactions rest accs'
            (transaction_records
               ++ [PlainTransferRecord (sender tx) (receiver tx) (amount tx)])
      end
  end.

(** [process_pending_transactions] of [main.py], first its part after
    the queue gate; every block is added with [roll_no="2023"]. *)
Definition process_pending (now : Q) (st : state)
    : result pyvalue * state :=
  let '(accs1, zakat_collected) := apply_zakat_to_accounts (accounts st) in
  let records0 :=
    if Qgtb zakat_collected 0 then [ZakatCollection zakat_collected]
    else [] in
  match process_transactions (pending_transactions st) accs1 records0 with
  | (accs2, Raise _) =>
      (Ok (PyBool false),
       mk_state (blockchain st) accs2 (pending_transactions st))
  | (accs2, Ok transaction_records) =>
      let st2 := mk_state (blockchain st) accs2 (pending_transactions st) in
      match transaction_records with
      | [] => (Ok (PyBool false), st2)
      | _ :: _ =>
          match add_block transaction_records "2023" now (blockchain st) with
          | Some chain' => (Ok (PyBool true), mk_state chain' accs2 [])
          | None => (Ok (PyBool false), st2)
          end
      end
  end.

Definition process_pending_transactions (now : Q) (st : state)
    : result pyvalue * state :=
  match pending_transactions st with
  | [] => (Ok (PyBool false), st)
  | _ :: _ => process_pending now st
  end.

End Ledger.

Arguments state D : clear implicits.

End Main.

(* ================================================================= *)
(** ** A collision-free digest to run the model on *)

(** A digest that records what it was computed from: distinct contents
    give distinct digests. *)
Inductive sym_digest : Type :=
| SymSentinel
| SymHash (prev : sym_digest) (created_at : Q) (creator : string)
          (entries : list entry).

Definition Q_eq_dec (x y : Q) : {x = y} + {x <> y}.
Proof.
  decide equality; [apply Pos.eq_dec | apply Z.eq_dec].
Defined.

Definition zakat_detail_eq_dec (x y : zakat_detail) : {x = y} + {x <> y}.
Proof.
  decide equality; [apply Q_eq_dec | apply string_dec | apply string_dec].
Defined.

Definition entry_eq_dec (x y : entry) : {x = y} + {x <> y}.
Proof.
  decide equality;
    try apply Q_eq_dec; try apply string_dec; apply zakat_detail_eq_dec.
Defined.

Definition sym_digest_eq_dec (x y : sym_digest) : {x = y} + {x <> y}.
Proof.
  decide equality;
    [apply (list_eq_dec entry_eq_dec) | apply string_dec | apply Q_eq_dec].
Defined.

#[export] Instance sym_hasher : Hasher sym_digest := {
  digest_eq_dec := sym_digest_eq_dec;
  sentinel := SymSentinel;
  digest_of := SymHash
}.

(* ================================================================= *)
(** ** Sample ledgers *)

Module Demo.

(** Two accounts: ["A"] of roll [r1] with 1000, ["B"] of roll [r2] with
    50. *)
Definition accs : account_dict :=
  [("A", mk_account 1000 "r1"); ("B", mk_account 50 "r2")].

Definition chain : Blockchain sym_digest := new_blockchain "SYSTEM" 0.

Definition b_to_a : TransactionWrapper := mk_tx "B" "A" 50.
Definition a_to_b : TransactionWrapper := mk_tx "A" "B" 100.

(** ["B"] has submitted the same transfer of its whole balance twice;
    each submission was accepted, since submitting changes no balance. *)
Definition twice : state sym_digest := mk_state chain accs [b_to_a; b_to_a].

(** One pending transfer from the account that reaches both
    thresholds. *)
Definition one : state sym_digest := mk_state chain accs [a_to_b].

(** Nothing pending. *)
Definition idle : state sym_digest := mk_state chain accs [].

(** Two accounts below both thresholds and one transfer between them. *)
Definition small : state sym_digest :=
  mk_state chain
    [("A", mk_account 80 "r1"); ("B", mk_account 50 "r2")]
    [mk_tx "A" "B" 30].


(** The same ledger in [main.py]: names and balances only. *)
Definition main_accs : Main.account_dict := [("A", 1000); ("B", 50)].
Definition main_chain : Blockchain sym_digest := new_blockchain "2023" 0.

Definition main_from_a : Main.state sym_digest :=
  Main.mk_state main_chain main_accs [Main.mk_transaction "A" "B" 100].

Definition main_from_b : Main.state sym_digest :=
  Main.mk_state main_chain main_accs [Main.mk_transaction "B" "A" 10].

Definition main_idle : Main.state sym_digest :=
  Main.mk_state main_chain main_accs [].

(** A chain with one mined block. *)
Definition chain2 : Blockchain sym_digest :=
  chain ++ [Block.create (tail_digest chain) 1 "r1"
              [TransferRecord "A" "r1" "B" "r2" 100]].

End Demo.

(** Balances compared up to the representation of the fraction. *)
Definition shown_balance (name : string) (accs : account_dict) : option Q :=
  option_map Qred (balance_of name accs).

(** The second pending transfer of [st] fails to apply after the levy and
    the first one went through, mining returns [False] with chain and queue
    as before, and the balances of ["A"] and ["B"], 1000 and 50 before the
    call, are 1025 and 0 after it. *)
Definition failed_batch_visible (fe : frontend) (st : state sym_digest)
    : Prop :=
  let st' := snd (mine_block fe 1 st) in
  let levied_store := fst (fst (apply_zakat_to_accounts fe (accounts st))) in
  (exists tx1 tx2 accs1,
      pending_transactions st = [tx1; tx2]
      /\ apply_to_accounts tx1 levied_store = Ok accs1
      /\ apply_to_accounts tx2 accs1 = Raise InsufficientBalance)
  /\ fst (mine_block fe 1 st) = Ok (PyBool false)
  /\ blockchain st' = blockchain st
  /\ pending_transactions st' = pending_transactions st
  /\ shown_balance "A" (accounts st) = Some 1000
  /\ shown_balance "B" (accounts st) = Some 50
  /\ shown_balance "A" (accounts st') = Some 1025
  /\ shown_balance "B" (accounts st') = Some 0
  /\ accounts st' <> accounts st.

(* ================================================================= *)
(** ** Further functions of the front-ends *)

Section Frontends.
Context {D : Type} {H : Hasher D}.

(* ----------------------------------------------------------------- *)
(** *** Account creation in the dashboard ([streamlit_main.py]) *)

(** The "Create Account" handler: the account is inserted when the name
    and the roll number are non-empty and the name is new; the balance comes
    from a number field and is not checked by the handler. *)
Definition dashboard_create_account (new_account roll_number : string)
    (initial_balance : Q) (st : state D) : state D :=
  if nonempty new_account && nonempty roll_number
     && negb (dict_mem new_account (accounts st))
  then
    mk_state (blockchain st)
             (dict_set new_account (mk_account initial_balance roll_number)
                       (accounts st))
             (pending_transactions st)
  else st.

(* ----------------------------------------------------------------- *)
(** *** Console views *)

(** One line of [view_pending_transactions]:
    [f"{i}. {tx.sender} ({sender_roll}) -> {tx.receiver} ({receiver_roll}):
    {tx.amount}"]. *)
Record pending_row : Type := mk_pending_row {
  row_number : nat;
  row_sender : string;
  row_sender_roll : string;
  row_receiver : string;
  row_receiver_roll : string;
  row_amount : Q
}.

(** [for i, tx in enumerate(self.pending_transactions, 1):] with the two
    roll lookups; the lines printed so far are kept when a lookup raises. *)
Fixpoint pending_rows (accs : account_dict) (i : nat)
    (txs : list TransactionWrapper) : list pending_row * option exn :=
  match txs with
  | [] => ([], None)
  | tx :: rest =>
      match dict_get (sender tx) accs with
      | None => ([], Some (KeyError (sender tx)))
      | Some s =>
          match dict_get (receiver tx) accs with
          | None => ([], Some (KeyError (receiver tx)))
          | Some r =>
              let '(rows, err) := pending_rows accs (S i) rest in
              (mk_pending_row i (sender tx) (roll_no s)
                              (receiver tx) (roll_no r) (amount tx) :: rows,
               err)
          end
      end
  end.

(** [BlockchainConsole.view_pending_transactions]; an empty queue prints
    "No pending transactions." and no line. *)
Definition view_pending_transactions (st : state D)
    : list pending_row * option exn :=
  pending_rows (accounts st) 1 (pending_transactions st).

(** [BlockchainConsole.validate_blockchain]: the verdict of
    [self.blockchain.is_valid()]. *)
Definition validate_blockchain (st : state D) : bool :=
  is_valid (blockchain st).

(* ----------------------------------------------------------------- *)
(** *** The account list of the dashboard ([streamlit_main.py]) *)


(* ----------------------------------------------------------------- *)
(** *** The block explorer of the dashboards *)

(** [enumerate(l)]. *)
Definition enumerate {A : Type} (l : list A) : list (nat * A) :=
  combine (seq 0 (length l)) l.

(** [for i, block in enumerate(reversed(chain)):
       block_index = len(chain) - i - 1]
    ([streamlit_main.py], [main.py]): the blocks, newest first, each with
    the index shown in its header. *)
Definition blockchain_view (chain : Blockchain D)
    : list (nat * Block.t D) :=
  map (fun ib => (length chain - fst ib - 1, snd ib))%nat
      (enumerate (rev chain)).

(* ----------------------------------------------------------------- *)
(** *** Vocabulary of the further statements *)

(** Every queued transfer names two existing accounts. *)
Definition known_parties (accs : account_dict)
    (txs : list TransactionWrapper) : Prop :=
  Forall (fun tx => dict_mem (sender tx) accs = true
                    /\ dict_mem (receiver tx) accs = true) txs.

(** The state of a fresh [BlockchainConsole]: a chain, no account,
    nothing pending. *)
Definition fresh_session (chain : Blockchain D) : state D :=
  mk_state chain [] [].

End Frontends.

Module MainMore.

Section Ledger.
Context {D : Type} {H : Hasher D}.

(** The "Create Account" handler of [main.py]: the account is inserted
    when the name is non-empty and new. *)
Definition create_account (new_account : string) (initial_balance : Q)
    (st : Main.state D) : Main.state D :=
  if nonempty new_account && negb (dict_mem new_account (Main.accounts st))
  then
    Main.mk_state (Main.blockchain st)
                  (dict_set new_account initial_balance (Main.accounts st))
                  (Main.pending_transactions st)
  else st.

(** The "Add to Pending" handler of [main.py].  [sender_idx] is the
    position chosen in the "From:" select box over the account names,
    [receiver_pos] the position chosen in the "To:" select box over the
    names different from the sender, [amt] the value of the amount field.
    [None] stands for a state that shows no form or a select box without a
    value; otherwise the message is "Transaction added" ([Some true], with
    the transfer appended) or an error ([Some false]). *)
Definition add_to_pending (sender_idx receiver_pos : nat) (amt : Q)
    (st : Main.state D) : option bool * Main.state D :=
  if (length (Main.accounts st) <? 2)%nat then (None, st)
  else
    let names := dict_keys (Main.accounts st) in
    match nth_error names sender_idx with
    | None => (None, st)
    | Some sender_name =>
        let receivers :=
          filter (fun acc => negb (String.eqb acc sender_name)) names in
        match nth_error receivers receiver_pos with
        | None => (None, st)
        | Some receiver_name =>
            if nonempty sender_name && nonempty receiver_name && Qgtb amt 0
            then
              match dict_get sender_name (Main.accounts st) with
              | None => (None, st)
              | Some bal =>
                  if Qgeb bal amt then
                    (Some true,
                     Main.mk_state (Main.blockchain st) (Main.accounts st)
                       (Main.pending_transactions st
                          ++ [Main.mk_transaction sender_name receiver_name
                                                  amt]))
                  else (Some false, st)
              end
            else (Some false, st)
        end
    end.

End Ledger.

End MainMore.

(** Further sample ledgers. *)
Module Demo2.

(** A session after two account creations and one accepted
    submission. *)
Definition session : state sym_digest :=
  snd (create_transaction (Some 1%Z) (Some 2%Z) (Some 200)
         (create_account "B" "r2" (Some 500)
            (create_account "A" "r1" (Some 1000)
               (mk_state Demo.chain [] [])))).

End Demo2.

(* ================================================================= *)
(** ** The ledger over binary64 numbers

    A Python [float] is an IEEE 754 binary64 number: every sum, difference
    and product is rounded to the nearest representable number (ties to
    even), [float(input(...))] also delivers NaN and the infinities, and
    every comparison with NaN is false.  The definitions of this module are
    taken from the same source lines as their namesakes above, with balances
    and amounts of type [float], the binary64 numbers of the kernel.  They
    carry the statements that depend on the result of an arithmetic
    operation, or on the values that the console reads as numbers. *)

Module Binary64.
Local Open Scope float_scope.
#[local] Set Warnings "-inexact-float".

(** Python [x >= y] and [x > y]. *)
Definition geb (x y : float) : bool := y <=? x.
Definition gtb (x y : float) : bool := y <? x.

(** The rational number that a finite [float] stands for: sign, integer
    significand and binary exponent multiplied out.  NaN and the infinities
    stand for no number. *)
Definition exact (x : float) : option Q :=
  match Prim2SF x with
  | S754_zero _ => Some 0%Q
  | S754_finite s m e =>
      Some ((if s then -1 else 1) * inject_Z (Zpos m) * Qpower 2 e)%Q
  | S754_infinity _ | S754_nan => None
  end.

(* ----------------------------------------------------------------- *)
(** *** Accounts and the levy *)

(** One value of [self.accounts] / [st.session_state.accounts]:
    [{"balance": amount, "roll_no": roll_number}]. *)
Record account : Type := mk_account {
  balance : float;
  roll_no : string
}.

Definition account_dict := dict account.

(** [accounts[name]["balance"] = b]. *)
Definition with_balance (b : float) (a : account) : account :=
  mk_account b (roll_no a).

(** The sum of the balances as rational numbers, when all are finite. *)
Fixpoint exact_total (accs : account_dict) : option Q :=
  match accs with
  | [] => Some 0%Q
  | (_, a) :: rest =>
      match exact (balance a), exact_total rest with
      | Some x, Some t => Some (x + t)%Q
      | _, _ => None
      end
  end.

(** Default value of the [rate] argument, the literal [0.025]: the
    binary64 number nearest to 1/40. *)
Definition zakat_rate : float := 0.025.

(** [calculate_zakat(balance, rate=0.025)]: [balance * rate]. *)
Definition calculate_zakat (bal rate : float) : float := bal * rate.

(** The three values interpolated into one item of [zakat_details],
    [f"{account_name} ({roll_no}): {zakat_amount:.2f}"]; the text itself
    shows the amount with two decimals. *)
Record zakat_detail : Type := mk_detail {
  detail_account : string;
  detail_roll : string;
  detail_amount : float
}.

Definition zakat_acc : Type :=
  (account_dict * float * list zakat_detail)%type.

(** Body of [for account_name in accounts:].  [zakat_collected] starts as
    the integer [0], which [+=] converts to [0.0]. *)
Definition zakat_step (zakat_threshold : float) (s : zakat_acc)
    (account_name : string) : zakat_acc :=
  let '(accs, zakat_collected, zakat_details) := s in
  match dict_get account_name accs with
  | None => s
  | Some a =>
      let bal := balance a in
      if geb bal zakat_threshold then
        let zakat_amount := calculate_zakat bal zakat_rate in
        (dict_set account_name (with_balance (bal - zakat_amount) a) accs,
         zakat_collected + zakat_amount,
         zakat_details ++ [mk_detail account_name (roll_no a) zakat_amount])
      else s
  end.

Definition apply_zakat_with (zakat_threshold : float) (accs : account_dict)
    : zakat_acc :=
  fold_left (zakat_step zakat_threshold) (dict_keys accs) (accs, 0, []).

(** [zakat_threshold = 100] in [console_main.py],
    [zakat_threshold = 1000] in [streamlit_main.py]. *)
Definition zakat_threshold (fe : frontend) : float :=
  match fe with
  | Console => 100
  | Streamlit => 1000
  end.

Definition apply_zakat_to_accounts (fe : frontend) (accs : account_dict)
    : zakat_acc :=
  apply_zakat_with (zakat_threshold fe) accs.

(** What the loop does to one item, and the items it records. *)
Definition levied (t : float) (a : account) : account :=
  if geb (balance a) t
  then with_balance (balance a - calculate_zakat (balance a) zakat_rate) a
  else a.

Definition levied_item (t : float) (kv : string * account)
    : string * account :=
  (fst kv, levied t (snd kv)).

Definition qualifies (t : float) (kv : string * account) : bool :=
  geb (balance (snd kv)) t.

Definition detail_of (kv : string * account) : zakat_detail :=
  mk_detail (fst kv) (roll_no (snd kv))
            (calculate_zakat (balance (snd kv)) zakat_rate).

Definition collect (c : float) (kv : string * account) : float :=
  c + calculate_zakat (balance (snd kv)) zakat_rate.

(** The levy of [main.py], on a store from account name to balance. *)
Module Main.

Definition account_dict := dict float.

(** Body of [for account in accounts:] in [apply_zakat_to_accounts];
    [zakat_threshold = 1000]. *)
Definition zakat_step (s : account_dict * float) (account_name : string)
    : account_dict * float :=
  let '(accs, zakat_collected) := s in
  match dict_get account_name accs with
  | None => s
  | Some bal =>
      if geb bal 1000 then
        let zakat_amount := calculate_zakat bal zakat_rate in
        (dict_set account_name (bal - zakat_amount) accs,
         zakat_collected + zakat_amount)
      else s
  end.

Definition apply_zakat_to_accounts (accs : account_dict)
    : account_dict * float :=
  fold_left zakat_step (dict_keys accs) (accs, 0).

(** What the loop does to one balance. *)
Definition levied (bal : float) : float :=
  if geb bal 1000 then bal - calculate_zakat bal zakat_rate else bal.

End Main.

(* ----------------------------------------------------------------- *)
(** *** Transfers *)

(** [TransactionWrapper(sender, receiver, amount)]. *)
Record TransactionWrapper : Type := mk_tx {
  sender : string;
  receiver : string;
  amount : float
}.

Definition update_balance (name : string) (f : float -> float)
    (accs : account_dict) : account_dict :=
  match dict_get name accs with
  | Some a => dict_set name (with_balance (f (balance a)) a) accs
  | None => accs
  end.

(** [TransactionWrapper.apply_to_accounts]: the two guards, then
    [balance -= amount] for the sender and [balance += amount] for the
    receiver, each on the store as it then stands. *)
Definition apply_to_accounts (tx : TransactionWrapper) (accs : account_dict)
    : result account_dict :=
  if negb (dict_mem (sender tx) accs) || negb (dict_mem (receiver tx) accs)
  then Raise SenderOrReceiverMissing
  else
    match dict_get (sender tx) accs with
    | None => Raise (KeyError (sender tx))
    | Some s =>
        if balance s <? amount tx then Raise InsufficientBalance
        else
          let accs1 :=
            update_balance (sender tx) (fun b => b - amount tx) accs in
          Ok (update_balance (receiver tx) (fun b => b + amount tx) accs1)
    end.

(** One element of [transaction_records], by the values interpolated
    into its f-string. *)
Inductive entry : Type :=
| ZakatCollection (zakat_collected : float)
    (** [f"Zakat Collection: {zakat_collected:.2f} collected"] *)
| ZakatFrom (d : zakat_detail)
    (** [f"  Zakat from {detail}"] *)
| TransferRecord (snd_name snd_roll rcv_name rcv_roll : string) (amt : float).
    (** [f"{sender} ({sender_roll}) -> {receiver} ({receiver_roll}): {amount}"] *)

(** Message shown by the submission code. *)
Inductive submit_message : Type :=
| NeedTwoAccounts          (** "Need at least 2 accounts to create transactions!",
                               in the dashboard "You need at least 2 accounts
                               to perform transactions." *)
| InvalidSenderSelection   (** "Invalid sender selection!" *)
| InvalidReceiverSelection (** "Invalid receiver selection!" *)
| SameSenderReceiver       (** "Sender and receiver cannot be the same!" *)
| AmountNotPositive        (** "Amount must be positive!" *)
| InsufficientBalanceMsg   (** "Insufficient balance!" *)
| InvalidInput             (** "Invalid input!" *)
| FillAllFields            (** "Please fill all fields with valid values." *)
| NothingSelected          (** a select box holding none of its options *)
| TransactionAdded (tx : TransactionWrapper).

(** [f"{name} ({data['roll_no']})"], the text of an account in the select
    boxes of [streamlit_main.py]. *)
Definition account_option (kv : string * account) : string :=
  (fst kv ++ " (" ++ roll_no (snd kv) ++ ")")%string.

(** [l.index(x)]: the first position holding [x]; [None] stands for
    [ValueError]. *)
Fixpoint index (x : string) (l : list string) : option nat :=
  match l with
  | [] => None
  | y :: rest =>
      if String.eqb y x then Some O
      else option_map S (index x rest)
  end.

(** [[v for i, v in enumerate(l) if i != sender_idx]]. *)
Fixpoint except (sender_idx : nat) (l : list string) : list string :=
  match l, sender_idx with
  | [], _ => []
  | _ :: rest, O => rest
  | v :: rest, S j => v :: except j rest
  end.

(* ----------------------------------------------------------------- *)
(** *** Session state, submission and mining *)

Section Ledger.

(** [miner.py] is not among the sources.  The chain object and the call
    [blockchain.add_block(transactions=..., roll_no=...)] are parameters:
    the call hands back the truth value of what [add_block] returns and the
    chain as it then is. *)
Variable chain : Type.
Variable add_block : list entry -> string -> chain -> bool * chain.

Record state : Type := mk_state {
  blockchain : chain;
  accounts : account_dict;
  pending_transactions : list TransactionWrapper
}.

(** State of a front-end that has just been started. *)
Definition fresh_session (c : chain) : state := mk_state c [] [].

(** [BlockchainConsole.create_account], on the stripped inputs;
    [initial_balance] is [None] when [float(input(...))] raises
    [ValueError], and any [float] otherwise, NaN and the infinities
    included. *)
Definition create_account (account_name roll : string)
    (initial_balance : option float) (st : state) : state :=
  if negb (nonempty account_name) then st
  else if dict_mem account_name (accounts st) then st
  else if negb (nonempty roll) then st
  else
    match initial_balance with
    | None => st
    | Some b =>
        if b <? 0 then st
        else
          mk_state (blockchain st)
                   (dict_set account_name (mk_account b roll) (accounts st))
                   (pending_transactions st)
    end.

(** The "Create Account" handler of [streamlit_main.py]. *)
Definition dashboard_create_account (new_account roll_number : string)
    (initial_balance : float) (st : state) : state :=
  if nonempty new_account && nonempty roll_number
     && negb (dict_mem new_account (accounts st))
  then
    mk_state (blockchain st)
             (dict_set new_account (mk_account initial_balance roll_number)
                       (accounts st))
             (pending_transactions st)
  else st.

Definition enqueue (tx : TransactionWrapper) (st : state) : state :=
  mk_state (blockchain st) (accounts st) (pending_transactions st ++ [tx]).

(** [BlockchainConsole.create_transaction].  The three arguments are what
    [int(input(...))], [int(input(...))] and [float(input(...))] deliver;
    [None] is an input on which the conversion raises [ValueError].  Past
    the range checks the two list accesses and the lookup of the sender
    cannot fail; their failing branches are kept for totality and refuse the
    input. *)
Definition create_transaction (sender_input receiver_input : option Z)
    (amount_input : option float) (st : state) : submit_message * state :=
  if (length (accounts st) <? 2)%nat then (NeedTwoAccounts, st)
  else
    let accounts_list := dict_keys (accounts st) in
    match sender_input, receiver_input with
    | Some sender_no, Some receiver_no =>
        let sender_idx := (sender_no - 1)%Z in
        let receiver_idx := (receiver_no - 1)%Z in
        let n := Z.of_nat (length accounts_list) in
        if ((sender_idx <? 0) || (sender_idx >=? n))%Z
        then (InvalidSenderSelection, st)
        else if ((receiver_idx <? 0) || (receiver_idx >=? n))%Z
        then (InvalidReceiverSelection, st)
        else if (sender_idx =? receiver_idx)%Z
        then (SameSenderReceiver, st)
        else
          match list_item accounts_list sender_idx,
                list_item accounts_list receiver_idx with
          | Some sender_name, Some receiver_name =>
              match amount_input with
              | None => (InvalidInput, st)
              | Some amt =>
                  if amt <=? 0 then (AmountNotPositive, st)
                  else
                    match dict_get sender_name (accounts st) with
                    | None => (InvalidInput, st)
                    | Some s =>
                        if balance s <? amt
                        then (InsufficientBalanceMsg, st)
                        else
                          let tx := mk_tx sender_name receiver_name amt in
                          (TransactionAdded tx, enqueue tx st)
                    end
              end
          | _, _ => (InvalidInput, st)
          end
    | _, _ => (InvalidInput, st)
    end.

(** The "Add to Pending" handler of [streamlit_main.py].  [sender_option]
    and [receiver_option] are the texts held by the two select boxes, [amt]
    the value of the amount field.  The handler finds the sender by
    [account_options.index(sender_option)] and the receiver by
    [receiver_options.index(receiver_option)], the receiver's lists leaving
    out the sender's position.  A select box holds one of its options: a
    text that is none of them stands for no selection. *)
Definition add_to_pending (sender_option receiver_option : string)
    (amt : float) (st : state) : submit_message * state :=
  if (length (accounts st) <? 2)%nat then (NeedTwoAccounts, st)
  else
    let account_options := map account_option (accounts st) in
    let account_names := dict_keys (accounts st) in
    match index sender_option account_options with
    | None => (NothingSelected, st)
    | Some sender_idx =>
        match nth_error account_names sender_idx with
        | None => (NothingSelected, st)
        | Some sender_name =>
            let receiver_options := except sender_idx account_options in
            let receiver_names := except sender_idx account_names in
            match index receiver_option receiver_options with
            | None => (NothingSelected, st)
            | Some receiver_pos =>
                match nth_error receiver_names receiver_pos with
                | None => (NothingSelected, st)
                | Some receiver_name =>
                    if nonempty sender_name && nonempty receiver_name
                       && gtb amt 0
                    then
                      match dict_get sender_name (accounts st) with
                      | None => (NothingSelected, st)
                      | Some s =>
                          if geb (balance s) amt then
                            let tx := mk_tx sender_name receiver_name amt in
                            (TransactionAdded tx, enqueue tx st)
                          else (InsufficientBalanceMsg, st)
                      end
                    else (FillAllFields, st)
                end
            end
        end
    end.

(** The record appended after a transfer has been applied. *)
Definition transfer_record (tx : TransactionWrapper) (accs : account_dict)
    : result entry :=
  match dict_get (sender tx) accs with
  | None => Raise (KeyError (sender tx))
  | Some s =>
      match dict_get (receiver tx) accs with
      | None => Raise (KeyError (receiver tx))
      | Some r =>
          Ok (TransferRecord (sender tx) (roll_no s)
                             (receiver tx) (roll_no r) (amount tx))
      end
  end.

(** [for transaction in pending_transactions: try: ... except: return
    False]. *)
Fixpoint process_transactions (txs : list TransactionWrapper)
    (accs : account_dict) (transaction_records : list entry)
    : account_dict * result (list entry) :=
  match txs with
  | [] => (accs, Ok transaction_records)
  | tx :: rest =>
      match apply_to_accounts tx accs with
      | Raise e => (accs, Raise e)
      | Ok accs' =>
          match transfer_record tx accs' with
          | Raise e => (accs', Raise e)
          | Ok r => process_transactions rest accs' (transaction_records ++ [r])
          end
      end
  end.

(** [if zakat_collected > 0: transaction_records.append(...) ...]. *)
Definition zakat_records (fe : frontend) (zakat_collected : float)
    (zakat_details : list zakat_detail) : list entry :=
  if gtb zakat_collected 0 then
    ZakatCollection zakat_collected
      :: (if logs_zakat_details fe then map ZakatFrom zakat_details else [])
  else [].

Definition miner_roll_of (accs : account_dict)
    (pending : list TransactionWrapper) : result string :=
  match pending with
  | [] => Ok "SYSTEM"%string
  | first :: _ =>
      match dict_get (sender first) accs with
      | Some a => Ok (roll_no a)
      | None => Raise (KeyError (sender first))
      end
  end.

(** The part of [mine_block] / [process_pending_transactions] that
    follows the queue gate: levy, transfer loop, block creation. *)
Definition mine_pending (fe : frontend) (st : state)
    : result pyvalue * state :=
  let '(accs1, zakat_collected, zakat_details) :=
    apply_zakat_to_accounts fe (accounts st) in
  let records0 := zakat_records fe zakat_collected zakat_details in
  match process_transactions (pending_transactions st) accs1 records0 with
  | (accs2, Raise _) =>
      (Ok (PyBool false),
       mk_state (blockchain st) accs2 (pending_transactions st))
  | (accs2, Ok transaction_records) =>
      let st2 := mk_state (blockchain st) accs2 (pending_transactions st) in
      match transaction_records with
      | [] => (Ok (PyBool false), st2)
      | _ :: _ =>
          match miner_roll_of accs2 (pending_transactions st) with
          | Raise e => (Raise e, st2)
          | Ok miner_roll =>
              let '(block_success, chain') :=
                add_block transaction_records miner_roll (blockchain st) in
              if block_success
              then (Ok (PyBool true), mk_state chain' accs2 [])
              else (Ok (PyBool false),
                    mk_state chain' accs2 (pending_transactions st))
          end
      end
  end.

Definition mine_block (fe : frontend) (st : state)
    : result pyvalue * state :=
  match pending_transactions st with
  | [] => (Ok (empty_batch_return fe), st)
  | _ :: _ => mine_pending fe st
  end.

(* ----------------------------------------------------------------- *)
(** *** Vocabulary of the statements *)

(** The constraints on a submitted transfer, by the comparisons that the
    code makes: the parties differ and exist, [amount <= 0] is false, and
    [balance < amount] is false for the sender's balance. *)
Definition transfer_constraints (accs : account_dict)
    (tx : TransactionWrapper) : Prop :=
  sender tx <> receiver tx
  /\ (amount tx <=? 0) = false
  /\ dict_mem (receiver tx) accs = true
  /\ exists s,
       dict_get (sender tx) accs = Some s
       /\ (balance s <? amount tx) = false.

(** The transfer that the three console inputs denote. *)
Definition console_selection (st : state)
    (sender_input receiver_input : option Z) (amount_input : option float)
    (tx : TransactionWrapper) : Prop :=
  exists sender_no receiver_no,
    sender_input = Some sender_no
    /\ receiver_input = Some receiver_no
    /\ amount_input = Some (amount tx)
    /\ list_item (dict_keys (accounts st)) (sender_no - 1)%Z
       = Some (sender tx)
    /\ list_item (dict_keys (accounts st)) (receiver_no - 1)%Z
       = Some (receiver tx).

(** The transfer that the dashboard widgets denote: the sender is the
    first account shown as [sender_option], the receiver the first account
    shown as [receiver_option] once the sender's position is left out. *)
Definition dashboard_selection (st : state)
    (sender_option receiver_option : string) (amt : float)
    (tx : TransactionWrapper) : Prop :=
  exists sender_idx receiver_pos,
    index sender_option (map account_option (accounts st)) = Some sender_idx
    /\ nth_error (dict_keys (accounts st)) sender_idx = Some (sender tx)
    /\ index receiver_option
             (except sender_idx (map account_option (accounts st)))
       = Some receiver_pos
    /\ nth_error (except sender_idx (dict_keys (accounts st))) receiver_pos
       = Some (receiver tx)
    /\ amount tx = amt.

(** A submission either enqueues the one transfer that the input denotes,
    which then meets the constraints, or changes nothing; it never touches
    the chain or the accounts. *)
Definition submission_sound (st : state)
    (selected : TransactionWrapper -> Prop) (r : submit_message * state)
    : Prop :=
  blockchain (snd r) = blockchain st
  /\ accounts (snd r) = accounts st
  /\ match fst r with
     | TransactionAdded tx =>
         pending_transactions (snd r) = pending_transactions st ++ [tx]
         /\ selected tx
         /\ transfer_constraints (accounts st) tx
     | _ => snd r = st
     end.

(** What the commit-time guards of [apply_to_accounts] ask for. *)
Definition commit_guards (accs : account_dict) (tx : TransactionWrapper)
    : Prop :=
  dict_mem (sender tx) accs = true
  /\ dict_mem (receiver tx) accs = true
  /\ exists s,
       dict_get (sender tx) accs = Some s
       /\ (balance s <? amount tx) = false.

(** What the submission checks leave in the queue. *)
Definition queue_checked (st : state) : Prop :=
  dict_wf (accounts st)
  /\ forall tx,
       In tx (pending_transactions st) ->
       sender tx <> receiver tx
       /\ dict_mem (sender tx) (accounts st) = true
       /\ dict_mem (receiver tx) (accounts st) = true
       /\ (amount tx <=? 0) = false.

End Ledger.

Arguments mk_state {chain}.
Arguments blockchain {chain}.
Arguments accounts {chain}.
Arguments pending_transactions {chain}.
Arguments fresh_session {chain}.
Arguments create_account {chain}.
Arguments dashboard_create_account {chain}.
Arguments enqueue {chain}.
Arguments create_transaction {chain}.
Arguments add_to_pending {chain}.
Arguments mine_pending {chain}.
Arguments mine_block {chain}.
Arguments console_selection {chain}.
Arguments dashboard_selection {chain}.
Arguments submission_sound {chain}.
Arguments queue_checked {chain}.

(** Modelled from the spec: [Blockchain.add_block(transactions, roll_no)]
    of [miner.py], which is not among the sources, as far as the entries
    go: an empty entry list is refused, any other is appended as a new
    block.  Of a block only the creator and the entries are kept. *)
Definition block_log : Type := list (string * list entry).

Definition log_add_block (txs : list entry) (roll : string) (c : block_log)
    : bool * block_log :=
  match txs with
  | [] => (false, c)
  | _ :: _ => (true, c ++ [(roll, txs)])
  end.

(** Sample sessions, each built from a fresh start with the operations of
    the console or of the dashboard. *)
Module Demo.

Definition start : state block_log := fresh_session [].

(** Accounts ["A"] with 1e16 and ["B"] with 1; ["A"] submits 1 to
    ["B"]. *)
Definition large_accounts : state block_log :=
  create_account "B" "r2" (Some 1)
    (create_account "A" "r1" (Some 1e16) start).

Definition large : submit_message * state block_log :=
  create_transaction (Some 1%Z) (Some 2%Z) (Some 1) large_accounts.

(** One account holding 104, opened in the console, and one holding
    1002, opened in the dashboard. *)
Definition levy_104 : state block_log :=
  create_account "A" "r1" (Some 104) start.

Definition levy_1002 : state block_log :=
  dashboard_create_account "A" "r1" 1002 start.

(** Accounts ["A"] with 50 and ["B"] with 20; ["A"] submits to ["B"] the
    amount typed as [nan]. *)
Definition nan_accounts : state block_log :=
  create_account "B" "r2" (Some 20)
    (create_account "A" "r1" (Some 50) start).

Definition nan_submitted : submit_message * state block_log :=
  create_transaction (Some 1%Z) (Some 2%Z) (Some nan) nan_accounts.

(** Accounts ["A"] with 1000 and ["B"] with 50, created in the
    dashboard. *)
Definition plain_accounts : state block_log :=
  dashboard_create_account "B" "r2" 50
    (dashboard_create_account "A" "r1" 1000 start).


End Demo.

End Binary64.
(* ================================================================= *)
(** * Properties *)

(** ** Comparisons *)

Lemma Qgeb_true (x y : Q) : Qgeb x y = true <-> y <= x.
Proof. unfold Qgeb. apply Qle_bool_iff. Qed.

Lemma Qgeb_false (x y : Q) : Qgeb x y = false <-> x < y.
Proof.
  unfold Qgeb. split; intro H.
  - apply Qnot_le_lt. intro L. apply Qle_bool_iff in L. congruence.
  - destruct (Qle_bool y x) eqn:E; [|reflexivity].
    apply Qle_bool_iff in E. exfalso. exact (Qlt_not_le _ _ H E).
Qed.

Lemma Qltb_true (x y : Q) : Qltb x y = true <-> x < y.
Proof.
  unfold Qltb. rewrite negb_true_iff. apply (Qgeb_false x y).
Qed.

Lemma Qltb_false (x y : Q) : Qltb x y = false <-> y <= x.
Proof.
  unfold Qltb. rewrite negb_false_iff. apply (Qgeb_true x y).
Qed.

Lemma Qgtb_true (x y : Q) : Qgtb x y = true <-> y < x.
Proof. unfold Qgtb. rewrite negb_true_iff. apply (Qgeb_false y x). Qed.

Lemma Qgtb_false (x y : Q) : Qgtb x y = false <-> x <= y.
Proof. unfold Qgtb. rewrite negb_false_iff. apply (Qgeb_true y x). Qed.

Lemma Qleb_true (x y : Q) : Qleb x y = true <-> x <= y.
Proof. unfold Qleb. apply Qle_bool_iff. Qed.

Lemma Qleb_false (x y : Q) : Qleb x y = false <-> y < x.
Proof. apply (Qgeb_false y x). Qed.

(* ================================================================= *)
(** ** Facts about dictionaries *)

Section DictFacts.
Variable V : Type.

Lemma dict_get_In (k : string) (d : dict V) (v : V) :
  dict_get k d = Some v -> In (k, v) d.
Proof.
  induction d as [|[k' v'] rest IH]; simpl; [discriminate|].
  destruct (String.eqb_spec k k') as [->|Hne]; intro H.
  - injection H as ->. now left.
  - right. now apply IH.
Qed.

Lemma dict_get_key (k : string) (d : dict V) (v : V) :
  dict_get k d = Some v -> In k (dict_keys d).
Proof.
  intro H. apply dict_get_In in H.
  unfold dict_keys. change k with (fst (k, v)). now apply in_map.
Qed.

Lemma dict_get_None (k : string) (d : dict V) :
  dict_get k d = None <-> ~ In k (dict_keys d).
Proof.
  induction d as [|[k' v'] rest IH]; simpl.
  - tauto.
  - destruct (String.eqb_spec k k') as [->|Hne].
    + split; [discriminate | intro H; exfalso; apply H; now left].
    + rewrite IH. split; intro H.
      * intros [E|I]; [congruence | tauto].
      * intro I. apply H. now right.
Qed.

Lemma dict_mem_true (k : string) (d : dict V) :
  dict_mem k d = true <-> In k (dict_keys d).
Proof.
  unfold dict_mem. destruct (dict_get k d) eqn:E.
  - split; [intros _; eapply dict_get_key; eauto | reflexivity].
  - apply dict_get_None in E. split; [discriminate | tauto].
Qed.


Lemma dict_keys_set (k : string) (v : V) (d : dict V) :
  In k (dict_keys d) -> dict_keys (dict_set k v d) = dict_keys d.
Proof.
  induction d as [|[k' v'] rest IH]; simpl; [tauto|].
  intros H. destruct (String.eqb_spec k k') as [->|Hne]; simpl.
  - reflexivity.
  - f_equal. apply IH. destruct H; [congruence | assumption].
Qed.

Lemma dict_get_set_same (k : string) (v : V) (d : dict V) :
  dict_get k (dict_set k v d) = Some v.
Proof.
  induction d as [|[k' v'] rest IH]; simpl.
  - now rewrite String.eqb_refl.
  - destruct (String.eqb_spec k k') as [->|Hne]; simpl.
    + now rewrite String.eqb_refl.
    + destruct (String.eqb_spec k k'); [congruence | exact IH].
Qed.

Lemma dict_get_set_other (k k0 : string) (v : V) (d : dict V) :
  k0 <> k -> dict_get k0 (dict_set k v d) = dict_get k0 d.
Proof.
  intro Hne. induction d as [|[k' v'] rest IH]; simpl.
  - destruct (String.eqb_spec k0 k); [congruence | reflexivity].
  - destruct (String.eqb_spec k k') as [->|Hne']; simpl.
    + destruct (String.eqb_spec k0 k'); [congruence | reflexivity].
    + destruct (String.eqb_spec k0 k'); [reflexivity | exact IH].
Qed.

Lemma dict_wf_set (k : string) (v : V) (d : dict V) :
  In k (dict_keys d) -> dict_wf d -> dict_wf (dict_set k v d).
Proof.
  unfold dict_wf. intros H Hwf. now rewrite dict_keys_set.
Qed.

(** Position-wise view of an update, used to follow a loop over the keys
    of the dictionary it mutates. *)
Lemma dict_get_middle (pre post : dict V) (k : string) (v : V) :
  ~ In k (dict_keys pre) -> dict_get k (pre ++ (k, v) :: post) = Some v.
Proof.
  induction pre as [|[k' v'] pre IH]; simpl; intro H.
  - now rewrite String.eqb_refl.
  - destruct (String.eqb_spec k k') as [->|Hne].
    + exfalso. apply H. now left.
    + apply IH. intro I. apply H. now right.
Qed.

Lemma dict_set_middle (pre post : dict V) (k : string) (v w : V) :
  ~ In k (dict_keys pre) ->
  dict_set k w (pre ++ (k, v) :: post) = pre ++ (k, w) :: post.
Proof.
  induction pre as [|[k' v'] pre IH]; simpl; intro H.
  - now rewrite String.eqb_refl.
  - destruct (String.eqb_spec k k') as [->|Hne].
    + exfalso. apply H. now left.
    + f_equal. apply IH. intro I. apply H. now right.
Qed.
Lemma dict_keys_set_new (k : string) (v : V) (d : dict V) :
  ~ In k (dict_keys d) -> dict_keys (dict_set k v d) = dict_keys d ++ [k].
Proof.
  induction d as [|[k' v'] rest IH]; simpl; intro Hn; [reflexivity|].
  destruct (String.eqb_spec k k') as [->|Hne].
  - exfalso. apply Hn. now left.
  - simpl. f_equal. apply IH. intro I. apply Hn. now right.
Qed.

Lemma dict_wf_set_any (k : string) (v : V) (d : dict V) :
  dict_wf d -> dict_wf (dict_set k v d).
Proof.
  intro Hwf. destruct (in_dec string_dec k (dict_keys d)) as [I|Hn].
  - now apply dict_wf_set.
  - unfold dict_wf. rewrite dict_keys_set_new by exact Hn.
    apply NoDup_app; [exact Hwf | repeat constructor; simpl; tauto |].
    intros x Hx [<-|[]]. contradiction.
Qed.

End DictFacts.

(* ================================================================= *)
(** ** The levy loop *)

Lemma zakat_step_item (t : Q) (pre post : account_dict) (k : string)
    (a : account) (c : Q) (dt : list zakat_detail) :
  ~ In k (dict_keys pre) ->
  zakat_step t (pre ++ (k, a) :: post, c, dt) k
  = (pre ++ levied_item t (k, a) :: post,
     if qualifies t (k, a) then collect c (k, a) else c,
     if qualifies t (k, a) then dt ++ [detail_of (k, a)] else dt).
Proof.
  intro Hk. unfold zakat_step, qualifies, levied_item, levied, collect,
    detail_of.
  rewrite dict_get_middle by exact Hk. cbn [fst snd].
  destruct (Qgeb (balance a) t).
  - rewrite dict_set_middle by exact Hk. reflexivity.
  - reflexivity.
Qed.

Lemma zakat_fold_items (t : Q) (post pre : account_dict) (c : Q)
    (dt : list zakat_detail) :
  NoDup (dict_keys (pre ++ post)) ->
  fold_left (zakat_step t) (dict_keys post) (pre ++ post, c, dt)
  = (pre ++ map (levied_item t) post,
     fold_left collect (filter (qualifies t) post) c,
     dt ++ map detail_of (filter (qualifies t) post)).
Proof.
  revert pre c dt.
  induction post as [|[k a] post IH]; intros pre c dt Hnd.
  - cbn. rewrite !app_nil_r. reflexivity.
  - assert (Hk : ~ In k (dict_keys pre)).
    { unfold dict_keys in Hnd. rewrite map_app in Hnd. cbn in Hnd.
      apply NoDup_remove_2 in Hnd. intro I. apply Hnd.
      apply in_or_app. now left. }
    cbn [dict_keys map fold_left fst filter].
    rewrite zakat_step_item by exact Hk.
    change (pre ++ levied_item t (k, a) :: post)
      with (pre ++ [levied_item t (k, a)] ++ post).
    rewrite app_assoc.
    change (fold_left (zakat_step t) (map fst post))
      with (fold_left (zakat_step t) (dict_keys post)).
    rewrite IH.
    + rewrite <- app_assoc. cbn [app].
      destruct (qualifies t (k, a)); cbn [fold_left map].
      * rewrite <- app_assoc. reflexivity.
      * reflexivity.
    + rewrite <- app_assoc. cbn [app].
      unfold dict_keys in *. rewrite map_app in *. exact Hnd.
Qed.

(** On a well-formed store the loop is the item-wise levy. *)
Lemma apply_zakat_with_spec (t : Q) (accs : account_dict) :
  dict_wf accs ->
  apply_zakat_with t accs
  = (map (levied_item t) accs,
     fold_left collect (filter (qualifies t) accs) 0,
     map detail_of (filter (qualifies t) accs)).
Proof.
  intro Hwf. unfold apply_zakat_with.
  exact (zakat_fold_items t accs [] 0 [] Hwf).
Qed.

Lemma dict_keys_levied (t : Q) (accs : account_dict) :
  dict_keys (map (levied_item t) accs) = dict_keys accs.
Proof.
  unfold dict_keys. rewrite map_map. reflexivity.
Qed.

Lemma dict_get_levied (t : Q) (name : string) (accs : account_dict) :
  dict_get name (map (levied_item t) accs)
  = option_map (levied t) (dict_get name accs).
Proof.
  induction accs as [|[k a] rest IH]; simpl; [reflexivity|].
  destruct (String.eqb name k); [reflexivity | exact IH].
Qed.

Lemma dict_get_map_values (V W : Type) (f : V -> W) (name : string)
    (d : dict V) :
  dict_get name (map (fun kv => (fst kv, f (snd kv))) d)
  = option_map f (dict_get name d).
Proof.
  induction d as [|[k a] rest IH]; simpl; [reflexivity|].
  destruct (String.eqb name k); [reflexivity | exact IH].
Qed.

Lemma levy_amount (b : Q) :
  b - calculate_zakat b zakat_rate == b * (1 - zakat_rate).
Proof. unfold calculate_zakat. ring. Qed.

(* ================================================================= *)
(** ** Applying one transfer *)

Lemma update_balance_get_same (name : string) (f : Q -> Q)
    (accs : account_dict) (a : account) :
  dict_get name accs = Some a ->
  dict_get name (update_balance name f accs)
  = Some (with_balance (f (balance a)) a).
Proof.
  intro Hget. unfold update_balance. rewrite Hget.
  apply dict_get_set_same.
Qed.

Lemma update_balance_get_other (name other : string) (f : Q -> Q)
    (accs : account_dict) :
  other <> name ->
  dict_get other (update_balance name f accs) = dict_get other accs.
Proof.
  intro Hne. unfold update_balance.
  destruct (dict_get name accs); [|reflexivity].
  now apply dict_get_set_other.
Qed.

Lemma update_balance_keys (name : string) (f : Q -> Q)
    (accs : account_dict) :
  dict_keys (update_balance name f accs) = dict_keys accs.
Proof.
  unfold update_balance. destruct (dict_get name accs) eqn:E; [|reflexivity].
  apply dict_keys_set. eapply dict_get_key; eauto.
Qed.

Lemma update_balance_roll (name other : string) (f : Q -> Q)
    (accs : account_dict) :
  option_map roll_no (dict_get other (update_balance name f accs))
  = option_map roll_no (dict_get other accs).
Proof.
  destruct (string_dec other name) as [->|Hne].
  - destruct (dict_get name accs) as [a|] eqn:E.
    + rewrite (update_balance_get_same _ f _ _ E). reflexivity.
    + unfold update_balance. rewrite E. now rewrite E.
  - now rewrite update_balance_get_other.
Qed.

(** When [apply_to_accounts] returns, both guards were passed and the
    store is the debited and credited one. *)
Lemma apply_to_accounts_Ok (tx : TransactionWrapper)
    (accs accs' : account_dict) :
  apply_to_accounts tx accs = Ok accs' ->
  exists s r,
    dict_get (sender tx) accs = Some s
    /\ dict_get (receiver tx) accs = Some r
    /\ amount tx <= balance s
    /\ accs' = update_balance (receiver tx) (fun b => b + amount tx)
                 (update_balance (sender tx) (fun b => b - amount tx) accs).
Proof.
  unfold apply_to_accounts, dict_mem.
  destruct (dict_get (sender tx) accs) as [s|] eqn:Es; cbn [negb orb];
    [|discriminate].
  destruct (dict_get (receiver tx) accs) as [r|] eqn:Er; cbn [negb];
    [|discriminate].
  destruct (Qltb (balance s) (amount tx)) eqn:Elt; [discriminate|].
  intro E. injection E as <-.
  exists s, r. repeat split; try reflexivity.
  now apply Qltb_false.
Qed.

(** When [apply_to_accounts] raises, it is one of the two guards, and
    nothing has been written. *)
Lemma apply_to_accounts_Raise (tx : TransactionWrapper)
    (accs : account_dict) (e : exn) :
  apply_to_accounts tx accs = Raise e <->
  (e = SenderOrReceiverMissing
   /\ (dict_mem (sender tx) accs = false
       \/ dict_mem (receiver tx) accs = false))
  \/ (e = InsufficientBalance
      /\ dict_mem (receiver tx) accs = true
      /\ exists s, dict_get (sender tx) accs = Some s
                   /\ balance s < amount tx).
Proof.
  unfold apply_to_accounts, dict_mem.
  destruct (dict_get (sender tx) accs) as [s|] eqn:Es; cbn [negb orb].
  - destruct (dict_get (receiver tx) accs) as [r|] eqn:Er; cbn [negb].
    + destruct (Qltb (balance s) (amount tx)) eqn:Elt.
      * split.
        -- intro E. injection E as <-. right. repeat split.
           exists s. split; [reflexivity | now apply Qltb_true].
        -- intros [[_ [A|A]]|[-> _]]; try discriminate. reflexivity.
      * split; [discriminate|].
        intros [[_ [A|A]]|[_ [_ [s' [E L]]]]]; try discriminate.
        injection E as <-. apply Qltb_true in L. congruence.
    + split.
      * intro E. injection E as <-. left. split; [reflexivity | now right].
      * intros [[-> _]|[_ [A _]]]; [reflexivity | discriminate].
  - split.
    + intro E. injection E as <-. left. split; [reflexivity | now left].
    + intros [[-> _]|[_ [_ [s' [E _]]]]]; [reflexivity | discriminate].
Qed.

(* ================================================================= *)
(** ** The chain *)

Section ChainFacts.
Context {D : Type} {H : Hasher D}.

Lemma verify_true (b : Block.t D) :
  Block.verify b = true <-> Block.calculate_hash b = Block.hash b.
Proof.
  unfold Block.verify.
  destruct (digest_eq_dec (Block.calculate_hash b) (Block.hash b));
    split; auto; discriminate.
Qed.

Lemma verify_create (p : D) (now : Q) (roll : string) (txs : list entry) :
  Block.verify (Block.create p now roll txs) = true.
Proof. apply verify_true. reflexivity. Qed.

Lemma first_invalid_None (c : Blockchain D) (i : nat) :
  first_invalid_from i c = None <-> well_linked c.
Proof.
  revert i. induction c as [|b rest IH]; intro i; cbn [first_invalid_from well_linked].
  - tauto.
  - destruct (Block.verify b) eqn:Ev; cbn [negb].
    + apply verify_true in Ev.
      destruct rest as [|s rest'].
      * cbn [well_linked]. tauto.
      * destruct (digest_eq_dec (Block.calculate_hash b) (Block.prev_hash s))
          as [El|Nl].
        -- rewrite IH. tauto.
        -- split; [discriminate | tauto].
    + split; [discriminate|]. intros [E _].
      apply verify_true in E. congruence.
Qed.

Lemma well_linked_add (c : Blockchain D) (now : Q) (roll : string)
    (txs : list entry) :
  c <> [] -> well_linked c ->
  well_linked (c ++ [Block.create (tail_digest c) now roll txs]).
Proof.
  induction c as [|b rest IH]; [congruence|].
  intros _ (Hb & Hlink & Hrest).
  destruct rest as [|s rest'].
  - cbn. repeat split; exact Hb.
  - change (tail_digest (b :: s :: rest')) with (tail_digest (s :: rest')).
    cbn [app well_linked]. split; [exact Hb|]. split; [exact Hlink|].
    apply IH; [discriminate | exact Hrest].
Qed.

Lemma built_well_linked (c : Blockchain D) :
  built_by_append c -> c <> [] /\ well_linked c.
Proof.
  induction 1 as [roll now | c c' txs roll now Hc [Hne Hwl] Hadd].
  - split; [discriminate|]. cbn. auto.
  - unfold add_block in Hadd. destruct txs; [discriminate|].
    injection Hadd as <-. split.
    + destruct c; discriminate.
    + now apply well_linked_add.
Qed.

Lemma nth_error_edit (c : Blockchain D) (i : nat) (b : Block.t D)
    (f : Block.t D -> Block.t D) :
  nth_error c i = Some b ->
  exists pre post,
    c = pre ++ b :: post /\ length pre = i
    /\ edit_block i f c = pre ++ f b :: post.
Proof.
  revert i. induction c as [|x rest IH]; intros [|j]; cbn; try discriminate.
  - intro E. injection E as ->. exists [], rest. auto.
  - intro E. destruct (IH j E) as (pre & post & -> & Hlen & Hed).
    exists (x :: pre), post. cbn. rewrite Hed, Hlen. auto.
Qed.

(** A block that no longer verifies is where the walk stops, provided the
    blocks before it and its own back link were left alone. *)
Lemma first_invalid_at (pre post : Blockchain D) (b b' : Block.t D)
    (i : nat) :
  well_linked (pre ++ b :: post) ->
  Block.prev_hash b' = Block.prev_hash b ->
  Block.verify b' = false ->
  first_invalid_from i (pre ++ b' :: post) = Some (i + length pre)%nat.
Proof.
  intros Hwl Hprev Hbad. revert i Hwl.
  induction pre as [|p pre IH]; intros i Hwl.
  - cbn [app first_invalid_from length]. rewrite Hbad. cbn [negb].
    f_equal. lia.
  - cbn [app well_linked] in Hwl. destruct Hwl as (Hp & Hlink & Hrest).
    cbn [app first_invalid_from length].
    apply verify_true in Hp. rewrite Hp. cbn [negb].
    destruct pre as [|q pre'].
    + cbn [app] in *. rewrite Hprev.
      destruct (digest_eq_dec (Block.calculate_hash p) (Block.prev_hash b));
        [|contradiction].
      rewrite (IH (S i) Hrest). f_equal. cbn. lia.
    + cbn [app] in *.
      destruct (digest_eq_dec (Block.calculate_hash p) (Block.prev_hash q));
        [|contradiction].
      rewrite (IH (S i) Hrest). f_equal. cbn. lia.
Qed.

(** C4: genesis invariant and chain linkage.  A fresh chain has length
    1 and is valid; every chain obtained from a fresh one through
    [add_block] alone is valid; and overwriting, in such a chain, the
    [transactions] of the block at index [i] with different entries, or its
    [hash] with a different digest, makes [is_valid()] false with [i]
    reported as the first invalid index.  Validity holds for any digest
    function; detection of edited entries rests on the digest having no
    collisions in the entries. *)
Theorem chain_linkage (c : Blockchain D) :
  built_by_append c ->
  (forall roll now,
      length (new_blockchain roll now) = 1%nat
      /\ is_valid (new_blockchain roll now) = true)
  /\ is_valid c = true
  /\ (collision_free D H ->
      forall i b txs,
        nth_error c i = Some b -> txs <> Block.transactions b ->
        is_valid (edit_block i (set_transactions txs) c) = false
        /\ first_invalid_index (edit_block i (set_transactions txs) c)
           = Some i)
  /\ (forall i b d,
        nth_error c i = Some b -> d <> Block.hash b ->
        is_valid (edit_block i (set_hash d) c) = false
        /\ first_invalid_index (edit_block i (set_hash d) c) = Some i).
Proof.
  intros Hbuilt.
  destruct (built_well_linked c Hbuilt) as [_ Hwl].
  assert (Hvalid : forall c0 : Blockchain D, well_linked c0 -> is_valid c0 = true).
  { intros c0 Hc0. unfold is_valid, first_invalid_index.
    now rewrite (proj2 (first_invalid_None c0 0) Hc0). }
  assert (Hedit : forall i b f,
             nth_error c i = Some b ->
             Block.prev_hash (f b) = Block.prev_hash b ->
             Block.verify (f b) = false ->
             is_valid (edit_block i f c) = false
             /\ first_invalid_index (edit_block i f c) = Some i).
  { intros i b f Hnth Hprev Hbad.
    destruct (nth_error_edit c i b f Hnth) as (pre & post & Hc & Hlen & Hed).
    rewrite Hc in Hwl.
    pose proof (first_invalid_at pre post b (f b) 0 Hwl Hprev Hbad) as Hfi.
    cbn [plus] in Hfi. rewrite Hlen in Hfi.
    unfold is_valid, first_invalid_index. rewrite Hed, Hfi. auto. }
  assert (Hown : forall i b, nth_error c i = Some b ->
                             Block.calculate_hash b = Block.hash b).
  { intros i b Hnth.
    destruct (nth_error_edit c i b (fun x => x) Hnth) as (pre & post & Hc & _).
    rewrite Hc in Hwl. clear - Hwl.
    induction pre as [|p pre IH]; cbn [app well_linked] in Hwl.
    - tauto.
    - apply IH. tauto. }
  split; [|split; [|split]].
  - intros roll now. split; [reflexivity|].
    apply Hvalid. cbn. auto.
  - now apply Hvalid.
  - intros Hcf i b txs Hnth Hne. apply (Hedit i b _ Hnth); [reflexivity|].
    destruct (Block.verify (set_transactions txs b)) eqn:Ev; [|reflexivity].
    exfalso. apply Hne. apply verify_true in Ev.
    unfold set_transactions, Block.calculate_hash in Ev. cbn in Ev.
    rewrite <- (Hown i b Hnth) in Ev. unfold Block.calculate_hash in Ev.
    exact (Hcf _ _ _ _ _ Ev).
  - intros i b d Hnth Hne. apply (Hedit i b _ Hnth); [reflexivity|].
    destruct (Block.verify (set_hash d b)) eqn:Ev; [|reflexivity].
    exfalso. apply Hne. apply verify_true in Ev.
    unfold set_hash, Block.calculate_hash in Ev. cbn in Ev.
    rewrite <- Ev. exact (Hown i b Hnth).
Qed.

End ChainFacts.

(* ================================================================= *)
(** ** Mining *)

Section LedgerFacts.
Context {D : Type} {H : Hasher D}.

Lemma process_transactions_app (l1 l2 : list TransactionWrapper)
    (accs : account_dict) (recs : list entry) :
  process_transactions (l1 ++ l2) accs recs
  = match process_transactions l1 accs recs with
    | (accs', Ok recs') => process_transactions l2 accs' recs'
    | (accs', Raise e) => (accs', Raise e)
    end.
Proof.
  revert accs recs. induction l1 as [|tx l1 IH]; intros accs recs;
    cbn [app process_transactions]; [reflexivity|].
  destruct (apply_to_accounts tx accs) as [accs'|e]; [|reflexivity].
  destruct (transfer_record tx accs') as [r|e]; [|reflexivity].
  apply IH.
Qed.

Lemma mine_block_pending (fe : frontend) (now : Q) (st : state D) :
  pending_transactions st <> [] ->
  mine_block fe now st = mine_pending fe now st.
Proof.
  unfold mine_block. destruct (pending_transactions st); congruence.
Qed.

Lemma main_process_pending (now : Q) (mst : Main.state D) :
  Main.pending_transactions mst <> [] ->
  Main.process_pending_transactions now mst = Main.process_pending now mst.
Proof.
  unfold Main.process_pending_transactions.
  destruct (Main.pending_transactions mst); congruence.
Qed.

(** C5: empty-batch rejection.  With an empty pending queue, mining
    returns a false value at once ([None] in the console, [False] in the two
    dashboards) and hands the state back as it was: same chain (hence same
    length), same balances, same queue. *)
Theorem empty_batch_rejected (fe : frontend) (now : Q) (st : state D) :
  pending_transactions st = [] ->
  mine_block fe now st = (Ok (empty_batch_return fe), st)
  /\ truthy (empty_batch_return fe) = false
  /\ length (blockchain (snd (mine_block fe now st)))
     = length (blockchain st)
  /\ accounts (snd (mine_block fe now st)) = accounts st
  /\ (forall mst : Main.state D,
        Main.pending_transactions mst = [] ->
        Main.process_pending_transactions now mst
        = (Ok (PyBool false), mst)).
Proof.
  intros Hp. unfold mine_block. rewrite Hp. cbn [snd].
  split; [reflexivity|]. split; [destruct fe; reflexivity|].
  split; [reflexivity|]. split; [reflexivity|].
  intros mst Hmp. unfold Main.process_pending_transactions.
  now rewrite Hmp.
Qed.

(* ----------------------------------------------------------------- *)
(** *** Roll numbers never change *)

Lemma same_rolls_refl (accs : account_dict) : same_rolls accs accs.
Proof. intro name. reflexivity. Qed.

Lemma same_rolls_trans (a b c : account_dict) :
  same_rolls a b -> same_rolls b c -> same_rolls a c.
Proof. intros Hab Hbc name. rewrite Hbc. apply Hab. Qed.

Lemma same_rolls_get (accs accs' : account_dict) (name : string)
    (a' : account) :
  same_rolls accs accs' -> dict_get name accs' = Some a' ->
  exists a, dict_get name accs = Some a /\ roll_no a = roll_no a'.
Proof.
  intros Hsr Hget. specialize (Hsr name). rewrite Hget in Hsr.
  destruct (dict_get name accs) as [a|]; [|discriminate].
  exists a. split; [reflexivity|]. cbn in Hsr. congruence.
Qed.

Lemma apply_zakat_same_rolls (t : Q) (accs : account_dict) :
  dict_wf accs -> same_rolls accs (fst (fst (apply_zakat_with t accs))).
Proof.
  intros Hwf name. rewrite apply_zakat_with_spec by exact Hwf. cbn [fst].
  rewrite dict_get_levied.
  destruct (dict_get name accs) as [a|]; [|reflexivity].
  cbn [option_map]. unfold levied. now destruct (Qgeb (balance a) t).
Qed.

Lemma apply_to_accounts_same_rolls (tx : TransactionWrapper)
    (accs accs' : account_dict) :
  apply_to_accounts tx accs = Ok accs' -> same_rolls accs accs'.
Proof.
  intro Happ.
  destruct (apply_to_accounts_Ok tx accs _ Happ) as (s & r & _ & _ & _ & ->).
  intro name. now rewrite !update_balance_roll.
Qed.

Lemma transfer_record_Ok (tx : TransactionWrapper) (accs : account_dict)
    (e : entry) :
  transfer_record tx accs = Ok e <-> records_transfer accs tx e.
Proof.
  unfold transfer_record, records_transfer.
  destruct (dict_get (sender tx) accs) as [s|].
  - destruct (dict_get (receiver tx) accs) as [r|].
    + split.
      * intro E. injection E as <-. exists s, r. auto.
      * intros (s' & r' & Es & Er & ->).
        injection Es as <-. injection Er as <-. reflexivity.
    + split; [discriminate|]. intros (s' & r' & _ & Er & _). discriminate.
  - split; [discriminate|]. intros (s' & r' & Es & _). discriminate.
Qed.

Lemma records_transfer_same_rolls (accs accs' : account_dict)
    (tx : TransactionWrapper) (e : entry) :
  same_rolls accs accs' ->
  records_transfer accs' tx e -> records_transfer accs tx e.
Proof.
  intros Hsr (s' & r' & Hs & Hr & ->).
  destruct (same_rolls_get accs accs' _ s' Hsr Hs) as (s & Hs0 & Es).
  destruct (same_rolls_get accs accs' _ r' Hsr Hr) as (r & Hr0 & Er).
  exists s, r. rewrite Es, Er. auto.
Qed.

(** A completed transfer loop: the records are the initial ones followed
    by one line per pending transfer, in order. *)
Lemma process_transactions_Ok (txs : list TransactionWrapper)
    (accs0 accs accs' : account_dict) (recs0 recs : list entry) :
  same_rolls accs0 accs ->
  process_transactions txs accs recs0 = (accs', Ok recs) ->
  same_rolls accs0 accs'
  /\ exists trs, recs = recs0 ++ trs
                 /\ Forall2 (records_transfer accs0) txs trs.
Proof.
  revert accs recs0.
  induction txs as [|tx txs IH]; intros accs recs0 Hsr;
    cbn [process_transactions].
  - intro E. injection E as <- <-. split; [exact Hsr|].
    exists []. rewrite app_nil_r. split; [reflexivity | constructor].
  - destruct (apply_to_accounts tx accs) as [accs1|e] eqn:Happ;
      [|discriminate].
    destruct (transfer_record tx accs1) as [r|e] eqn:Hrec; [|discriminate].
    intro Hrun.
    assert (Hsr1 : same_rolls accs0 accs1).
    { eapply same_rolls_trans; [exact Hsr|].
      eapply apply_to_accounts_same_rolls; eauto. }
    destruct (IH accs1 (recs0 ++ [r]) Hsr1 Hrun) as (Hsr' & trs & -> & HF).
    split; [exact Hsr'|].
    exists (r :: trs). rewrite <- app_assoc. split; [reflexivity|].
    constructor; [|exact HF].
    apply (records_transfer_same_rolls accs0 accs1 tx r Hsr1).
    now apply transfer_record_Ok.
Qed.

(** What a mining call that returns [True] has done. *)
Lemma mine_block_True (fe : frontend) (now : Q) (st st' : state D) :
  mine_block fe now st = (Ok (PyBool true), st') ->
  exists first rest accs1 zc zd accs2 recs a,
    pending_transactions st = first :: rest
    /\ apply_zakat_to_accounts fe (accounts st) = (accs1, zc, zd)
    /\ process_transactions (pending_transactions st) accs1
         (zakat_records fe zc zd) = (accs2, Ok recs)
    /\ dict_get (sender first) accs2 = Some a
    /\ st' = mk_state
               (blockchain st
                  ++ [Block.create (tail_digest (blockchain st)) now
                                   (roll_no a) recs])
               accs2 [].
Proof.
  unfold mine_block.
  destruct (pending_transactions st) as [|first rest] eqn:Hp.
  - destruct fe; discriminate.
  - unfold mine_pending. rewrite Hp.
    destruct (apply_zakat_to_accounts fe (accounts st)) as [[accs1 zc] zd].
    destruct (process_transactions (first :: rest) accs1
                (zakat_records fe zc zd)) as [accs2 [recs|e]] eqn:Hrun;
      [|discriminate].
    destruct recs as [|r recs]; [discriminate|].
    cbn [miner_roll_of].
    destruct (dict_get (sender first) accs2) as [a|] eqn:Ha; [|discriminate].
    cbn [add_block]. intro E. injection E as <-.
    exists first, rest, accs1, zc, zd, accs2, (r :: recs), a.
    repeat split; auto.
Qed.

Lemma main_process_True (now : Q) (mst mst' : Main.state D) :
  Main.process_pending_transactions now mst = (Ok (PyBool true), mst') ->
  exists accs2 recs,
    mst' = Main.mk_state
             (Main.blockchain mst
                ++ [Block.create (tail_digest (Main.blockchain mst)) now
                                 "2023" recs])
             accs2 [].
Proof.
  unfold Main.process_pending_transactions.
  destruct (Main.pending_transactions mst) as [|first rest] eqn:Hp;
    [discriminate|].
  unfold Main.process_pending. rewrite Hp.
  destruct (Main.apply_zakat_to_accounts (Main.accounts mst)) as [accs1 zc].
  match goal with
  | |- context [Main.process_transactions ?l ?a ?r] =>
      destruct (Main.process_transactions l a r) as [accs2 [recs|e]]
  end; [|discriminate].
  destruct recs as [|r recs]; [discriminate|].
  cbn [add_block]. intro E. injection E as <-.
  exists accs2, (r :: recs). reflexivity.
Qed.

(* ----------------------------------------------------------------- *)
(** *** The block that mining appends *)

Lemma zakat_amount_pos (t b : Q) :
  0 < t -> t <= b -> 0 < calculate_zakat b zakat_rate.
Proof.
  intros Ht Hb. unfold calculate_zakat.
  apply Qmult_lt_0_compat; [|reflexivity].
  eapply Qlt_le_trans; eauto.
Qed.

Lemma collect_grows (t : Q) (l : account_dict) (c : Q) :
  0 < t ->
  c <= fold_left collect (filter (qualifies t) l) c
  /\ (filter (qualifies t) l <> [] ->
      c < fold_left collect (filter (qualifies t) l) c).
Proof.
  intro Ht. revert c. induction l as [|kv l IH]; intro c; cbn [filter].
  - cbn. split; [apply Qle_refl | congruence].
  - destruct (qualifies t kv) eqn:Eq; [|apply IH].
    cbn [fold_left].
    assert (Hpos : 0 < calculate_zakat (balance (snd kv)) zakat_rate).
    { apply (zakat_amount_pos t); [exact Ht | now apply Qgeb_true]. }
    assert (Hlt : c < collect c kv).
    { unfold collect. rewrite <- (Qplus_0_r c) at 1.
      apply Qplus_lt_r. exact Hpos. }
    destruct (IH (collect c kv)) as [Hle _].
    assert (c < fold_left collect (filter (qualifies t) l) (collect c kv))
      by (eapply Qlt_le_trans; eauto).
    split; [now apply Qlt_le_weak | intros _; assumption].
Qed.

Lemma zakat_threshold_pos (fe : frontend) : 0 < zakat_threshold fe.
Proof. destruct fe; reflexivity. Qed.

Lemma filter_nil_below (t : Q) (accs : account_dict) :
  (forall kv, In kv accs -> balance (snd kv) < t) ->
  filter (qualifies t) accs = [].
Proof.
  induction accs as [|kv accs IH]; intro Hall; cbn [filter]; [reflexivity|].
  assert (Hq : qualifies t kv = false).
  { apply Qgeb_false. apply Hall. now left. }
  rewrite Hq. apply IH. intros kv' I. apply Hall. now right.
Qed.

(** C6: who is recorded as the creator of a block.  In the
    console and in [streamlit_main.py], a block that mining appends carries
    the roll number of the account that sends the first pending transfer.
    In [main.py], whose accounts have no roll number, the creator is the
    constant ["2023"]. *)
Theorem block_creator (fe : frontend) (now : Q) (st st' : state D) :
  dict_wf (accounts st) ->
  mine_block fe now st = (Ok (PyBool true), st') ->
  (exists first rest a blk,
      pending_transactions st = first :: rest
      /\ dict_get (sender first) (accounts st) = Some a
      /\ blockchain st' = blockchain st ++ [blk]
      /\ Block.roll_no blk = roll_no a)
  /\ (forall (mnow : Q) (mst mst' : Main.state D),
        Main.process_pending_transactions mnow mst
          = (Ok (PyBool true), mst') ->
        exists blk,
          Main.blockchain mst' = Main.blockchain mst ++ [blk]
          /\ Block.roll_no blk = "2023").
Proof.
  intros Hwf Hmine. split.
  - destruct (mine_block_True fe now st st' Hmine)
      as (first & rest & accs1 & zc & zd & accs2 & recs & a2
          & Hp & Hz & Hrun & Ha2 & ->).
    assert (Hsr1 : same_rolls (accounts st) accs1).
    { pose proof (apply_zakat_same_rolls (zakat_threshold fe) _ Hwf) as S.
      unfold apply_zakat_to_accounts in Hz. now rewrite Hz in S. }
    destruct (process_transactions_Ok _ _ _ _ _ _ Hsr1 Hrun) as [Hsr2 _].
    destruct (same_rolls_get _ _ _ _ Hsr2 Ha2) as (a & Ha & Eroll).
    exists first, rest, a. eexists. repeat split; eauto.
  - intros mnow mst mst' Hmain.
    destruct (main_process_True mnow mst mst' Hmain) as (accs2 & recs & ->).
    eexists. split; reflexivity.
Qed.

(** C8: tax entries in a mined block.  Let [zc] and [zd] be
    the total and the details returned by the levy of a mining call that
    succeeds.  The new block logs one transfer record per pending transfer,
    in order, after the tax entries.  If [zc] is not zero the log starts
    with the summary entry for [zc]; in [streamlit_main.py] the summary is
    followed by one detail entry per levied account, in the console no
    detail entry is logged.  If no account reaches the threshold the log
    holds the transfer records only. *)
Theorem zakat_entries_of_block (fe : frontend) (now : Q)
    (st st' : state D) :
  dict_wf (accounts st) ->
  mine_block fe now st = (Ok (PyBool true), st') ->
  exists blk trs accs1 zc zd,
    blockchain st' = blockchain st ++ [blk]
    /\ apply_zakat_to_accounts fe (accounts st) = (accs1, zc, zd)
    /\ zd = map detail_of
                (filter (qualifies (zakat_threshold fe)) (accounts st))
    /\ Forall2 (records_transfer (accounts st)) (pending_transactions st) trs
    /\ (~ zc == 0 ->
        Block.transactions blk
        = ZakatCollection zc
            :: (if logs_zakat_details fe then map ZakatFrom zd else [])
            ++ trs)
    /\ ((forall kv, In kv (accounts st) ->
                    balance (snd kv) < zakat_threshold fe) ->
        Block.transactions blk = trs).
Proof.
  intros Hwf Hmine.
  destruct (mine_block_True fe now st st' Hmine)
    as (first & rest & accs1 & zc & zd & accs2 & recs & a2
        & Hp & Hz & Hrun & Ha2 & ->).
  assert (Hsr1 : same_rolls (accounts st) accs1).
  { pose proof (apply_zakat_same_rolls (zakat_threshold fe) _ Hwf) as S.
    unfold apply_zakat_to_accounts in Hz. now rewrite Hz in S. }
  destruct (process_transactions_Ok _ _ _ _ _ _ Hsr1 Hrun)
    as (_ & trs & -> & HF).
  pose proof Hz as Hspec. unfold apply_zakat_to_accounts in Hspec.
  rewrite apply_zakat_with_spec in Hspec by exact Hwf.
  injection Hspec as _ Hzc Hzd.
  eexists. exists trs, accs1, zc, zd.
  split; [reflexivity|]. split; [exact Hz|]. split; [now symmetry|].
  split; [exact HF|].
  cbn [Block.transactions Block.create]. split.
  - intro Hnz. unfold zakat_records.
    assert (Hgt : Qgtb zc 0 = true).
    { apply Qgtb_true.
      destruct (collect_grows (zakat_threshold fe) (accounts st) 0
                  (zakat_threshold_pos fe)) as [Hle _].
      rewrite Hzc in Hle.
      apply Qle_lteq in Hle. destruct Hle as [L|E]; [exact L|].
      exfalso. apply Hnz. now symmetry. }
    rewrite Hgt. reflexivity.
  - intro Hbelow. unfold zakat_records.
    rewrite (filter_nil_below _ _ Hbelow) in Hzc. cbn in Hzc. subst zc.
    reflexivity.
Qed.

(* ----------------------------------------------------------------- *)
(** *** Submission *)

Lemma nth_error_distinct (l : list string) (i j : nat) (a b : string) :
  NoDup l -> nth_error l i = Some a -> nth_error l j = Some b ->
  i <> j -> a <> b.
Proof.
  intros Hnd Hi Hj Hne E. subst b. apply Hne.
  apply (proj1 (NoDup_nth_error l) Hnd).
  - apply nth_error_Some. congruence.
  - congruence.
Qed.

Lemma names_except_In (l : list string) (i : nat) (r : string) :
  In r (names_except i l) -> In r l.
Proof.
  revert i. induction l as [|x l IH]; intros [|j]; cbn; auto.
  intros [E|I]; [now left | right; eauto].
Qed.

Lemma names_except_other (l : list string) (i : nat) (s r : string) :
  NoDup l -> nth_error l i = Some s -> In r (names_except i l) -> r <> s.
Proof.
  revert i. induction l as [|x l IH]; intros [|j] Hnd; cbn; try discriminate.
  - intro E. injection E as ->. intros I ->.
    inversion Hnd; contradiction.
  - intros Hs [E|I].
    + subst x. intros ->. apply nth_error_In in Hs.
      inversion Hnd; contradiction.
    + inversion Hnd; subst. eapply IH; eauto.
Qed.

Lemma create_transaction_sound (st : state D)
    (sender_input receiver_input : option Z) (amount_input : option Q) :
  dict_wf (accounts st) ->
  submission_sound st
    (console_selection st sender_input receiver_input amount_input)
    (create_transaction sender_input receiver_input amount_input st).
Proof.
  intro Hwf. unfold create_transaction.
  assert (Hrej : forall m,
            match m with TransactionAdded _ => False | _ => True end ->
            submission_sound st
              (console_selection st sender_input receiver_input amount_input)
              (m, st)).
  { intros m Hm. unfold submission_sound. cbn [fst snd].
    repeat split. destruct m; auto; contradiction. }
  destruct (length (accounts st) <? 2)%nat; [now apply Hrej|].
  destruct sender_input as [sender_no|]; [|now apply Hrej].
  destruct receiver_input as [receiver_no|]; [|now apply Hrej].
  cbv zeta.
  set (n := Z.of_nat (length (dict_keys (accounts st)))).
  destruct ((sender_no - 1 <? 0) || (sender_no - 1 >=? n))%Z eqn:Es;
    [now apply Hrej|].
  destruct ((receiver_no - 1 <? 0) || (receiver_no - 1 >=? n))%Z eqn:Er;
    [now apply Hrej|].
  destruct (sender_no - 1 =? receiver_no - 1)%Z eqn:Eeq; [now apply Hrej|].
  unfold list_item.
  destruct (nth_error (dict_keys (accounts st)) (Z.to_nat (sender_no - 1)))
    as [sender_name|] eqn:Esn; [|now apply Hrej].
  destruct (nth_error (dict_keys (accounts st)) (Z.to_nat (receiver_no - 1)))
    as [receiver_name|] eqn:Ern; [|now apply Hrej].
  destruct amount_input as [amt|]; [|now apply Hrej].
  destruct (Qleb amt 0) eqn:Eamt; [now apply Hrej|].
  destruct (dict_get sender_name (accounts st)) as [s|] eqn:Eget;
    [|now apply Hrej].
  destruct (Qltb (balance s) amt) eqn:Ebal; [now apply Hrej|].
  unfold submission_sound, enqueue. cbn [fst snd blockchain accounts
    pending_transactions].
  do 3 (split; [reflexivity|]). split.
  { exists sender_no, receiver_no. cbn [sender receiver amount].
    unfold list_item. auto. }
  unfold transfer_constraints.
  repeat split; cbn [sender receiver amount].
  - apply orb_false_iff in Es, Er. destruct Es as [Es1 _], Er as [Er1 _].
    apply Z.ltb_ge in Es1, Er1. apply Z.eqb_neq in Eeq.
    apply (nth_error_distinct (dict_keys (accounts st)) _ _ _ _ Hwf Esn Ern).
    intro E. apply Eeq. apply Z2Nat.inj in E; assumption.
  - now apply Qleb_false.
  - apply dict_mem_true. eapply nth_error_In; eauto.
  - exists s. split; [assumption | now apply Qltb_false].
Qed.

Lemma add_to_pending_sound (st : state D) (sender_idx receiver_pos : nat)
    (amt : Q) :
  dict_wf (accounts st) ->
  submission_sound st (dashboard_selection st sender_idx receiver_pos amt)
    (add_to_pending sender_idx receiver_pos amt st).
Proof.
  intro Hwf. unfold add_to_pending.
  assert (Hrej : forall m,
            match m with TransactionAdded _ => False | _ => True end ->
            submission_sound st
              (dashboard_selection st sender_idx receiver_pos amt) (m, st)).
  { intros m Hm. unfold submission_sound. cbn [fst snd].
    repeat split. destruct m; auto; contradiction. }
  destruct (length (accounts st) <? 2)%nat; [now apply Hrej|].
  cbv zeta.
  destruct (nth_error (dict_keys (accounts st)) sender_idx)
    as [sender_name|] eqn:Esn; [|now apply Hrej].
  destruct (nth_error (names_except sender_idx (dict_keys (accounts st)))
              receiver_pos) as [receiver_name|] eqn:Ern; [|now apply Hrej].
  destruct (nonempty sender_name && nonempty receiver_name && Qgtb amt 0)
    eqn:Eok; [|now apply Hrej].
  destruct (dict_get sender_name (accounts st)) as [s|] eqn:Eget;
    [|now apply Hrej].
  destruct (Qgeb (balance s) amt) eqn:Ebal; [|now apply Hrej].
  unfold submission_sound, enqueue. cbn [fst snd blockchain accounts
    pending_transactions].
  do 3 (split; [reflexivity|]). split.
  { unfold dashboard_selection. cbn [sender receiver amount]. auto. }
  apply nth_error_In in Ern. unfold transfer_constraints.
  repeat split; cbn [sender receiver amount].
  - intro E. symmetry in E. revert E.
    eapply names_except_other; eauto.
  - apply andb_true_iff in Eok. destruct Eok as [_ Eamt].
    now apply Qgtb_true.
  - apply dict_mem_true. eapply names_except_In; eauto.
  - exists s. split; [assumption | now apply Qgeb_true].
Qed.

(* ----------------------------------------------------------------- *)
(** *** The levy comes before the commit-time balance check *)

Lemma levied_balance_smaller (b : Q) :
  0 < b -> b - calculate_zakat b zakat_rate < b.
Proof.
  intro Hb. unfold calculate_zakat.
  rewrite <- (Qplus_0_r b) at 3. unfold Qminus.
  apply Qplus_lt_r.
  setoid_replace 0 with (- 0) by reflexivity.
  apply Qopp_lt_compat.
  apply Qmult_lt_0_compat; [exact Hb | reflexivity].
Qed.

(** An account holding [b >= threshold] can submit a transfer of its whole
    balance; the next mining call levies the account first and the transfer
    then fails the balance check. *)
Lemma levy_starves_transfer (fe : frontend) (now : Q) (chain : Blockchain D)
    (b : Q) (r1 r2 : string) :
  zakat_threshold fe <= b ->
  let st0 := mk_state chain
               [("A", mk_account b r1); ("B", mk_account 0 r2)] [] in
  let tx := mk_tx "A" "B" b in
  let accs' := [("A", mk_account (b - calculate_zakat b zakat_rate) r1);
                ("B", mk_account 0 r2)] in
  create_transaction (Some 1%Z) (Some 2%Z) (Some b) st0
    = (TransactionAdded tx, enqueue tx st0)
  /\ add_to_pending 0 0 b st0 = (TransactionAdded tx, enqueue tx st0)
  /\ mine_block fe now (enqueue tx st0)
     = (Ok (PyBool false), mk_state chain accs' [tx])
  /\ apply_to_accounts tx accs' = Raise InsufficientBalance
  /\ b - calculate_zakat b zakat_rate < b.
Proof.
  intros Ht st0 tx accs'.
  assert (Hb : 0 < b)
    by (eapply Qlt_le_trans; [apply (zakat_threshold_pos fe) | exact Ht]).
  assert (Hsmall := levied_balance_smaller b Hb).
  assert (Hfail : apply_to_accounts tx accs' = Raise InsufficientBalance).
  { unfold apply_to_accounts, tx, accs'. cbn [dict_mem dict_get sender
      receiver amount String.eqb Ascii.eqb Bool.eqb negb orb balance].
    apply Qltb_true in Hsmall. now rewrite Hsmall. }
  assert (Hzero : Qgeb 0 (zakat_threshold fe) = false)
    by (destruct fe; reflexivity).
  repeat split; try assumption.
  - unfold create_transaction, st0.
    cbn [accounts length Nat.ltb Nat.leb dict_keys map fst].
    cbn [Z.sub Z.add Z.opp Z.pos_sub Z.ltb Z.geb Z.compare Z.of_nat
         Pos.of_succ_nat Pos.succ Pos.compare Pos.compare_cont orb Z.eqb
         list_item Z.to_nat Pos.to_nat Pos.iter_op Nat.add nth_error].
    assert (E1 : Qleb b 0 = false) by now apply Qleb_false.
    rewrite E1.
    cbn [dict_get String.eqb Ascii.eqb Bool.eqb balance].
    assert (E2 : Qltb b b = false) by (apply Qltb_false; apply Qle_refl).
    now rewrite E2.
  - unfold add_to_pending, st0.
    cbn [accounts length Nat.ltb Nat.leb dict_keys map fst nth_error
         names_except nonempty andb].
    assert (E1 : Qgtb b 0 = true) by now apply Qgtb_true.
    rewrite E1.
    cbn [dict_get String.eqb Ascii.eqb Bool.eqb balance].
    assert (E2 : Qgeb b b = true) by (apply Qgeb_true; apply Qle_refl).
    now rewrite E2.
  - unfold mine_block, enqueue, st0. cbn [pending_transactions app].
    unfold mine_pending. cbn [accounts pending_transactions blockchain].
    unfold apply_zakat_to_accounts, apply_zakat_with.
    cbn [dict_keys map fst fold_left].
    unfold zakat_step at 2.
    cbn [dict_get String.eqb Ascii.eqb Bool.eqb balance roll_no].
    apply Qgeb_true in Ht. rewrite Ht.
    cbn [dict_set String.eqb Ascii.eqb Bool.eqb with_balance roll_no].
    unfold zakat_step.
    cbn [dict_get String.eqb Ascii.eqb Bool.eqb balance roll_no].
    rewrite Hzero.
    cbn [process_transactions]. unfold with_balance. cbn [roll_no].
    fold accs'. fold tx. rewrite Hfail. reflexivity.
Qed.

(** C9: a transfer accepted at submission can fail at commit.  There is
    a ledger state in which a submitted transfer is accepted (by the console
    and by the dashboard alike) and, in either front-end, the next mining
    call fails on it with "Insufficient balance": the levy taken at the
    start of that call has brought the sender's balance below the amount. *)
Theorem accepted_transfer_fails_after_levy :
  exists (st0 : state D) (tx : TransactionWrapper),
    create_transaction (Some 1%Z) (Some 2%Z) (Some (amount tx)) st0
      = (TransactionAdded tx, enqueue tx st0)
    /\ add_to_pending 0 0 (amount tx) st0
       = (TransactionAdded tx, enqueue tx st0)
    /\ forall (fe : frontend) (now : Q),
       exists (accs' : account_dict) (a a' : account),
         mine_block fe now (enqueue tx st0)
           = (Ok (PyBool false),
              mk_state (blockchain st0) accs' [tx])
         /\ apply_to_accounts tx accs' = Raise InsufficientBalance
         /\ dict_get (sender tx) (accounts st0) = Some a
         /\ amount tx <= balance a
         /\ dict_get (sender tx) accs' = Some a'
         /\ balance a' == balance a * (1 - zakat_rate)
         /\ balance a' < amount tx.
Proof.
  exists (mk_state (new_blockchain "SYSTEM" 0)
            [("A", mk_account 1000 "r1"); ("B", mk_account 0 "r2")] []).
  exists (mk_tx "A" "B" 1000).
  assert (Ht : forall fe, zakat_threshold fe <= 1000)
    by (destruct fe; discriminate).
  destruct (levy_starves_transfer Console 0 (new_blockchain "SYSTEM" 0)
              1000 "r1" "r2" (Ht Console)) as (Hc & Hs & _).
  split; [exact Hc|]. split; [exact Hs|].
  intros fe now.
  destruct (levy_starves_transfer fe now (new_blockchain "SYSTEM" 0)
              1000 "r1" "r2" (Ht fe)) as (_ & _ & Hm & Hf & Hlt).
  eexists. exists (mk_account 1000 "r1").
  eexists. split; [exact Hm|]. split; [exact Hf|].
  split; [reflexivity|]. split; [discriminate|].
  split; [reflexivity|]. split; [|exact Hlt].
  cbn [balance]. apply levy_amount.
Qed.

(* ----------------------------------------------------------------- *)
(** *** What the transfer loop leaves alone *)

Lemma apply_to_accounts_untouched (tx : TransactionWrapper)
    (accs accs' : account_dict) (name : string) :
  ~ involves name tx ->
  apply_to_accounts tx accs = Ok accs' ->
  dict_get name accs' = dict_get name accs.
Proof.
  intros Hn Happ.
  destruct (apply_to_accounts_Ok tx accs _ Happ) as (s & r & _ & _ & _ & ->).
  unfold involves in Hn.
  rewrite !update_balance_get_other; auto.
Qed.

Lemma process_transactions_untouched (txs : list TransactionWrapper)
    (accs : account_dict) (recs : list entry) (name : string) :
  (forall tx, In tx txs -> ~ involves name tx) ->
  dict_get name (fst (process_transactions txs accs recs))
  = dict_get name accs.
Proof.
  revert accs recs. induction txs as [|tx txs IH]; intros accs recs Hall;
    cbn [process_transactions]; [reflexivity|].
  destruct (apply_to_accounts tx accs) as [accs1|e] eqn:Happ;
    [|reflexivity].
  assert (H1 : dict_get name accs1 = dict_get name accs).
  { eapply apply_to_accounts_untouched; eauto. apply Hall. now left. }
  destruct (transfer_record tx accs1) as [r|e]; [|exact H1].
  rewrite IH; [exact H1|]. intros tx' I. apply Hall. now right.
Qed.

(** Whatever way mining ends, the store it leaves is the one the transfer
    loop stopped with, and the loop started from the levied store. *)
Lemma mine_pending_accounts (fe : frontend) (now : Q) (st : state D) :
  accounts (snd (mine_pending fe now st))
  = fst (process_transactions (pending_transactions st)
           (fst (fst (apply_zakat_to_accounts fe (accounts st))))
           (zakat_records fe
              (snd (fst (apply_zakat_to_accounts fe (accounts st))))
              (snd (apply_zakat_to_accounts fe (accounts st))))).
Proof.
  unfold mine_pending.
  destruct (apply_zakat_to_accounts fe (accounts st)) as [[accs1 zc] zd].
  cbn [fst snd].
  destruct (process_transactions (pending_transactions st) accs1
              (zakat_records fe zc zd)) as [accs2 [recs|e]];
    [|reflexivity].
  destruct recs as [|r recs]; [reflexivity|].
  destruct (miner_roll_of accs2 (pending_transactions st)); [|reflexivity].
  destruct (add_block (r :: recs) a now (blockchain st)); reflexivity.
Qed.

(* ----------------------------------------------------------------- *)
(** *** A batch that fails *)

(** C1: what a failed batch leaves behind.  When the first [k-1]
    pending transfers apply and the [k]-th raises, mining returns [False],
    appends no block and leaves the pending queue as it was; the account
    store is the one reached after the levy and those [k-1] transfers.  In
    particular every account that none of these [k-1] transfers involves
    is left with its levied balance, not with the balance it had before the
    call. *)
Theorem failed_batch_state (fe : frontend) (now : Q) (st : state D)
    (done rest : list TransactionWrapper) (tx : TransactionWrapper)
    (accs1 accs_k : account_dict) (zakat_collected : Q)
    (zakat_details : list zakat_detail) (recs : list entry) (e : exn) :
  pending_transactions st = done ++ tx :: rest ->
  apply_zakat_to_accounts fe (accounts st)
    = (accs1, zakat_collected, zakat_details) ->
  process_transactions done accs1
      (zakat_records fe zakat_collected zakat_details)
    = (accs_k, Ok recs) ->
  apply_to_accounts tx accs_k = Raise e ->
  mine_block fe now st
  = (Ok (PyBool false),
     mk_state (blockchain st) accs_k (pending_transactions st))
  /\ (dict_wf (accounts st) ->
      forall name a,
        dict_get name (accounts st) = Some a ->
        (forall tx', In tx' done -> ~ involves name tx') ->
        dict_get name accs_k = Some (levied (zakat_threshold fe) a)).
Proof.
  intros Hp Hz Hdone Hfail. split.
  - rewrite mine_block_pending by (rewrite Hp; destruct done; discriminate).
    unfold mine_pending. rewrite Hz.
    rewrite Hp at 1.
    rewrite process_transactions_app, Hdone.
    cbn [process_transactions]. rewrite Hfail. reflexivity.
  - intros Hwf name a Hget Hother.
    pose proof (process_transactions_untouched done accs1
                  (zakat_records fe zakat_collected zakat_details)
                  name Hother) as Hsame.
    rewrite Hdone in Hsame. cbn [fst] in Hsame. rewrite Hsame.
    unfold apply_zakat_to_accounts in Hz.
    rewrite apply_zakat_with_spec in Hz by exact Hwf.
    injection Hz as <- _ _.
    now rewrite dict_get_levied, Hget.
Qed.

(* ----------------------------------------------------------------- *)
(** *** Levy threshold against displayed threshold (console) *)



(* ----------------------------------------------------------------- *)
(** *** Distinct keys are an invariant of the session *)

Lemma apply_to_accounts_keys (tx : TransactionWrapper)
    (accs accs' : account_dict) :
  apply_to_accounts tx accs = Ok accs' -> dict_keys accs' = dict_keys accs.
Proof.
  intro Happ.
  destruct (apply_to_accounts_Ok tx accs _ Happ) as (s & r & _ & _ & _ & ->).
  now rewrite !update_balance_keys.
Qed.

Lemma process_transactions_keys (txs : list TransactionWrapper)
    (accs : account_dict) (recs : list entry) :
  dict_keys (fst (process_transactions txs accs recs)) = dict_keys accs.
Proof.
  revert accs recs. induction txs as [|tx txs IH]; intros accs recs;
    cbn [process_transactions]; [reflexivity|].
  destruct (apply_to_accounts tx accs) as [accs1|e] eqn:Happ;
    [|reflexivity].
  apply apply_to_accounts_keys in Happ.
  destruct (transfer_record tx accs1) as [r|e]; [|exact Happ].
  rewrite IH. exact Happ.
Qed.

(** The operations that write to the account store keep its keys
    pairwise distinct; submitting a transfer does not write to it. *)
Lemma dict_wf_preserved (fe : frontend) (now : Q) (st : state D)
    (account_name roll : string) (initial_balance : option Q) :
  dict_wf (accounts st) ->
  dict_wf (accounts (create_account account_name roll initial_balance st))
  /\ dict_wf (accounts (snd (mine_block fe now st))).
Proof.
  intro Hwf. split.
  - unfold create_account.
    destruct (negb (nonempty account_name)); [exact Hwf|].
    destruct (dict_mem account_name (accounts st)); [exact Hwf|].
    destruct (negb (nonempty roll)); [exact Hwf|].
    destruct initial_balance as [b|]; [|exact Hwf].
    destruct (Qltb b 0); [exact Hwf|].
    cbn [accounts]. now apply dict_wf_set_any.
  - unfold mine_block. destruct (pending_transactions st); [exact Hwf|].
    rewrite mine_pending_accounts. unfold dict_wf.
    rewrite process_transactions_keys.
    unfold apply_zakat_to_accounts.
    rewrite apply_zakat_with_spec by exact Hwf. cbn [fst].
    rewrite dict_keys_levied. exact Hwf.
Qed.

End LedgerFacts.

(* ================================================================= *)
(** ** The statements on sample ledgers *)

Ltac solve_wf :=
  unfold dict_wf; cbn; repeat constructor; cbn; intuition discriminate.

Lemma sym_collision_free : collision_free sym_digest sym_hasher.
Proof.
  intros p t r e1 e2 E. cbn in E. now injection E.
Defined.

Lemma demo_chain2_built : built_by_append Demo.chain2.
Proof.
  apply (built_add Demo.chain Demo.chain2
           [TransferRecord "A" "r1" "B" "r2" 100] "r1" 1).
  - apply built_new.
  - reflexivity.
Defined.

(** C1, no rollback: ["B"] holds 50 and two transfers of
    50 from ["B"] to ["A"] are pending.  Mining levies ["A"] (1000 to 975),
    applies the first transfer and fails on the second; it returns [False]
    with the queue and the chain untouched, but ["A"] now holds 1025 and
    ["B"] holds 0: neither the levy nor the first transfer was undone.  The
    same happens in both front-ends. *)
Lemma failed_batch_not_rolled_back :
  failed_batch_visible Console Demo.twice
  /\ failed_batch_visible Streamlit Demo.twice.
Proof.
  unfold failed_batch_visible.
  split;
    (split;
     [ exists Demo.b_to_a, Demo.b_to_a; eexists;
       repeat split; vm_compute; reflexivity
     | vm_compute; repeat split; intro E; discriminate E ]).
Qed.

(** The failed batch of [Demo.twice], step by step. *)
Lemma failed_batch_state_witness :
  pending_transactions Demo.twice = [Demo.b_to_a] ++ Demo.b_to_a :: []
  /\ mine_block Console 1 Demo.twice
     = (Ok (PyBool false),
        mk_state Demo.chain
          (fst (process_transactions [Demo.b_to_a]
                  (fst (fst (apply_zakat_to_accounts Console Demo.accs)))
                  [ZakatCollection (0 + calculate_zakat 1000 zakat_rate)]))
          [Demo.b_to_a; Demo.b_to_a]).
Proof.
  split; [reflexivity|].
  refine (proj1 (failed_batch_state Console 1 Demo.twice [Demo.b_to_a] []
           Demo.b_to_a
           (fst (fst (apply_zakat_to_accounts Console Demo.accs)))
           (fst (process_transactions [Demo.b_to_a]
                   (fst (fst (apply_zakat_to_accounts Console Demo.accs)))
                   [ZakatCollection (0 + calculate_zakat 1000 zakat_rate)]))
           (0 + calculate_zakat 1000 zakat_rate)
           [mk_detail "A" "r1" (calculate_zakat 1000 zakat_rate)]
           [ZakatCollection (0 + calculate_zakat 1000 zakat_rate);
            TransferRecord "B" "r2" "A" "r1" 50]
           InsufficientBalance _ _ _ _));
    vm_compute; reflexivity.
Defined.

(** A chain with one mined block is valid under the symbolic digest, and
    edits of block 1's entries and of the genesis digest are located. *)
Lemma chain_linkage_witness :
  collision_free sym_digest sym_hasher
  /\ built_by_append Demo.chain2
  /\ is_valid Demo.chain2 = true
  /\ first_invalid_index
       (edit_block 1 (set_transactions [GenesisMarker]) Demo.chain2)
     = Some 1%nat
  /\ first_invalid_index (edit_block 0 (set_hash SymSentinel) Demo.chain2)
     = Some 0%nat.
Proof.
  split; [exact sym_collision_free|]. split; [exact demo_chain2_built|].
  destruct (chain_linkage Demo.chain2 demo_chain2_built)
    as (_ & Hvalid & Htx & Hhash).
  split; [exact Hvalid|]. split.
  - refine (proj2 (Htx sym_collision_free 1%nat _ [GenesisMarker] eq_refl _)).
    vm_compute. intro E. discriminate E.
  - refine (proj2 (Hhash 0%nat _ SymSentinel eq_refl _)).
    vm_compute. intro E. discriminate E.
Defined.

(** Mining with nothing pending, in the three front-ends. *)
Lemma empty_batch_rejected_witness :
  pending_transactions Demo.idle = []
  /\ Main.pending_transactions Demo.main_idle = []
  /\ mine_block Console 1 Demo.idle = (Ok PyNone, Demo.idle)
  /\ mine_block Streamlit 1 Demo.idle = (Ok (PyBool false), Demo.idle)
  /\ Main.process_pending_transactions 1 Demo.main_idle
     = (Ok (PyBool false), Demo.main_idle).
Proof.
  split; [reflexivity|]. split; [reflexivity|].
  destruct (empty_batch_rejected Console 1 Demo.idle eq_refl)
    as (Hc & _ & _ & _ & Hm).
  destruct (empty_batch_rejected Streamlit 1 Demo.idle eq_refl)
    as (Hs & _).
  split; [exact Hc|]. split; [exact Hs | exact (Hm Demo.main_idle eq_refl)].
Defined.

(** C6, the creator in [main.py]: in [main.py] a batch whose first
    sender is ["A"] and a batch whose first sender is ["B"] are both mined
    into a block whose creator is ["2023"], the constant that also created
    the genesis block; the store holds a balance per name and no owner
    identifier to take a creator from. *)
Lemma main_creator_is_constant :
  fst (Main.process_pending_transactions 1 Demo.main_from_a)
    = Ok (PyBool true)
  /\ fst (Main.process_pending_transactions 1 Demo.main_from_b)
     = Ok (PyBool true)
  /\ map Main.sender (Main.pending_transactions Demo.main_from_a) = ["A"]
  /\ map Main.sender (Main.pending_transactions Demo.main_from_b) = ["B"]
  /\ map Block.roll_no
       (Main.blockchain
          (snd (Main.process_pending_transactions 1 Demo.main_from_a)))
     = ["2023"; "2023"]
  /\ map Block.roll_no
       (Main.blockchain
          (snd (Main.process_pending_transactions 1 Demo.main_from_b)))
     = ["2023"; "2023"].
Proof. vm_compute. repeat split. Qed.

(** The creator of the block mined from [Demo.one], and from the
    [main.py] ledger. *)
Lemma block_creator_witness :
  dict_wf (accounts Demo.one)
  /\ fst (mine_block Streamlit 1 Demo.one) = Ok (PyBool true)
  /\ map Block.roll_no (blockchain (snd (mine_block Streamlit 1 Demo.one)))
     = ["SYSTEM"; "r1"]
  /\ map Block.roll_no
       (Main.blockchain
          (snd (Main.process_pending_transactions 1 Demo.main_from_b)))
     = ["2023"; "2023"].
Proof.
  assert (Hwf : dict_wf (accounts Demo.one)) by solve_wf.
  split; [exact Hwf|]. split; [reflexivity|].
  destruct (block_creator Streamlit 1 Demo.one
              (snd (mine_block Streamlit 1 Demo.one)) Hwf eq_refl)
    as ((first & rest & a & blk & Hp & Ha & Hchain & Hroll) & Hmain).
  destruct (Hmain 1 Demo.main_from_b
              (snd (Main.process_pending_transactions 1 Demo.main_from_b))
              eq_refl) as (mblk & Hmchain & Hmroll).
  rewrite Hchain, Hmchain, !map_app. cbn [map].
  rewrite Hroll, Hmroll.
  injection Hp as <- <-.
  vm_compute in Ha. injection Ha as <-.
  split; reflexivity.
Defined.

(** C8, no detail entries in the console: the console mines a block after a
    levy of 25 on ["A"], for which it holds one per-account detail; the
    block's log is the summary entry followed by the transfer record, and
    holds no per-account detail entry. *)
Lemma console_block_logs_no_detail :
  fst (mine_block Console 1 Demo.one) = Ok (PyBool true)
  /\ map detail_account (snd (apply_zakat_to_accounts Console Demo.accs))
     = ["A"]
  /\ Qred (snd (fst (apply_zakat_to_accounts Console Demo.accs))) = 25
  /\ map (fun b => map is_zakat_detail (Block.transactions b))
         (blockchain (snd (mine_block Console 1 Demo.one)))
     = [[false]; [false; false]]
  /\ map (fun b => map is_zakat_entry (Block.transactions b))
         (blockchain (snd (mine_block Console 1 Demo.one)))
     = [[false]; [true; false]]
  /\ map (fun b => map is_zakat_detail (Block.transactions b))
         (blockchain (snd (mine_block Streamlit 1 Demo.one)))
     = [[false]; [false; true; false]].
Proof. vm_compute. repeat split. Qed.

(** With both accounts below the threshold the block logs the transfer
    record only. *)
Lemma zakat_entries_of_block_witness :
  dict_wf (accounts Demo.small)
  /\ fst (mine_block Console 1 Demo.small) = Ok (PyBool true)
  /\ map Block.transactions
       (blockchain (snd (mine_block Console 1 Demo.small)))
     = [[GenesisMarker]; [TransferRecord "A" "r1" "B" "r2" 30]].
Proof.
  assert (Hwf : dict_wf (accounts Demo.small)) by solve_wf.
  split; [exact Hwf|]. split; [reflexivity|].
  destruct (zakat_entries_of_block Console 1 Demo.small
              (snd (mine_block Console 1 Demo.small)) Hwf eq_refl)
    as (blk & trs & accs1 & zc & zd & Hchain & _ & _ & HF & _ & Hbelow).
  rewrite Hchain, map_app. cbn [map]. rewrite Hbelow.
  - inversion HF as [|tx e txs es Hrec Hrest]; subst.
    inversion Hrest; subst.
    destruct Hrec as (s & r & Hs & Hr & ->).
    vm_compute in Hs, Hr. injection Hs as <-. injection Hr as <-.
    reflexivity.
  - intros kv [<-|[<-|[]]]; reflexivity.
Defined.


(* ================================================================= *)
(** * Further properties of the front-ends *)

Lemma dict_set_new (V : Type) (k : string) (v : V) (d : dict V) :
  dict_get k d = None -> dict_set k v d = d ++ [(k, v)].
Proof.
  induction d as [|[k' v'] rest IH]; cbn [dict_get dict_set app];
    [reflexivity|].
  destruct (String.eqb k k'); [discriminate|].
  intro Hn. now rewrite IH.
Qed.

Lemma dict_mem_false (V : Type) (k : string) (d : dict V) :
  dict_mem k d = false <-> dict_get k d = None.
Proof.
  unfold dict_mem. destruct (dict_get k d); split; congruence.
Qed.

Lemma nonempty_false (s : string) : nonempty s = false <-> s = "".
Proof. destruct s; cbn; split; congruence. Qed.

Section MoreLedgerFacts.
Context {D : Type} {H : Hasher D}.

(* ----------------------------------------------------------------- *)
(** *** How a mining call can end *)

Lemma process_transactions_rolls (txs : list TransactionWrapper)
    (accs : account_dict) (recs : list entry) :
  same_rolls accs (fst (process_transactions txs accs recs)).
Proof.
  revert accs recs. induction txs as [|tx txs IH]; intros accs recs;
    cbn [process_transactions]; [apply same_rolls_refl|].
  destruct (apply_to_accounts tx accs) as [accs1|e] eqn:Happ;
    [|apply same_rolls_refl].
  apply apply_to_accounts_same_rolls in Happ.
  destruct (transfer_record tx accs1) as [r|e]; [|exact Happ].
  eapply same_rolls_trans; [exact Happ | apply IH].
Qed.

Lemma process_transactions_first (first : TransactionWrapper)
    (rest : list TransactionWrapper) (accs accs' : account_dict)
    (recs0 recs : list entry) :
  process_transactions (first :: rest) accs recs0 = (accs', Ok recs) ->
  recs <> [] /\ exists a, dict_get (sender first) accs' = Some a.
Proof.
  intro Hrun. split.
  - destruct (process_transactions_Ok _ accs accs accs' recs0 recs
                (same_rolls_refl accs) Hrun) as (_ & trs & -> & HF).
    inversion HF; subst. destruct recs0; discriminate.
  - assert (Hk : dict_keys accs' = dict_keys accs).
    { pose proof (process_transactions_keys (first :: rest) accs recs0) as K.
      now rewrite Hrun in K. }
    cbn [process_transactions] in Hrun.
    destruct (apply_to_accounts first accs) as [accs1|e] eqn:Happ;
      [|discriminate].
    destruct (apply_to_accounts_Ok first accs _ Happ) as (s & _ & Hs & _).
    apply dict_get_key in Hs. rewrite <- Hk in Hs.
    apply dict_mem_true in Hs. unfold dict_mem in Hs.
    destruct (dict_get (sender first) accs') as [a|]; [|discriminate].
    now exists a.
Qed.

(** X4: how [mine_block] can end.  The call never lets an exception
    escape.  It returns [True] exactly when the queue is non-empty and every
    pending transfer applies in turn after the levy; the queue is then
    emptied and exactly one block is appended, linked to the previous tail,
    stamped with the current time, carrying a non-empty log and a digest
    that verifies.  In every other case the chain and the queue are left as
    they were. *)
Theorem mine_block_outcome (fe : frontend) (now : Q) (st : state D) :
  match fst (mine_block fe now st) with
  | Ok (PyBool true) =>
      pending_transactions st <> []
      /\ pending_transactions (snd (mine_block fe now st)) = []
      /\ exists blk,
           blockchain (snd (mine_block fe now st)) = blockchain st ++ [blk]
           /\ Block.prev_hash blk = tail_digest (blockchain st)
           /\ Block.timestamp blk = now
           /\ Block.transactions blk <> []
           /\ Block.verify blk = true
  | Ok _ =>
      blockchain (snd (mine_block fe now st)) = blockchain st
      /\ pending_transactions (snd (mine_block fe now st))
         = pending_transactions st
  | Raise _ => False
  end
  /\ (fst (mine_block fe now st) = Ok (PyBool true)
      <-> pending_transactions st <> []
          /\ exists recs,
               snd (process_transactions (pending_transactions st)
                      (fst (fst (apply_zakat_to_accounts fe (accounts st))))
                      (zakat_records fe
                         (snd (fst (apply_zakat_to_accounts fe (accounts st))))
                         (snd (apply_zakat_to_accounts fe (accounts st)))))
               = Ok recs).
Proof.
  unfold mine_block.
  destruct (pending_transactions st) as [|first rest] eqn:Hp.
  - cbn [fst snd]. split.
    + destruct fe; cbn; auto.
    + split; [destruct fe; discriminate | intros [C _]; congruence].
  - unfold mine_pending. rewrite Hp.
    destruct (apply_zakat_to_accounts fe (accounts st)) as [[accs1 zc] zd].
    cbn [fst snd].
    destruct (process_transactions (first :: rest) accs1
                (zakat_records fe zc zd)) as [accs2 [recs|e]] eqn:Hrun.
    + destruct (process_transactions_first _ _ _ _ _ _ Hrun)
        as (Hne & a & Ha).
      destruct recs as [|r recs]; [congruence|].
      cbn [miner_roll_of]. rewrite Ha. cbn [add_block fst snd
        blockchain pending_transactions].
      split.
      * split; [discriminate|]. split; [reflexivity|].
        eexists. split; [reflexivity|].
        cbn [Block.create Block.prev_hash Block.timestamp
             Block.transactions].
        repeat split; try discriminate. apply verify_create.
      * split; [intros _; split; [discriminate | eexists; reflexivity]
               | reflexivity].
    + cbn [fst snd blockchain pending_transactions]. split; [auto|].
      split; [discriminate | intros [_ [recs C]]; discriminate].
Qed.

(** X5: mining leaves the set of accounts alone.  Whatever its outcome,
    [mine_block] adds, removes, renames or reorders no account, changes no
    roll number, and keeps the account names pairwise distinct: only
    balances change. *)
Theorem mining_keeps_accounts (fe : frontend) (now : Q) (st : state D) :
  dict_wf (accounts st) ->
  dict_keys (accounts (snd (mine_block fe now st))) = dict_keys (accounts st)
  /\ same_rolls (accounts st) (accounts (snd (mine_block fe now st)))
  /\ dict_wf (accounts (snd (mine_block fe now st))).
Proof.
  intros Hwf.
  assert (Hk : dict_keys (accounts (snd (mine_block fe now st)))
               = dict_keys (accounts st)).
  { unfold mine_block. destruct (pending_transactions st); [reflexivity|].
    rewrite mine_pending_accounts, process_transactions_keys.
    unfold apply_zakat_to_accounts.
    rewrite apply_zakat_with_spec by exact Hwf. cbn [fst].
    apply dict_keys_levied. }
  split; [exact Hk|]. split.
  - unfold mine_block.
    destruct (pending_transactions st); [apply same_rolls_refl|].
    rewrite mine_pending_accounts.
    eapply same_rolls_trans;
      [apply (apply_zakat_same_rolls (zakat_threshold fe) _ Hwf)|].
    apply process_transactions_rolls.
  - unfold dict_wf. now rewrite Hk.
Qed.


(* ----------------------------------------------------------------- *)
(** *** What mining leaves in the queue *)

Lemma mine_block_queue (fe : frontend) (now : Q) (st : state D) :
  pending_transactions (snd (mine_block fe now st)) = []
  \/ pending_transactions (snd (mine_block fe now st))
     = pending_transactions st.
Proof.
  unfold mine_block.
  destruct (pending_transactions st) as [|first rest] eqn:Hp;
    [right; exact Hp|].
  unfold mine_pending. rewrite Hp.
  destruct (apply_zakat_to_accounts fe (accounts st)) as [[accs1 zc] zd].
  destruct (process_transactions (first :: rest) accs1
              (zakat_records fe zc zd)) as [accs2 [recs|e]];
    [|right; reflexivity].
  destruct recs as [|r recs]; [right; reflexivity|].
  destruct (miner_roll_of accs2 (first :: rest)); [|right; reflexivity].
  cbn [add_block snd pending_transactions]. now left.
Qed.


(* ----------------------------------------------------------------- *)
(** *** Queued transfers always name existing accounts *)

Lemma known_parties_mono (accs accs' : account_dict)
    (txs : list TransactionWrapper) :
  (forall k, dict_mem k accs = true -> dict_mem k accs' = true) ->
  known_parties accs txs -> known_parties accs' txs.
Proof.
  intros Hsub Hk. unfold known_parties in *.
  eapply Forall_impl; [|exact Hk].
  intros tx [Hs Hr]. split; now apply Hsub.
Qed.

Lemma dict_mem_keys (accs accs' : account_dict) (k : string) :
  dict_keys accs' = dict_keys accs ->
  dict_mem k accs = true -> dict_mem k accs' = true.
Proof.
  intros Hk Hm. apply dict_mem_true. rewrite Hk. now apply dict_mem_true.
Qed.

Lemma dict_mem_set (accs : account_dict) (name k : string) (a : account) :
  dict_mem k accs = true -> dict_mem k (dict_set name a accs) = true.
Proof.
  intro Hm. unfold dict_mem.
  destruct (string_dec k name) as [->|Hne].
  - now rewrite dict_get_set_same.
  - rewrite dict_get_set_other by exact Hne. exact Hm.
Qed.

Lemma submission_keeps_known (st : state D)
    (selected : TransactionWrapper -> Prop) (r : submit_message * state D) :
  known_parties (accounts st) (pending_transactions st) ->
  submission_sound st selected r ->
  known_parties (accounts (snd r)) (pending_transactions (snd r)).
Proof.
  intros Hk (_ & Hacc & Hm). destruct r as [m st'].
  cbn [fst snd] in *.
  destruct m; try (subst st'; exact Hk).
  destruct Hm as (Hq & _ & (_ & _ & Hr & s & Hs & _)).
  rewrite Hacc, Hq. unfold known_parties. apply Forall_app.
  split; [exact Hk|]. constructor; [|constructor].
  split; [|exact Hr]. unfold dict_mem. now rewrite Hs.
Qed.

Lemma pending_rows_spec (accs : account_dict)
    (txs : list TransactionWrapper) (i : nat) :
  (snd (pending_rows accs i txs) = None <-> known_parties accs txs)
  /\ (known_parties accs txs ->
      map row_number (fst (pending_rows accs i txs)) = seq i (length txs)
      /\ map (fun r => mk_tx (row_sender r) (row_receiver r) (row_amount r))
             (fst (pending_rows accs i txs)) = txs
      /\ Forall (fun r =>
                   option_map roll_no (dict_get (row_sender r) accs)
                   = Some (row_sender_roll r)
                   /\ option_map roll_no (dict_get (row_receiver r) accs)
                      = Some (row_receiver_roll r))
                (fst (pending_rows accs i txs))).
Proof.
  revert i. induction txs as [|tx txs IH]; intro i; cbn [pending_rows].
  - cbn. split; [split; [constructor | reflexivity]|].
    intros _. repeat split. constructor.
  - destruct (IH (S i)) as [IHerr IHrows].
    unfold known_parties, dict_mem in *.
    destruct (dict_get (sender tx) accs) as [s|] eqn:Hs.
    2:{ cbn. split.
        - split; [discriminate|]. intro K. inversion K as [|? ? [C _] _].
          rewrite Hs in C. discriminate.
        - intro K. inversion K as [|? ? [C _] _].
          rewrite Hs in C. discriminate. }
    destruct (dict_get (receiver tx) accs) as [r|] eqn:Hr.
    2:{ cbn. split.
        - split; [discriminate|]. intro K. inversion K as [|? ? [_ C] _].
          rewrite Hr in C. discriminate.
        - intro K. inversion K as [|? ? [_ C] _].
          rewrite Hr in C. discriminate. }
    destruct (pending_rows accs (S i) txs) as [rows err]. cbn [fst snd] in *.
    split.
    + rewrite IHerr. split.
      * intro K. constructor; [now rewrite Hs, Hr | exact K].
      * intro K. now inversion K.
    + intro K. inversion K as [|? ? _ Krest]; subst.
      destruct (IHrows Krest) as (Hn & Ht & Hf).
      cbn [map length seq row_number row_sender row_receiver row_amount].
      rewrite Hn, Ht. repeat split.
      * now destruct tx.
      * constructor; [|exact Hf].
        cbn [row_sender row_receiver row_sender_roll row_receiver_roll].
        now rewrite Hs, Hr.
Qed.

(** X7: queued transfers always name existing accounts.  In a fresh
    session, and after any account creation, submission or mining call that
    follows, the sender and the receiver of every pending transfer are
    accounts of the store (no operation removes an account).
    [view_pending_transactions] raises [KeyError] exactly when that fails;
    so within a session it never raises, and it lists the pending transfers
    in order, numbered from 1, each with the roll numbers of its two
    parties. *)
Theorem parties_stay_known (st : state D) :
  dict_wf (accounts st) ->
  known_parties (accounts st) (pending_transactions st) ->
  (forall chain : Blockchain D,
      known_parties (accounts (fresh_session chain))
                    (pending_transactions (fresh_session chain)))
  /\ (forall account_name roll initial_balance,
        known_parties
          (accounts (create_account account_name roll initial_balance st))
          (pending_transactions
             (create_account account_name roll initial_balance st)))
  /\ (forall new_account roll_number initial_balance,
        known_parties
          (accounts (dashboard_create_account new_account roll_number
                       initial_balance st))
          (pending_transactions
             (dashboard_create_account new_account roll_number
                initial_balance st)))
  /\ (forall sender_input receiver_input amount_input,
        known_parties
          (accounts (snd (create_transaction sender_input receiver_input
                            amount_input st)))
          (pending_transactions
             (snd (create_transaction sender_input receiver_input
                     amount_input st))))
  /\ (forall sender_idx receiver_pos amt,
        known_parties
          (accounts (snd (add_to_pending sender_idx receiver_pos amt st)))
          (pending_transactions
             (snd (add_to_pending sender_idx receiver_pos amt st))))
  /\ (forall fe now,
        known_parties (accounts (snd (mine_block fe now st)))
                      (pending_transactions (snd (mine_block fe now st))))
  /\ (forall st0 : state D,
        snd (view_pending_transactions st0) = None
        <-> known_parties (accounts st0) (pending_transactions st0))
  /\ snd (view_pending_transactions st) = None
  /\ map row_number (fst (view_pending_transactions st))
     = seq 1 (length (pending_transactions st))
  /\ map (fun r => mk_tx (row_sender r) (row_receiver r) (row_amount r))
         (fst (view_pending_transactions st))
     = pending_transactions st
  /\ Forall (fun r =>
               option_map roll_no (dict_get (row_sender r) (accounts st))
               = Some (row_sender_roll r)
               /\ option_map roll_no (dict_get (row_receiver r) (accounts st))
                  = Some (row_receiver_roll r))
            (fst (view_pending_transactions st)).
Proof.
  intros Hwf Hk.
  split; [intro chain; constructor|].
  split.
  { intros account_name roll ib. unfold create_account.
    destruct (negb (nonempty account_name)); [exact Hk|].
    destruct (dict_mem account_name (accounts st)); [exact Hk|].
    destruct (negb (nonempty roll)); [exact Hk|].
    destruct ib as [b|]; [|exact Hk].
    destruct (Qltb b 0); [exact Hk|].
    cbn [accounts pending_transactions].
    eapply known_parties_mono; [|exact Hk].
    intros k. apply dict_mem_set. }
  split.
  { intros new_account roll_number ib. unfold dashboard_create_account.
    destruct (nonempty new_account && nonempty roll_number
              && negb (dict_mem new_account (accounts st))); [|exact Hk].
    cbn [accounts pending_transactions].
    eapply known_parties_mono; [|exact Hk].
    intros k. apply dict_mem_set. }
  split.
  { intros si ri ai. eapply submission_keeps_known; [exact Hk|].
    now apply create_transaction_sound. }
  split.
  { intros sidx rpos amt. eapply submission_keeps_known; [exact Hk|].
    now apply add_to_pending_sound. }
  split.
  { intros fe now.
    assert (Hkeys : dict_keys (accounts (snd (mine_block fe now st)))
                    = dict_keys (accounts st)).
    { unfold mine_block. destruct (pending_transactions st); [reflexivity|].
      rewrite mine_pending_accounts, process_transactions_keys.
      unfold apply_zakat_to_accounts.
      rewrite apply_zakat_with_spec by exact Hwf. cbn [fst].
      apply dict_keys_levied. }
    destruct (mine_block_queue fe now st) as [-> | ->]; [constructor|].
    eapply known_parties_mono; [|exact Hk].
    intros k. now apply dict_mem_keys. }
  split.
  { intro st0. unfold view_pending_transactions.
    apply (pending_rows_spec (accounts st0) (pending_transactions st0) 1). }
  unfold view_pending_transactions.
  destruct (pending_rows_spec (accounts st) (pending_transactions st) 1)
    as [Herr Hrows].
  split; [now apply Herr|]. now apply Hrows.
Qed.


(* ----------------------------------------------------------------- *)
(** *** Why a batch fails *)

Lemma process_transactions_Raise (txs : list TransactionWrapper)
    (accs accs' : account_dict) (recs : list entry) (e : exn) :
  process_transactions txs accs recs = (accs', Raise e) ->
  exists done tx rest accs_k recs_k,
    txs = done ++ tx :: rest
    /\ process_transactions done accs recs = (accs_k, Ok recs_k)
    /\ ((apply_to_accounts tx accs_k = Raise e /\ accs' = accs_k)
        \/ (apply_to_accounts tx accs_k = Ok accs'
            /\ transfer_record tx accs' = Raise e)).
Proof.
  revert accs recs. induction txs as [|tx txs IH]; intros accs recs;
    cbn [process_transactions]; [discriminate|].
  destruct (apply_to_accounts tx accs) as [accs1|e1] eqn:Happ.
  - destruct (transfer_record tx accs1) as [r|e1] eqn:Hrec.
    + intro Hrun.
      destruct (IH _ _ Hrun) as (done & tx' & rest & accs_k & recs_k
                                 & -> & Hdone & Hcase).
      exists (tx :: done), tx', rest, accs_k, recs_k.
      split; [reflexivity|]. split; [|exact Hcase].
      cbn [process_transactions]. now rewrite Happ, Hrec.
    + intro E. injection E as <- <-.
      exists [], tx, txs, accs, recs.
      split; [reflexivity|]. split; [reflexivity|]. right. auto.
  - intro E. injection E as <- <-.
    exists [], tx, txs, accs, recs.
    split; [reflexivity|]. split; [reflexivity|]. left. auto.
Qed.

(** X8: a batch fails only for lack of balance.  When every pending
    transfer names existing accounts, a [mine_block] call on a non-empty
    queue that does not return [True] returns [False], and it does so at a
    pending transfer whose sender holds, at that point of the batch and in
    the store left behind, less than the amount.  The "Sender or receiver
    does not exist" error and the final "Failed to mine block!" exit are
    never reached. *)
Theorem batch_fails_only_for_balance (fe : frontend) (now : Q)
    (st : state D) :
  dict_wf (accounts st) ->
  known_parties (accounts st) (pending_transactions st) ->
  pending_transactions st <> [] ->
  fst (mine_block fe now st) <> Ok (PyBool true) ->
  fst (mine_block fe now st) = Ok (PyBool false)
  /\ exists done tx rest s,
       pending_transactions st = done ++ tx :: rest
       /\ dict_get (sender tx) (accounts (snd (mine_block fe now st)))
          = Some s
       /\ balance s < amount tx
       /\ apply_to_accounts tx (accounts (snd (mine_block fe now st)))
          = Raise InsufficientBalance.
Proof.
  intros Hwf Hk Hp Hnot.
  rewrite mine_block_pending in * by exact Hp.
  unfold mine_pending in *.
  destruct (apply_zakat_to_accounts fe (accounts st)) as [[accs1 zc] zd]
    eqn:Hz.
  assert (Hk1 : dict_keys accs1 = dict_keys (accounts st)).
  { unfold apply_zakat_to_accounts in Hz.
    rewrite apply_zakat_with_spec in Hz by exact Hwf.
    injection Hz as <- _ _. apply dict_keys_levied. }
  destruct (process_transactions (pending_transactions st) accs1
              (zakat_records fe zc zd)) as [accs2 [recs|e]] eqn:Hrun.
  - exfalso.
    destruct (pending_transactions st) as [|first rest] eqn:Hq;
      [congruence|].
    destruct (process_transactions_first _ _ _ _ _ _ Hrun) as (Hne & a & Ha).
    destruct recs as [|r recs]; [congruence|].
    cbn [miner_roll_of add_block fst] in Hnot. rewrite Ha in Hnot.
    cbn [fst] in Hnot. congruence.
  - cbn [fst snd accounts]. split; [reflexivity|].
    destruct (process_transactions_Raise _ _ _ _ _ Hrun)
      as (done & tx & rest & accs_k & recs_k & Hsplit & Hdone & Hcase).
    assert (Hkk : dict_keys accs_k = dict_keys (accounts st)).
    { pose proof (process_transactions_keys done accs1
                    (zakat_records fe zc zd)) as K.
      rewrite Hdone in K. cbn [fst] in K. congruence. }
    assert (Htx : dict_mem (sender tx) accs_k = true
                  /\ dict_mem (receiver tx) accs_k = true).
    { unfold known_parties in Hk. rewrite Hsplit in Hk.
      apply Forall_app in Hk. destruct Hk as [_ Hk].
      inversion Hk as [|? ? [Hs Hr] _]; subst.
      split; eapply dict_mem_keys; eauto. }
    destruct Hcase as [[Hfail ->] | [Hok Hrec]].
    + apply apply_to_accounts_Raise in Hfail.
      destruct Hfail as [[_ [C|C]] | [-> (_ & s & Hs & Hlt)]].
      * destruct Htx; congruence.
      * destruct Htx; congruence.
      * exists done, tx, rest, s. repeat split; try assumption.
        apply apply_to_accounts_Raise. right. split; [reflexivity|].
        split; [apply Htx|]. exists s. auto.
    + exfalso.
      pose proof (apply_to_accounts_keys _ _ _ Hok) as K2.
      destruct Htx as [Hs Hr].
      apply (dict_mem_keys accs_k accs2 _ K2) in Hs.
      apply (dict_mem_keys accs_k accs2 _ K2) in Hr.
      unfold transfer_record, dict_mem in *.
      destruct (dict_get (sender tx) accs2); [|discriminate].
      destruct (dict_get (receiver tx) accs2); discriminate.
Qed.


(* ----------------------------------------------------------------- *)
(** *** What the views show *)






(* ----------------------------------------------------------------- *)
(** *** The block explorer *)

Lemma combine_seq_In (A : Type) (l : list A) (s i : nat) (x : A) :
  In (i, x) (combine (seq s (length l)) l)
  <-> (s <= i)%nat /\ nth_error l (i - s) = Some x.
Proof.
  revert s. induction l as [|y l IH]; intro s; cbn [length seq combine].
  - split; [intros [] | intros [_ C]]. destruct (i - s)%nat; discriminate.
  - cbn [In]. rewrite IH. split.
    + intros [E | [Hle Hn]].
      * injection E as <- <-. split; [lia|]. now rewrite Nat.sub_diag.
      * split; [lia|]. replace (i - s)%nat with (S (i - S s)) by lia.
        exact Hn.
    + intros [Hle Hn]. destruct (Nat.eq_dec s i) as [<-|Hne].
      * left. rewrite Nat.sub_diag in Hn. cbn in Hn. congruence.
      * right. split; [lia|].
        replace (i - s)%nat with (S (i - S s)) in Hn by lia. exact Hn.
Qed.

Lemma combine_seq_shift (A : Type) (l : list A) (s n : nat) :
  combine (seq (S s) n) l
  = map (fun ib => (S (fst ib), snd ib)) (combine (seq s n) l).
Proof.
  revert s l. induction n as [|n IH]; intros s l; cbn [seq combine];
    [reflexivity|].
  destruct l as [|x l]; [reflexivity|]. cbn [map fst snd]. now rewrite IH.
Qed.

Lemma combine_app_same (A B : Type) (l1 l2 : list A) (m1 m2 : list B) :
  length l1 = length m1 ->
  combine (l1 ++ l2) (m1 ++ m2) = combine l1 m1 ++ combine l2 m2.
Proof.
  revert m1. induction l1 as [|x l1 IH]; intros [|y m1] Hlen; cbn in *;
    try discriminate; [reflexivity|].
  f_equal. apply IH. congruence.
Qed.

Lemma combine_seq_snoc (A : Type) (l : list A) (x : A) :
  combine (seq 0 (length (l ++ [x]))) (l ++ [x])
  = combine (seq 0 (length l)) l ++ [(length l, x)].
Proof.
  rewrite length_app. cbn [length]. rewrite seq_app. cbn [seq Nat.add].
  rewrite combine_app_same by now rewrite length_seq. reflexivity.
Qed.

Lemma blockchain_view_rev (chain : Blockchain D) :
  blockchain_view chain = rev (enumerate chain).
Proof.
  unfold blockchain_view, enumerate.
  induction chain as [|b chain IH] using rev_ind; [reflexivity|].
  rewrite combine_seq_snoc, rev_app_distr. cbn [rev app].
  rewrite rev_app_distr, length_app. cbn [rev app length seq combine map
    fst snd].
  rewrite length_rev. f_equal.
  - f_equal. lia.
  - rewrite <- IH. rewrite combine_seq_shift, map_map, length_rev.
    apply map_ext. intros [i x]. cbn [fst snd]. f_equal. lia.
Qed.

(** X11: the block explorer numbers the blocks correctly.  The two
    dashboards list the chain newest first and compute each header's index
    as [len(chain) - i - 1]; the resulting list is the chain numbered from 0
    and reversed, so every block is shown exactly once under its own
    position in the chain and the genesis block comes last under index 0. *)
Theorem explorer_indices (chain : Blockchain D) :
  blockchain_view chain = rev (enumerate chain)
  /\ map snd (blockchain_view chain) = rev chain
  /\ map fst (blockchain_view chain) = rev (seq 0 (length chain))
  /\ (forall idx b,
        In (idx, b) (blockchain_view chain) <-> nth_error chain idx = Some b).
Proof.
  rewrite blockchain_view_rev. unfold enumerate.
  split; [reflexivity|]. split; [|split].
  - rewrite map_rev. f_equal.
    clear. generalize 0%nat.
    induction chain as [|b chain IH]; intro s; cbn; [reflexivity|].
    now rewrite IH.
  - rewrite map_rev. f_equal.
    clear. generalize 0%nat.
    induction chain as [|b chain IH]; intro s; cbn; [reflexivity|].
    now rewrite IH.
  - intros idx b. rewrite <- in_rev. rewrite combine_seq_In.
    rewrite Nat.sub_0_r. split; [tauto | intro; split; [lia | assumption]].
Qed.


(* ----------------------------------------------------------------- *)
(** *** Submission in [main.py] *)

(** X12: what [main.py] lets into the queue.  The "Add to Pending"
    handler never touches the chain or the balances.  When it reports
    success it has appended exactly one transfer: the selected sender, a
    receiver taken from the other account names (so never the sender
    itself), a positive amount that the sender's balance covers.  In every
    other case the state is left as it was. *)
Theorem main_submission_checks (sender_idx receiver_pos : nat) (amt : Q)
    (st : Main.state D) :
  Main.blockchain (snd (MainMore.add_to_pending sender_idx receiver_pos amt st))
  = Main.blockchain st
  /\ Main.accounts
       (snd (MainMore.add_to_pending sender_idx receiver_pos amt st))
     = Main.accounts st
  /\ (fst (MainMore.add_to_pending sender_idx receiver_pos amt st)
      = Some true ->
      exists tx bal,
        Main.pending_transactions
          (snd (MainMore.add_to_pending sender_idx receiver_pos amt st))
        = Main.pending_transactions st ++ [tx]
        /\ nth_error (dict_keys (Main.accounts st)) sender_idx
           = Some (Main.sender tx)
        /\ In (Main.receiver tx) (dict_keys (Main.accounts st))
        /\ Main.sender tx <> Main.receiver tx
        /\ Main.amount tx = amt
        /\ 0 < amt
        /\ dict_get (Main.sender tx) (Main.accounts st) = Some bal
        /\ amt <= bal)
  /\ (fst (MainMore.add_to_pending sender_idx receiver_pos amt st)
      <> Some true ->
      snd (MainMore.add_to_pending sender_idx receiver_pos amt st) = st).
Proof.
  unfold MainMore.add_to_pending.
  destruct (length (Main.accounts st) <? 2)%nat;
    [cbn; repeat split; congruence|].
  cbv zeta.
  destruct (nth_error (dict_keys (Main.accounts st)) sender_idx)
    as [sender_name|] eqn:Es; [|cbn; repeat split; congruence].
  destruct (nth_error
              (filter (fun acc => negb (String.eqb acc sender_name))
                      (dict_keys (Main.accounts st))) receiver_pos)
    as [receiver_name|] eqn:Er; [|cbn; repeat split; congruence].
  destruct (nonempty sender_name && nonempty receiver_name && Qgtb amt 0)
    eqn:Eok; [|cbn; repeat split; congruence].
  destruct (dict_get sender_name (Main.accounts st)) as [bal|] eqn:Eb;
    [|cbn; repeat split; congruence].
  destruct (Qgeb bal amt) eqn:Ege; [|cbn; repeat split; congruence].
  cbn [fst snd Main.blockchain Main.accounts Main.pending_transactions].
  split; [reflexivity|]. split; [reflexivity|]. split; [|congruence].
  intros _. eexists. exists bal. split; [reflexivity|].
  cbn [Main.sender Main.receiver Main.amount].
  apply nth_error_In in Er. apply filter_In in Er. destruct Er as [Hin Hne].
  apply negb_true_iff in Hne. apply String.eqb_neq in Hne.
  apply andb_true_iff in Eok. destruct Eok as [_ Hamt].
  repeat split; auto.
  - now apply Qgtb_true.
  - now apply Qgeb_true.
Qed.

(* ----------------------------------------------------------------- *)
(** *** Submitting the same transfer again *)

Lemma create_transaction_reads_accounts (st st2 : state D)
    (sender_input receiver_input : option Z) (amount_input : option Q) :
  accounts st2 = accounts st ->
  create_transaction sender_input receiver_input amount_input st2
  = (fst (create_transaction sender_input receiver_input amount_input st),
     match fst (create_transaction sender_input receiver_input amount_input
                  st) with
     | TransactionAdded tx => enqueue tx st2
     | _ => st2
     end).
Proof.
  intro Hacc. unfold create_transaction. rewrite Hacc.
  destruct (length (accounts st) <? 2)%nat; [reflexivity|].
  destruct sender_input as [sender_no|]; [|reflexivity].
  destruct receiver_input as [receiver_no|]; [|reflexivity].
  cbv zeta.
  destruct ((sender_no - 1 <? 0)
            || (sender_no - 1 >=? Z.of_nat (length (dict_keys (accounts st)))))%Z;
    [reflexivity|].
  destruct ((receiver_no - 1 <? 0)
            || (receiver_no - 1
                >=? Z.of_nat (length (dict_keys (accounts st)))))%Z;
    [reflexivity|].
  destruct (sender_no - 1 =? receiver_no - 1)%Z; [reflexivity|].
  destruct (list_item (dict_keys (accounts st)) (sender_no - 1));
    [|reflexivity].
  destruct (list_item (dict_keys (accounts st)) (receiver_no - 1));
    [|reflexivity].
  destruct amount_input as [amt|]; [|reflexivity].
  destruct (Qleb amt 0); [reflexivity|].
  destruct (dict_get s (accounts st)); [|reflexivity].
  destruct (Qltb (balance a) amt); reflexivity.
Qed.

Lemma add_to_pending_reads_accounts (st st2 : state D)
    (sender_idx receiver_pos : nat) (amt : Q) :
  accounts st2 = accounts st ->
  add_to_pending sender_idx receiver_pos amt st2
  = (fst (add_to_pending sender_idx receiver_pos amt st),
     match fst (add_to_pending sender_idx receiver_pos amt st) with
     | TransactionAdded tx => enqueue tx st2
     | _ => st2
     end).
Proof.
  intro Hacc. unfold add_to_pending. rewrite Hacc.
  destruct (length (accounts st) <? 2)%nat; [reflexivity|].
  cbv zeta.
  destruct (nth_error (dict_keys (accounts st)) sender_idx) as [sn|];
    [|reflexivity].
  destruct (nth_error (names_except sender_idx (dict_keys (accounts st)))
              receiver_pos) as [rn|]; [|reflexivity].
  destruct (nonempty sn && nonempty rn && Qgtb amt 0); [|reflexivity].
  destruct (dict_get sn (accounts st)); [|reflexivity].
  destruct (Qgeb (balance a) amt); reflexivity.
Qed.

(** X13: a submission does not reserve funds.  Whether a transfer is
    accepted depends on the account store only, not on what is already
    queued; since an accepted submission leaves the store untouched, the
    same input is accepted again right after, in the console and in the
    dashboard, and the transfer is then queued twice. *)
Theorem submission_repeatable (st : state D) :
  (forall sender_input receiver_input amount_input tx st',
      create_transaction sender_input receiver_input amount_input st
        = (TransactionAdded tx, st') ->
      create_transaction sender_input receiver_input amount_input st'
        = (TransactionAdded tx, enqueue tx st')
      /\ pending_transactions (enqueue tx st')
         = pending_transactions st ++ [tx; tx])
  /\ (forall sender_idx receiver_pos amt tx st',
        add_to_pending sender_idx receiver_pos amt st
          = (TransactionAdded tx, st') ->
        add_to_pending sender_idx receiver_pos amt st'
          = (TransactionAdded tx, enqueue tx st')
        /\ pending_transactions (enqueue tx st')
           = pending_transactions st ++ [tx; tx])
  /\ (forall (st2 : state D) sender_input receiver_input amount_input,
        accounts st2 = accounts st ->
        fst (create_transaction sender_input receiver_input amount_input st2)
        = fst (create_transaction sender_input receiver_input amount_input
                 st))
  /\ (forall (st2 : state D) sender_idx receiver_pos amt,
        accounts st2 = accounts st ->
        fst (add_to_pending sender_idx receiver_pos amt st2)
        = fst (add_to_pending sender_idx receiver_pos amt st)).
Proof.
  split; [|split; [|split]].
  - intros si ri ai tx st' Hsub.
    pose proof (create_transaction_reads_accounts st st si ri ai eq_refl)
      as Hself.
    rewrite Hsub in Hself. cbn [fst] in Hself.
    injection Hself as ->.
    rewrite (create_transaction_reads_accounts st (enqueue tx st) si ri ai
               eq_refl).
    rewrite Hsub. cbn [fst]. split; [reflexivity|].
    unfold enqueue. cbn [pending_transactions].
    now rewrite <- app_assoc.
  - intros sidx rpos amt tx st' Hsub.
    pose proof (add_to_pending_reads_accounts st st sidx rpos amt eq_refl)
      as Hself.
    rewrite Hsub in Hself. cbn [fst] in Hself.
    injection Hself as ->.
    rewrite (add_to_pending_reads_accounts st (enqueue tx st) sidx rpos amt
               eq_refl).
    rewrite Hsub. cbn [fst]. split; [reflexivity|].
    unfold enqueue. cbn [pending_transactions].
    now rewrite <- app_assoc.
  - intros st2 si ri ai Hacc.
    now rewrite (create_transaction_reads_accounts st st2 si ri ai Hacc).
  - intros st2 sidx rpos amt Hacc.
    now rewrite (add_to_pending_reads_accounts st st2 sidx rpos amt Hacc).
Qed.

(* ----------------------------------------------------------------- *)
(** *** The chain stays valid *)

(** X14: validation after mining.  If [validate_blockchain] reports a
    valid chain, it still does after any [mine_block] call, whatever its
    outcome; account creation and submission do not touch the chain at
    all. *)
Theorem chain_stays_valid (fe : frontend) (now : Q) (st : state D) :
  blockchain st <> [] ->
  validate_blockchain st = true ->
  validate_blockchain (snd (mine_block fe now st)) = true
  /\ (forall account_name roll initial_balance,
        blockchain (create_account account_name roll initial_balance st)
        = blockchain st)
  /\ (forall sender_input receiver_input amount_input,
        blockchain (snd (create_transaction sender_input receiver_input
                           amount_input st))
        = blockchain st)
  /\ (forall sender_idx receiver_pos amt,
        blockchain (snd (add_to_pending sender_idx receiver_pos amt st))
        = blockchain st).
Proof.
  intros Hne Hvalid.
  assert (Hwl : well_linked (blockchain st)).
  { unfold validate_blockchain, is_valid, first_invalid_index in Hvalid.
    apply (first_invalid_None (blockchain st) 0).
    destruct (first_invalid_from 0 (blockchain st)); [discriminate|].
    reflexivity. }
  split; [|split; [|split]].
  - assert (Hwl' : well_linked (blockchain (snd (mine_block fe now st)))).
    { unfold mine_block.
      destruct (pending_transactions st) as [|first rest] eqn:Hp;
        [exact Hwl|].
      unfold mine_pending. rewrite Hp.
      destruct (apply_zakat_to_accounts fe (accounts st)) as [[accs1 zc] zd].
      destruct (process_transactions (first :: rest) accs1
                  (zakat_records fe zc zd)) as [accs2 [recs|e]];
        [|exact Hwl].
      destruct recs as [|r recs]; [exact Hwl|].
      destruct (miner_roll_of accs2 (first :: rest)); [|exact Hwl].
      cbn [add_block snd blockchain]. now apply well_linked_add. }
    unfold validate_blockchain, is_valid, first_invalid_index.
    now rewrite (proj2 (first_invalid_None _ 0) Hwl').
  - intros account_name roll ib. unfold create_account.
    destruct (negb (nonempty account_name)); [reflexivity|].
    destruct (dict_mem account_name (accounts st)); [reflexivity|].
    destruct (negb (nonempty roll)); [reflexivity|].
    destruct ib as [b|]; [|reflexivity].
    destruct (Qltb b 0); reflexivity.
  - intros si ri ai.
    rewrite (create_transaction_reads_accounts st st si ri ai eq_refl).
    cbn [snd].
    destruct (fst (create_transaction si ri ai st)); reflexivity.
  - intros sidx rpos amt.
    rewrite (add_to_pending_reads_accounts st st sidx rpos amt eq_refl).
    cbn [snd].
    destruct (fst (add_to_pending sidx rpos amt st)); reflexivity.
Qed.


(* ----------------------------------------------------------------- *)
(** *** Account creation in the dashboards *)

(** X15: account creation in the dashboards.  The "Create Account"
    handlers of [streamlit_main.py] and [main.py] never touch the chain, the
    pending queue or an existing account, and keep the account names
    pairwise distinct.  An account is added, after the existing ones,
    exactly when the name is non-empty and new (and, in
    [streamlit_main.py], the roll number is non-empty); creating under an
    existing name changes nothing, so the first balance stands. *)
Theorem dashboard_account_creation (new_account roll_number : string)
    (initial_balance : Q) (st : state D) (mst : Main.state D) :
  dict_wf (accounts st) -> dict_wf (Main.accounts mst) ->
  (blockchain (dashboard_create_account new_account roll_number
                 initial_balance st) = blockchain st
   /\ pending_transactions
        (dashboard_create_account new_account roll_number initial_balance st)
      = pending_transactions st
   /\ dict_wf (accounts (dashboard_create_account new_account roll_number
                           initial_balance st))
   /\ (forall other a,
         dict_get other (accounts st) = Some a ->
         dict_get other
           (accounts (dashboard_create_account new_account roll_number
                        initial_balance st)) = Some a)
   /\ (new_account <> "" -> roll_number <> "" ->
       dict_mem new_account (accounts st) = false ->
       accounts (dashboard_create_account new_account roll_number
                   initial_balance st)
       = accounts st
           ++ [(new_account, mk_account initial_balance roll_number)])
   /\ (new_account = "" \/ roll_number = ""
       \/ dict_mem new_account (accounts st) = true ->
       dashboard_create_account new_account roll_number initial_balance st
       = st))
  /\ (Main.blockchain (MainMore.create_account new_account initial_balance mst)
      = Main.blockchain mst
      /\ Main.pending_transactions
           (MainMore.create_account new_account initial_balance mst)
         = Main.pending_transactions mst
      /\ dict_wf (Main.accounts
                    (MainMore.create_account new_account initial_balance mst))
      /\ (forall other b,
            dict_get other (Main.accounts mst) = Some b ->
            dict_get other
              (Main.accounts
                 (MainMore.create_account new_account initial_balance mst))
            = Some b)
      /\ (new_account <> "" ->
          dict_mem new_account (Main.accounts mst) = false ->
          Main.accounts
            (MainMore.create_account new_account initial_balance mst)
          = Main.accounts mst ++ [(new_account, initial_balance)])
      /\ (new_account = ""
          \/ dict_mem new_account (Main.accounts mst) = true ->
          MainMore.create_account new_account initial_balance mst = mst)).
Proof.
  intros Hwf Hmwf.
  assert (Hne : forall s, s <> "" -> nonempty s = true)
    by (intros [|c s] Hs; [congruence | reflexivity]).
  split.
  - unfold dashboard_create_account.
    destruct (nonempty new_account) eqn:En.
    2:{ cbn [andb]. repeat split; auto.
        intros C. apply Hne in C. congruence. }
    destruct (nonempty roll_number) eqn:Er.
    2:{ cbn [andb]. repeat split; auto.
        intros _ C. apply Hne in C. congruence. }
    destruct (dict_mem new_account (accounts st)) eqn:Em.
    { cbn [andb negb]. repeat split; auto. congruence. }
    cbn [andb negb blockchain pending_transactions accounts].
    apply dict_mem_false in Em.
    split; [reflexivity|]. split; [reflexivity|].
    split; [now apply dict_wf_set_any|]. split; [|split].
    + intros other a Hget. rewrite dict_get_set_other; [exact Hget|].
      intros ->. congruence.
    + intros _ _ _. now apply dict_set_new.
    + intros [->|[->|C]]; discriminate.
  - unfold MainMore.create_account.
    destruct (nonempty new_account) eqn:En.
    2:{ cbn [andb]. repeat split; auto.
        intros C. apply Hne in C. congruence. }
    destruct (dict_mem new_account (Main.accounts mst)) eqn:Em.
    { cbn [andb negb]. repeat split; auto. congruence. }
    cbn [andb negb Main.blockchain Main.pending_transactions Main.accounts].
    apply dict_mem_false in Em.
    split; [reflexivity|]. split; [reflexivity|].
    split; [now apply dict_wf_set_any|]. split; [|split].
    + intros other b Hget. rewrite dict_get_set_other; [exact Hget|].
      intros ->. congruence.
    + intros _ _. now apply dict_set_new.
    + intros [->|C]; discriminate.
Qed.


(* ----------------------------------------------------------------- *)
(** *** Mining in [main.py] *)

Lemma main_process_transactions_Ok (txs : list Main.Transaction)
    (accs accs' : Main.account_dict) (recs0 recs : list entry) :
  Main.process_transactions txs accs recs0 = (accs', Ok recs) ->
  recs = recs0
         ++ map (fun tx => PlainTransferRecord (Main.sender tx)
                             (Main.receiver tx) (Main.amount tx)) txs.
Proof.
  revert accs recs0. induction txs as [|tx txs IH]; intros accs recs0;
    cbn [Main.process_transactions map].
  - intro E. injection E as _ <-. now rewrite app_nil_r.
  - destruct (Main.apply tx accs) as [accs1|e]; [|discriminate].
    intro Hrun. rewrite (IH _ _ Hrun). now rewrite <- app_assoc.
Qed.

(** X16: how mining ends in [main.py].  [process_pending_transactions]
    never lets an exception escape.  When it returns [True] the queue was
    not empty and is emptied, and exactly one block is appended: its creator
    is "2023", it is linked to the previous tail, and its log is the zakat
    summary (only if the levy collected a positive total) followed by one
    "sender -> receiver: amount" line per pending transfer, in order.  In
    every other case the chain and the queue are left as they were. *)
Theorem main_mining_outcome (now : Q) (mst : Main.state D) :
  match fst (Main.process_pending_transactions now mst) with
  | Ok (PyBool true) =>
      Main.pending_transactions mst <> []
      /\ Main.pending_transactions
           (snd (Main.process_pending_transactions now mst)) = []
      /\ exists blk,
           Main.blockchain (snd (Main.process_pending_transactions now mst))
           = Main.blockchain mst ++ [blk]
           /\ Block.roll_no blk = "2023"
           /\ Block.prev_hash blk = tail_digest (Main.blockchain mst)
           /\ Block.timestamp blk = now
           /\ Block.transactions blk
              = (if Qgtb (snd (Main.apply_zakat_to_accounts
                                 (Main.accounts mst))) 0
                 then [ZakatCollection
                         (snd (Main.apply_zakat_to_accounts
                                 (Main.accounts mst)))]
                 else [])
                ++ map (fun tx => PlainTransferRecord (Main.sender tx)
                                    (Main.receiver tx) (Main.amount tx))
                       (Main.pending_transactions mst)
  | Ok (PyBool false) =>
      Main.blockchain (snd (Main.process_pending_transactions now mst))
      = Main.blockchain mst
      /\ Main.pending_transactions
           (snd (Main.process_pending_transactions now mst))
         = Main.pending_transactions mst
  | _ => False
  end.
Proof.
  unfold Main.process_pending_transactions.
  destruct (Main.pending_transactions mst) as [|first rest] eqn:Hp.
  - cbn. auto.
  - unfold Main.process_pending. rewrite Hp.
    destruct (Main.apply_zakat_to_accounts (Main.accounts mst))
      as [accs1 zc].
    cbn [snd].
    match goal with
    | |- context [Main.process_transactions ?l ?a ?r] =>
        destruct (Main.process_transactions l a r)
          as [accs2 [recs|e]] eqn:Hrun
    end.
    + apply main_process_transactions_Ok in Hrun.
      destruct recs as [|r recs].
      * exfalso. cbn [map] in Hrun.
        destruct (Qgtb zc 0); discriminate.
      * cbn [add_block fst snd Main.blockchain Main.pending_transactions].
        split; [discriminate|]. split; [reflexivity|].
        eexists. split; [reflexivity|].
        cbn [Block.create Block.roll_no Block.prev_hash Block.timestamp
             Block.transactions].
        repeat split. exact Hrun.
    + cbn. auto.
Qed.

End MoreLedgerFacts.

(* ================================================================= *)
(** ** The further statements on sample ledgers *)

Ltac solve_forall :=
  repeat first
    [ apply Forall_nil
    | apply Forall_cons;
      [ first [ discriminate | reflexivity | split; reflexivity ] | ] ].

(** Mining [Demo.twice] fails part-way and still lists the same
    accounts. *)
Lemma mining_keeps_accounts_witness :
  dict_wf (accounts Demo.twice)
  /\ dict_keys (accounts (snd (mine_block Console 1 Demo.twice)))
     = ["A"; "B"].
Proof.
  assert (Hwf : dict_wf (accounts Demo.twice)) by solve_wf.
  split; [exact Hwf|].
  exact (proj1 (mining_keeps_accounts Console 1 Demo.twice Hwf)).
Defined.

(** In that session the queued transfer names two accounts, and the
    pending view has one row and raises nothing. *)
Lemma parties_stay_known_witness :
  dict_wf (accounts Demo2.session)
  /\ known_parties (accounts Demo2.session)
                   (pending_transactions Demo2.session)
  /\ snd (view_pending_transactions Demo2.session) = None
  /\ map row_number (fst (view_pending_transactions Demo2.session))
     = seq 1 (length (pending_transactions Demo2.session)).
Proof.
  assert (Hwf : dict_wf (accounts Demo2.session)) by solve_wf.
  assert (Hk : known_parties (accounts Demo2.session)
                             (pending_transactions Demo2.session)).
  { unfold known_parties. vm_compute pending_transactions.
    solve_forall. }
  split; [exact Hwf|]. split; [exact Hk|].
  destruct (parties_stay_known Demo2.session Hwf Hk)
    as (_ & _ & _ & _ & _ & _ & _ & Herr & Hnum & _).
  split; [exact Herr | exact Hnum].
Defined.

(** [Demo.twice] fails at a transfer of 50 whose sender holds 0. *)
Lemma batch_fails_only_for_balance_witness :
  dict_wf (accounts Demo.twice)
  /\ known_parties (accounts Demo.twice) (pending_transactions Demo.twice)
  /\ pending_transactions Demo.twice <> []
  /\ fst (mine_block Console 1 Demo.twice) <> Ok (PyBool true)
  /\ fst (mine_block Console 1 Demo.twice) = Ok (PyBool false).
Proof.
  assert (Hwf : dict_wf (accounts Demo.twice)) by solve_wf.
  assert (Hk : known_parties (accounts Demo.twice)
                             (pending_transactions Demo.twice)).
  { unfold known_parties. cbn [Demo.twice pending_transactions].
    solve_forall. }
  assert (Hp : pending_transactions Demo.twice <> []) by discriminate.
  assert (Hn : fst (mine_block Console 1 Demo.twice) <> Ok (PyBool true))
    by (vm_compute; discriminate).
  split; [exact Hwf|]. split; [exact Hk|]. split; [exact Hp|].
  split; [exact Hn|].
  exact (proj1 (batch_fails_only_for_balance Console 1 Demo.twice
                  Hwf Hk Hp Hn)).
Defined.


(** The chain of [Demo.one] validates before and after mining. *)
Lemma chain_stays_valid_witness :
  blockchain Demo.one <> []
  /\ validate_blockchain Demo.one = true
  /\ validate_blockchain (snd (mine_block Console 1 Demo.one)) = true.
Proof.
  assert (Hne : blockchain Demo.one <> []) by discriminate.
  split; [exact Hne|]. split; [reflexivity|].
  exact (proj1 (chain_stays_valid Console 1 Demo.one Hne eq_refl)).
Defined.

(** A second creation of ["A"] in either dashboard changes nothing. *)
Lemma dashboard_account_creation_witness :
  dict_wf (accounts Demo.idle)
  /\ dict_wf (Main.accounts Demo.main_idle)
  /\ dashboard_create_account "A" "r9" 7 Demo.idle = Demo.idle
  /\ MainMore.create_account "A" 7 Demo.main_idle = Demo.main_idle.
Proof.
  assert (Hwf : dict_wf (accounts Demo.idle)) by solve_wf.
  assert (Hmwf : dict_wf (Main.accounts Demo.main_idle)) by solve_wf.
  split; [exact Hwf|]. split; [exact Hmwf|].
  destruct (dashboard_account_creation "A" "r9" 7 Demo.idle Demo.main_idle
              Hwf Hmwf)
    as ((_ & _ & _ & _ & _ & Hs) & (_ & _ & _ & _ & _ & Hm)).
  split; [apply Hs | apply Hm]; right; try right; reflexivity.
Defined.

(* ================================================================= *)
(** * The ledger over binary64 numbers *)

(** ** Comparisons of binary64 numbers *)

Lemma SFcompare_antisym (x y : spec_float) :
  SFcompare y x = option_map CompOpp (SFcompare x y).
Proof.
  destruct x as [sx|sx| |sx mx ex], y as [sy|sy| |sy my ey]; cbn;
    try reflexivity;
    try (destruct sx; reflexivity); try (destruct sy; reflexivity);
    try (destruct sx, sy; reflexivity).
  pose proof (Pos.compare_cont_antisym mx my Eq) as Hm. cbn in Hm.
  rewrite (Z.compare_antisym ex ey).
  destruct sx, sy; try reflexivity;
    destruct (ex ?= ey)%Z; cbn; try reflexivity; rewrite <- Hm;
    try rewrite CompOpp_involutive; reflexivity.
Qed.

(** [x < y] excludes [y <= x], and [x <= y] excludes [y < x]; the converse
    fails when one of the two is NaN. *)
Lemma ltb_not_leb (x y : float) :
  PrimFloat.ltb x y = true -> PrimFloat.leb y x = false.
Proof.
  rewrite ltb_spec, leb_spec. unfold SFltb, SFleb.
  rewrite (SFcompare_antisym (Prim2SF x) (Prim2SF y)).
  destruct (SFcompare (Prim2SF x) (Prim2SF y)) as [[]|]; cbn; congruence.
Qed.

Lemma leb_not_ltb (x y : float) :
  PrimFloat.leb x y = true -> PrimFloat.ltb y x = false.
Proof.
  rewrite ltb_spec, leb_spec. unfold SFltb, SFleb.
  rewrite (SFcompare_antisym (Prim2SF x) (Prim2SF y)).
  destruct (SFcompare (Prim2SF x) (Prim2SF y)) as [[]|]; cbn; congruence.
Qed.

(** Every comparison with NaN is false. *)
Lemma ltb_nan_r (x : float) : PrimFloat.ltb x nan = false.
Proof.
  rewrite ltb_spec. change (Prim2SF nan) with S754_nan.
  unfold SFltb. destruct (Prim2SF x); reflexivity.
Qed.

Lemma leb_nan_l (x : float) : PrimFloat.leb nan x = false.
Proof.
  rewrite leb_spec. change (Prim2SF nan) with S754_nan. reflexivity.
Qed.

Lemma ltb_nan_l (x : float) : PrimFloat.ltb nan x = false.
Proof.
  rewrite ltb_spec. change (Prim2SF nan) with S754_nan. reflexivity.
Qed.

Section Binary64Facts.
Import Binary64.
Local Open Scope float_scope.

Variable chain : Type.
Variable add_block : list entry -> string -> chain -> bool * chain.

(* ================================================================= *)
(** ** The levy loop *)

Lemma zakat_step_item64 (t : float) (pre post : account_dict) (k : string)
    (a : account) (c : float) (dt : list zakat_detail) :
  ~ In k (dict_keys pre) ->
  zakat_step t (pre ++ (k, a) :: post, c, dt) k
  = (pre ++ levied_item t (k, a) :: post,
     if qualifies t (k, a) then collect c (k, a) else c,
     if qualifies t (k, a) then dt ++ [detail_of (k, a)] else dt).
Proof.
  intro Hk. unfold zakat_step, qualifies, levied_item, levied, collect,
    detail_of.
  rewrite dict_get_middle by exact Hk. cbn [fst snd].
  destruct (geb (balance a) t).
  - rewrite dict_set_middle by exact Hk. reflexivity.
  - reflexivity.
Qed.

Lemma zakat_fold_items64 (t : float) (post pre : account_dict) (c : float)
    (dt : list zakat_detail) :
  NoDup (dict_keys (pre ++ post)) ->
  fold_left (zakat_step t) (dict_keys post) (pre ++ post, c, dt)
  = (pre ++ map (levied_item t) post,
     fold_left collect (filter (qualifies t) post) c,
     dt ++ map detail_of (filter (qualifies t) post)).
Proof.
  revert pre c dt.
  induction post as [|[k a] post IH]; intros pre c dt Hnd.
  - cbn. rewrite !app_nil_r. reflexivity.
  - assert (Hk : ~ In k (dict_keys pre)).
    { unfold dict_keys in Hnd. rewrite map_app in Hnd. cbn in Hnd.
      apply NoDup_remove_2 in Hnd. intro I. apply Hnd.
      apply in_or_app. now left. }
    cbn [dict_keys map fold_left fst filter].
    rewrite zakat_step_item64 by exact Hk.
    change (pre ++ levied_item t (k, a) :: post)
      with (pre ++ [levied_item t (k, a)] ++ post).
    rewrite app_assoc.
    change (fold_left (zakat_step t) (map fst post))
      with (fold_left (zakat_step t) (dict_keys post)).
    rewrite IH.
    + rewrite <- app_assoc. cbn [app].
      destruct (qualifies t (k, a)); cbn [fold_left map].
      * rewrite <- app_assoc. reflexivity.
      * reflexivity.
    + rewrite <- app_assoc. cbn [app].
      unfold dict_keys in *. rewrite map_app in *. exact Hnd.
Qed.

(** On a store with distinct names the loop is the item-wise levy. *)
Lemma apply_zakat_with_spec64 (t : float) (accs : account_dict) :
  dict_wf accs ->
  apply_zakat_with t accs
  = (map (levied_item t) accs,
     fold_left collect (filter (qualifies t) accs) 0,
     map detail_of (filter (qualifies t) accs)).
Proof.
  intro Hwf. unfold apply_zakat_with.
  exact (zakat_fold_items64 t accs [] 0 [] Hwf).
Qed.

Lemma dict_keys_levied64 (t : float) (accs : account_dict) :
  dict_keys (map (levied_item t) accs) = dict_keys accs.
Proof.
  unfold dict_keys. rewrite map_map. reflexivity.
Qed.

Lemma dict_get_levied64 (t : float) (name : string) (accs : account_dict) :
  dict_get name (map (levied_item t) accs)
  = option_map (levied t) (dict_get name accs).
Proof.
  induction accs as [|[k a] rest IH]; simpl; [reflexivity|].
  destruct (String.eqb name k); [reflexivity | exact IH].
Qed.

Lemma main_zakat_fold_items64 (post pre : Main.account_dict) (c : float) :
  NoDup (dict_keys (pre ++ post)) ->
  fold_left Main.zakat_step (dict_keys post) (pre ++ post, c)
  = (pre ++ map (fun kv => (fst kv, Main.levied (snd kv))) post,
     fold_left (fun c kv => c + calculate_zakat (snd kv) zakat_rate)
               (filter (fun kv => geb (snd kv) 1000) post) c).
Proof.
  revert pre c.
  induction post as [|[k b] post IH]; intros pre c Hnd.
  - cbn. rewrite !app_nil_r. reflexivity.
  - assert (Hk : ~ In k (dict_keys pre)).
    { unfold dict_keys in Hnd. rewrite map_app in Hnd. cbn in Hnd.
      apply NoDup_remove_2 in Hnd. intro I. apply Hnd.
      apply in_or_app. now left. }
    cbn [dict_keys map fold_left fst snd filter].
    unfold Main.zakat_step at 2.
    rewrite dict_get_middle by exact Hk.
    unfold Main.levied at 1.
    change (fold_left Main.zakat_step (map fst post))
      with (fold_left Main.zakat_step (dict_keys post)).
    assert (Hnd' : forall b', NoDup (dict_keys ((pre ++ [(k, b')]) ++ post))).
    { intro b'. rewrite <- app_assoc. cbn [app].
      unfold dict_keys in *. rewrite map_app in *. exact Hnd. }
    destruct (geb b 1000).
    + rewrite dict_set_middle by exact Hk.
      change (pre ++ (k, b - calculate_zakat b zakat_rate) :: post)
        with (pre ++ [(k, b - calculate_zakat b zakat_rate)] ++ post).
      rewrite app_assoc, IH by apply Hnd'.
      rewrite <- app_assoc. reflexivity.
    + change (pre ++ (k, b) :: post) with (pre ++ [(k, b)] ++ post).
      rewrite app_assoc, IH by apply Hnd'.
      rewrite <- app_assoc. reflexivity.
Qed.

Lemma main_apply_zakat_spec64 (accs : Main.account_dict) :
  dict_wf accs ->
  Main.apply_zakat_to_accounts accs
  = (map (fun kv => (fst kv, Main.levied (snd kv))) accs,
     fold_left (fun c kv => c + calculate_zakat (snd kv) zakat_rate)
               (filter (fun kv => geb (snd kv) 1000) accs) 0).
Proof.
  intro Hwf. exact (main_zakat_fold_items64 accs [] 0 Hwf).
Qed.

(** C3: the levy, as the code computes it.  After
    [apply_zakat_to_accounts] with threshold [t] (100 in the console, 1000
    in the dashboard) on a store with distinct names, an account whose
    balance [b] passes the test [b >= t] holds the binary64 number
    [b - b * 0.025]: the product is rounded, then the difference is
    rounded; its roll number is kept.  An account with [b < t], and more
    generally one that fails the test [b >= t] (a NaN balance does), is
    left as it was.  The same holds for the name-to-balance store of
    [main.py] with threshold 1000. *)
Theorem levy_rounds (t : float) (accs : account_dict) (name : string)
    (a : account) :
  dict_wf accs -> dict_get name accs = Some a ->
  ((t <=? balance a) = true ->
     dict_get name (fst (fst (apply_zakat_with t accs)))
     = Some (mk_account (balance a - balance a * zakat_rate) (roll_no a)))
  /\ ((balance a <? t) = true ->
      dict_get name (fst (fst (apply_zakat_with t accs))) = Some a)
  /\ ((t <=? balance a) = false ->
      dict_get name (fst (fst (apply_zakat_with t accs))) = Some a)
  /\ (forall fe,
        apply_zakat_to_accounts fe accs
        = apply_zakat_with (zakat_threshold fe) accs)
  /\ (forall (maccs : Main.account_dict) (mname : string) (mb : float),
        dict_wf maccs -> dict_get mname maccs = Some mb ->
        ((1000 <=? mb) = true ->
           dict_get mname (fst (Main.apply_zakat_to_accounts maccs))
           = Some (mb - mb * zakat_rate))
        /\ ((mb <? 1000) = true ->
            dict_get mname (fst (Main.apply_zakat_to_accounts maccs))
            = Some mb)
        /\ ((1000 <=? mb) = false ->
            dict_get mname (fst (Main.apply_zakat_to_accounts maccs))
            = Some mb)).
Proof.
  intros Hwf Hget.
  rewrite apply_zakat_with_spec64 by exact Hwf. cbn [fst].
  rewrite dict_get_levied64, Hget. cbn [option_map].
  unfold levied, geb, calculate_zakat, with_balance.
  split; [|split; [|split; [|split]]].
  - intro Hle. now rewrite Hle.
  - intro Hlt. apply ltb_not_leb in Hlt. now rewrite Hlt.
  - intro Hnle. now rewrite Hnle.
  - reflexivity.
  - intros maccs mname mb Hmwf Hmget.
    rewrite main_apply_zakat_spec64 by exact Hmwf. cbn [fst].
    rewrite dict_get_map_values, Hmget. cbn [option_map].
    unfold Main.levied, geb, calculate_zakat.
    split; [|split].
    + intro Hle. now rewrite Hle.
    + intro Hlt. apply ltb_not_leb in Hlt. now rewrite Hlt.
    + intro Hnle. now rewrite Hnle.
Qed.

(* ================================================================= *)
(** ** Applying one transfer *)

Lemma update_balance_get_same64 (name : string) (f : float -> float)
    (accs : account_dict) (a : account) :
  dict_get name accs = Some a ->
  dict_get name (update_balance name f accs)
  = Some (with_balance (f (balance a)) a).
Proof.
  intro Hget. unfold update_balance. rewrite Hget.
  apply dict_get_set_same.
Qed.

Lemma update_balance_get_other64 (name other : string) (f : float -> float)
    (accs : account_dict) :
  other <> name ->
  dict_get other (update_balance name f accs) = dict_get other accs.
Proof.
  intro Hne. unfold update_balance.
  destruct (dict_get name accs); [|reflexivity].
  now apply dict_get_set_other.
Qed.

Lemma update_balance_keys64 (name : string) (f : float -> float)
    (accs : account_dict) :
  dict_keys (update_balance name f accs) = dict_keys accs.
Proof.
  unfold update_balance. destruct (dict_get name accs) eqn:E; [|reflexivity].
  apply dict_keys_set. eapply dict_get_key; eauto.
Qed.

Lemma update_balance_roll64 (name other : string) (f : float -> float)
    (accs : account_dict) :
  option_map roll_no (dict_get other (update_balance name f accs))
  = option_map roll_no (dict_get other accs).
Proof.
  destruct (string_dec other name) as [->|Hne].
  - destruct (dict_get name accs) as [a|] eqn:E.
    + rewrite (update_balance_get_same64 _ f _ _ E). reflexivity.
    + unfold update_balance. rewrite E. now rewrite E.
  - now rewrite update_balance_get_other64.
Qed.

(** The exact total after one balance has been rewritten. *)
Lemma exact_total_update (name : string) (f : float -> float)
    (accs : account_dict) (a : account) (x x' T : Q) :
  dict_get name accs = Some a ->
  exact (balance a) = Some x ->
  exact (f (balance a)) = Some x' ->
  exact_total accs = Some T ->
  exists T',
    exact_total (update_balance name f accs) = Some T'
    /\ (T' == T - x + x')%Q.
Proof.
  unfold update_balance. intro Hget. rewrite Hget. revert T Hget.
  induction accs as [|[k b] rest IH]; intros T; cbn [dict_get dict_set].
  - discriminate.
  - destruct (String.eqb name k).
    + intro E. injection E as ->. intros Hx Hx'.
      cbn [exact_total with_balance balance]. rewrite Hx, Hx'.
      destruct (exact_total rest) as [t|]; [|discriminate].
      intro E. injection E as <-.
      eexists. split; [reflexivity | ring].
    + intros Hget Hx Hx'. cbn [exact_total].
      destruct (exact (balance b)) as [y|]; [|discriminate].
      destruct (exact_total rest) as [t|] eqn:Et; [|discriminate].
      intro E. injection E as <-.
      destruct (IH t Hget Hx Hx' eq_refl) as (t' & Ht' & Heq).
      rewrite Ht'. eexists. split; [reflexivity|].
      rewrite Heq. ring.
Qed.

(** When [apply_to_accounts] returns, both guards were passed and the
    store is the debited and credited one. *)
Lemma apply_to_accounts_Ok64 (tx : TransactionWrapper)
    (accs accs' : account_dict) :
  apply_to_accounts tx accs = Ok accs' ->
  exists s r,
    dict_get (sender tx) accs = Some s
    /\ dict_get (receiver tx) accs = Some r
    /\ (balance s <? amount tx) = false
    /\ accs' = update_balance (receiver tx) (fun b => b + amount tx)
                 (update_balance (sender tx) (fun b => b - amount tx) accs).
Proof.
  unfold apply_to_accounts, dict_mem.
  destruct (dict_get (sender tx) accs) as [s|] eqn:Es; cbn [negb orb];
    [|discriminate].
  destruct (dict_get (receiver tx) accs) as [r|] eqn:Er; cbn [negb];
    [|discriminate].
  destruct (balance s <? amount tx) eqn:Elt; [discriminate|].
  intro E. injection E as <-.
  exists s, r. repeat split; try reflexivity. exact Elt.
Qed.

(** C2: what a transfer does to the balances.  A transfer that
    [apply_to_accounts] applies passed the test [balance < amount] of its
    sender; between two accounts it leaves the sender with the binary64
    difference [balance - amount] and the receiver with the binary64 sum
    [balance + amount], each rounded on its own.  The sum of the two
    balances and the total over all accounts, taken as exact numbers, then
    change by exactly the two rounding errors (what the computed difference
    adds to the exact difference, and the computed sum to the exact sum),
    so they are conserved when neither operation rounds.  Every other account keeps its record, no
    account appears or disappears, and no roll number changes. *)
Theorem transfer_rounding (tx : TransactionWrapper)
    (accs accs' : account_dict) :
  apply_to_accounts tx accs = Ok accs' ->
  (exists s r,
      dict_get (sender tx) accs = Some s
      /\ dict_get (receiver tx) accs = Some r
      /\ (balance s <? amount tx) = false
      /\ (sender tx <> receiver tx ->
          dict_get (sender tx) accs'
          = Some (mk_account (balance s - amount tx) (roll_no s))
          /\ dict_get (receiver tx) accs'
             = Some (mk_account (balance r + amount tx) (roll_no r))
          /\ forall x y z x' y' T : Q,
               exact (balance s) = Some x ->
               exact (balance r) = Some y ->
               exact (amount tx) = Some z ->
               exact (balance s - amount tx) = Some x' ->
               exact (balance r + amount tx) = Some y' ->
               exact_total accs = Some T ->
               let debit_error := (x' - (x - z))%Q in
               let credit_error := (y' - (y + z))%Q in
               (x' + y' == x + y + (debit_error + credit_error))%Q
               /\ exists T',
                    exact_total accs' = Some T'
                    /\ (T' == T + (debit_error + credit_error))%Q)
      /\ (sender tx = receiver tx ->
          dict_get (sender tx) accs'
          = Some (mk_account (balance s - amount tx + amount tx)
                             (roll_no s))))
  /\ (forall other, other <> sender tx -> other <> receiver tx ->
        dict_get other accs' = dict_get other accs)
  /\ dict_keys accs' = dict_keys accs
  /\ (forall name,
        option_map roll_no (dict_get name accs')
        = option_map roll_no (dict_get name accs)).
Proof.
  intro Happ.
  destruct (apply_to_accounts_Ok64 tx accs _ Happ)
    as (s & r & Hs & Hr & Hlt & ->).
  set (accs1 := update_balance (sender tx) (fun b => b - amount tx) accs).
  assert (Hs1 : dict_get (sender tx) accs1
                = Some (with_balance (balance s - amount tx) s))
    by exact (update_balance_get_same64 (sender tx) (fun b => b - amount tx)
                accs s Hs).
  split; [|split; [|split]].
  - exists s, r. do 3 (split; [assumption|]). split.
    + intro Hne.
      assert (Hr1 : dict_get (receiver tx) accs1 = Some r).
      { unfold accs1. rewrite update_balance_get_other64; auto. }
      split; [|split].
      * rewrite update_balance_get_other64 by exact Hne. exact Hs1.
      * exact (update_balance_get_same64 (receiver tx)
                 (fun b => b + amount tx) accs1 r Hr1).
      * intros x y z x' y' T Hx Hy Hz Hx' Hy' HT. cbv zeta.
        split; [ring|].
        destruct (exact_total_update (sender tx) (fun b => b - amount tx)
                    accs s x x' T Hs Hx Hx' HT) as (T1 & HT1 & E1).
        fold accs1 in HT1.
        destruct (exact_total_update (receiver tx) (fun b => b + amount tx)
                    accs1 r y y' T1 Hr1 Hy Hy' HT1) as (T2 & HT2 & E2).
        exists T2. split; [exact HT2|]. rewrite E2, E1. ring.
    + intro E.
      rewrite <- E.
      exact (update_balance_get_same64 (sender tx)
               (fun b => b + amount tx) accs1 _ Hs1).
  - intros other Hos Hor.
    rewrite update_balance_get_other64 by exact Hor.
    unfold accs1. now rewrite update_balance_get_other64.
  - unfold accs1. now rewrite !update_balance_keys64.
  - intro name. unfold accs1. now rewrite !update_balance_roll64.
Qed.

(* ================================================================= *)
(** ** Submitting a transfer *)

Lemma except_In (l : list string) (i : nat) (r : string) :
  In r (except i l) -> In r l.
Proof.
  revert i. induction l as [|x l IH]; intros [|j]; cbn; auto.
  intros [E|I]; [now left | right; eauto].
Qed.

Lemma except_other (l : list string) (i : nat) (s r : string) :
  NoDup l -> nth_error l i = Some s -> In r (except i l) -> r <> s.
Proof.
  revert i. induction l as [|x l IH]; intros [|j] Hnd; cbn; try discriminate.
  - intro E. injection E as ->. intros I ->.
    inversion Hnd; contradiction.
  - intros Hs [E|I].
    + subst x. intros ->. apply nth_error_In in Hs.
      inversion Hnd; contradiction.
    + inversion Hnd; subst. eapply IH; eauto.
Qed.

Lemma create_transaction_sound64 (st : state chain)
    (sender_input receiver_input : option Z) (amount_input : option float) :
  dict_wf (accounts st) ->
  submission_sound st
    (console_selection st sender_input receiver_input amount_input)
    (create_transaction sender_input receiver_input amount_input st).
Proof.
  intro Hwf. unfold create_transaction.
  assert (Hrej : forall m,
            match m with TransactionAdded _ => False | _ => True end ->
            submission_sound st
              (console_selection st sender_input receiver_input amount_input)
              (m, st)).
  { intros m Hm. unfold submission_sound. cbn [fst snd].
    repeat split. destruct m; auto; contradiction. }
  destruct (length (accounts st) <? 2)%nat; [now apply Hrej|].
  destruct sender_input as [sender_no|]; [|now apply Hrej].
  destruct receiver_input as [receiver_no|]; [|now apply Hrej].
  cbv zeta.
  set (n := Z.of_nat (length (dict_keys (accounts st)))).
  destruct ((sender_no - 1 <? 0) || (sender_no - 1 >=? n))%Z eqn:Es;
    [now apply Hrej|].
  destruct ((receiver_no - 1 <? 0) || (receiver_no - 1 >=? n))%Z eqn:Er;
    [now apply Hrej|].
  destruct (sender_no - 1 =? receiver_no - 1)%Z eqn:Eeq; [now apply Hrej|].
  unfold list_item.
  destruct (nth_error (dict_keys (accounts st)) (Z.to_nat (sender_no - 1)))
    as [sender_name|] eqn:Esn; [|now apply Hrej].
  destruct (nth_error (dict_keys (accounts st)) (Z.to_nat (receiver_no - 1)))
    as [receiver_name|] eqn:Ern; [|now apply Hrej].
  destruct amount_input as [amt|]; [|now apply Hrej].
  destruct (amt <=? 0) eqn:Eamt; [now apply Hrej|].
  destruct (dict_get sender_name (accounts st)) as [s|] eqn:Eget;
    [|now apply Hrej].
  destruct (balance s <? amt) eqn:Ebal; [now apply Hrej|].
  unfold submission_sound, enqueue. cbn [fst snd blockchain accounts
    pending_transactions].
  do 3 (split; [reflexivity|]). split.
  { exists sender_no, receiver_no. cbn [sender receiver amount].
    unfold list_item. auto. }
  unfold transfer_constraints.
  repeat split; cbn [sender receiver amount].
  - apply orb_false_iff in Es, Er. destruct Es as [Es1 _], Er as [Er1 _].
    apply Z.ltb_ge in Es1, Er1. apply Z.eqb_neq in Eeq.
    apply (nth_error_distinct (dict_keys (accounts st)) _ _ _ _ Hwf Esn Ern).
    intro E. apply Eeq. apply Z2Nat.inj in E; assumption.
  - exact Eamt.
  - apply dict_mem_true. eapply nth_error_In; eauto.
  - exists s. split; [assumption | exact Ebal].
Qed.

Lemma add_to_pending_sound64 (st : state chain)
    (sender_option receiver_option : string) (amt : float) :
  dict_wf (accounts st) ->
  submission_sound st
    (dashboard_selection st sender_option receiver_option amt)
    (add_to_pending sender_option receiver_option amt st)
  /\ (forall tx,
        fst (add_to_pending sender_option receiver_option amt st)
        = TransactionAdded tx ->
        (0 <? amount tx) = true
        /\ exists s,
             dict_get (sender tx) (accounts st) = Some s
             /\ (amount tx <=? balance s) = true).
Proof.
  intro Hwf. unfold add_to_pending.
  assert (Hrej : forall m,
            match m with TransactionAdded _ => False | _ => True end ->
            submission_sound st
              (dashboard_selection st sender_option receiver_option amt)
              (m, st)
            /\ (forall tx,
                  fst (m, st) = TransactionAdded tx ->
                  (0 <? amount tx) = true
                  /\ exists s,
                       dict_get (sender tx) (accounts st) = Some s
                       /\ (amount tx <=? balance s) = true)).
  { intros m Hm. split.
    - unfold submission_sound. cbn [fst snd].
      repeat split. destruct m; auto; contradiction.
    - cbn [fst]. intros tx E. subst m. contradiction. }
  destruct (length (accounts st) <? 2)%nat; [now apply Hrej|].
  cbv zeta.
  destruct (index sender_option (map account_option (accounts st)))
    as [sender_idx|] eqn:Esi; [|now apply Hrej].
  destruct (nth_error (dict_keys (accounts st)) sender_idx)
    as [sender_name|] eqn:Esn; [|now apply Hrej].
  destruct (index receiver_option
              (except sender_idx (map account_option (accounts st))))
    as [receiver_pos|] eqn:Eri; [|now apply Hrej].
  destruct (nth_error (except sender_idx (dict_keys (accounts st)))
              receiver_pos) as [receiver_name|] eqn:Ern; [|now apply Hrej].
  destruct (nonempty sender_name && nonempty receiver_name && gtb amt 0)
    eqn:Eok; [|now apply Hrej].
  destruct (dict_get sender_name (accounts st)) as [s|] eqn:Eget;
    [|now apply Hrej].
  destruct (geb (balance s) amt) eqn:Ebal; [|now apply Hrej].
  apply andb_true_iff in Eok. destruct Eok as [_ Eamt].
  unfold gtb in Eamt. unfold geb in Ebal.
  split.
  - unfold submission_sound, enqueue. cbn [fst snd blockchain accounts
      pending_transactions].
    do 3 (split; [reflexivity|]). split.
    { exists sender_idx, receiver_pos. cbn [sender receiver amount]. auto. }
    apply nth_error_In in Ern. unfold transfer_constraints.
    repeat split; cbn [sender receiver amount].
    + intro E. symmetry in E. revert E.
      eapply except_other; eauto.
    + now apply ltb_not_leb.
    + apply dict_mem_true. eapply except_In; eauto.
    + exists s. split; [assumption | now apply leb_not_ltb].
  - cbn [fst]. intros tx E. injection E as <-. cbn [sender amount].
    split; [exact Eamt|]. exists s. auto.
Qed.





(* ================================================================= *)
(** ** Sessions *)

Lemma dict_mem_same_keys (V W : Type) (d : dict V) (d' : dict W)
    (k : string) :
  dict_keys d' = dict_keys d -> dict_mem k d' = dict_mem k d.
Proof.
  intro Hk.
  destruct (dict_mem k d) eqn:E.
  - apply dict_mem_true. rewrite Hk. now apply dict_mem_true.
  - destruct (dict_mem k d') eqn:E'; [|reflexivity].
    apply dict_mem_true in E'. rewrite Hk in E'.
    apply dict_mem_true in E'. congruence.
Qed.

Lemma apply_to_accounts_keys64 (tx : TransactionWrapper)
    (accs accs' : account_dict) :
  apply_to_accounts tx accs = Ok accs' -> dict_keys accs' = dict_keys accs.
Proof.
  intro Happ.
  destruct (apply_to_accounts_Ok64 tx accs _ Happ) as (_ & _ & _ & _ & _ & ->).
  now rewrite !update_balance_keys64.
Qed.

Lemma process_transactions_keys64 (txs : list TransactionWrapper)
    (accs : account_dict) (records : list entry) :
  dict_keys (fst (process_transactions txs accs records)) = dict_keys accs.
Proof.
  revert accs records.
  induction txs as [|tx rest IH]; intros accs records;
    cbn [process_transactions]; [reflexivity|].
  destruct (apply_to_accounts tx accs) as [accs'|e] eqn:Happ;
    [|reflexivity].
  apply apply_to_accounts_keys64 in Happ.
  destruct (transfer_record tx accs') as [r|e]; cbn [fst].
  - rewrite IH. exact Happ.
  - exact Happ.
Qed.

(** Mining keeps the account names and their order; it leaves the queue
    as it was or empties it. *)
Lemma mine_block_shape64 (fe : frontend) (st : state chain) :
  dict_wf (accounts st) ->
  dict_keys (accounts (snd (mine_block add_block fe st)))
  = dict_keys (accounts st)
  /\ (pending_transactions (snd (mine_block add_block fe st))
      = pending_transactions st
      \/ pending_transactions (snd (mine_block add_block fe st)) = []).
Proof.
  intro Hwf. unfold mine_block.
  destruct (pending_transactions st) as [|first rest] eqn:Hp.
  { cbn [snd]. rewrite Hp. auto. }
  unfold mine_pending, apply_zakat_to_accounts.
  rewrite apply_zakat_with_spec64 by exact Hwf.
  rewrite Hp.
  set (accs1 := map (levied_item (zakat_threshold fe)) (accounts st)).
  set (records0 := zakat_records fe _ _).
  pose proof (process_transactions_keys64 (first :: rest) accs1 records0)
    as Hk.
  destruct (process_transactions (first :: rest) accs1 records0)
    as [accs2 [records|e]]; cbn [fst] in Hk.
  - assert (Hkeys : dict_keys accs2 = dict_keys (accounts st)).
    { rewrite Hk. unfold accs1. apply dict_keys_levied64. }
    destruct records as [|r records];
      [cbn [snd accounts pending_transactions]; auto|].
    destruct (miner_roll_of accs2 (first :: rest)) as [roll|e];
      [|cbn [snd accounts pending_transactions]; auto].
    destruct (add_block (r :: records) roll (blockchain st))
      as [[|] chain']; cbn [snd accounts pending_transactions]; auto.
  - cbn [snd accounts pending_transactions]. split; [|now left].
    rewrite Hk. unfold accs1. apply dict_keys_levied64.
Qed.

Lemma queue_checked_keys (st st' : state chain) :
  dict_keys (accounts st') = dict_keys (accounts st) ->
  (forall tx, In tx (pending_transactions st') ->
              In tx (pending_transactions st)) ->
  queue_checked st -> queue_checked st'.
Proof.
  intros Hk Hsub [Hwf Hq]. split.
  - unfold dict_wf. rewrite Hk. exact Hwf.
  - intros tx Hin. destruct (Hq tx (Hsub tx Hin)) as (Hne & Hs & Hr & Ha).
    rewrite !(dict_mem_same_keys _ _ (accounts st) (accounts st') _ Hk).
    auto.
Qed.

Lemma queue_checked_new_account (st : state chain) (name : string)
    (a : account) :
  queue_checked st ->
  queue_checked (mk_state (blockchain st) (dict_set name a (accounts st))
                          (pending_transactions st)).
Proof.
  intros [Hwf Hq]. split; cbn [accounts pending_transactions].
  - now apply dict_wf_set_any.
  - intros tx Hin. destruct (Hq tx Hin) as (Hne & Hs & Hr & Ha).
    assert (Hset : forall k, dict_mem k (accounts st) = true ->
                             dict_mem k (dict_set name a (accounts st)) = true).
    { intros k Hm. unfold dict_mem.
      destruct (string_dec k name) as [->|Hk].
      - now rewrite dict_get_set_same.
      - rewrite dict_get_set_other by exact Hk. exact Hm. }
    auto.
Qed.

Lemma queue_checked_submission (st : state chain)
    (selected : TransactionWrapper -> Prop)
    (r : submit_message * state chain) :
  queue_checked st -> submission_sound st selected r ->
  queue_checked (snd r).
Proof.
  intros [Hwf Hq] (_ & Hacc & Hm). destruct r as [m st'].
  cbn [fst snd] in *.
  destruct m; try (subst st'; split; assumption).
  destruct Hm as (Hqueue & _ & (Hne & Hamt & Hr & s & Hs & _)).
  split; [now rewrite Hacc|].
  rewrite Hacc, Hqueue. intros tx' Hin.
  apply in_app_or in Hin. destruct Hin as [Hin|[<-|[]]].
  - now apply Hq.
  - repeat split; try assumption. unfold dict_mem. now rewrite Hs.
Qed.

(** X1: account creation in the console.  [create_account] never touches
    the chain, the pending queue or an existing account.  It changes the
    state exactly when the name is non-empty and new, the roll number is
    non-empty and the balance is read as a number [b] for which [b < 0] is
    false; the new account is then appended after the existing ones with
    that balance and roll number.  A balance typed as [nan] is such a
    number.  A second creation under the same name changes nothing. *)
Theorem console_account_creation (account_name roll : string)
    (initial_balance : option float) (st : state chain) :
  blockchain (create_account account_name roll initial_balance st)
  = blockchain st
  /\ pending_transactions (create_account account_name roll initial_balance st)
     = pending_transactions st
  /\ (forall other a,
        dict_get other (accounts st) = Some a ->
        dict_get other
          (accounts (create_account account_name roll initial_balance st))
        = Some a)
  /\ ((nonempty account_name = true
       /\ dict_mem account_name (accounts st) = false
       /\ nonempty roll = true
       /\ exists b, initial_balance = Some b /\ (b <? 0) = false
                    /\ accounts
                         (create_account account_name roll initial_balance st)
                       = accounts st ++ [(account_name, mk_account b roll)])
      \/ ((account_name = ""%string
           \/ dict_mem account_name (accounts st) = true
           \/ roll = ""%string
           \/ initial_balance = None
           \/ exists b, initial_balance = Some b /\ (b <? 0) = true)
          /\ create_account account_name roll initial_balance st = st))
  /\ (nonempty account_name = true ->
      dict_mem account_name (accounts st) = false ->
      nonempty roll = true ->
      accounts (create_account account_name roll (Some nan) st)
      = accounts st ++ [(account_name, mk_account nan roll)])
  /\ (forall roll' initial_balance',
        dict_mem account_name
          (accounts (create_account account_name roll initial_balance st))
        = true ->
        create_account account_name roll' initial_balance'
          (create_account account_name roll initial_balance st)
        = create_account account_name roll initial_balance st).
Proof.
  assert (Hdup : forall roll' ib' (s : state chain),
             dict_mem account_name (accounts s) = true ->
             create_account account_name roll' ib' s = s).
  { intros roll' ib' s Hm. unfold create_account. rewrite Hm.
    now destruct (negb (nonempty account_name)). }
  assert (Hnan : nonempty account_name = true ->
                 dict_mem account_name (accounts st) = false ->
                 nonempty roll = true ->
                 accounts (create_account account_name roll (Some nan) st)
                 = accounts st ++ [(account_name, mk_account nan roll)]).
  { intros En Em Er. unfold create_account.
    rewrite En, Em, Er, ltb_nan_l. cbn [negb accounts].
    apply dict_set_new. now apply dict_mem_false. }
  split; [|split; [|split; [|split; [|split; [exact Hnan|]]]]];
    try (intros roll' ib' Hm; now apply Hdup).
  - unfold create_account.
    destruct (negb (nonempty account_name)); [reflexivity|].
    destruct (dict_mem account_name (accounts st)); [reflexivity|].
    destruct (negb (nonempty roll)); [reflexivity|].
    destruct initial_balance as [b|]; [|reflexivity].
    now destruct (b <? 0).
  - unfold create_account.
    destruct (negb (nonempty account_name)); [reflexivity|].
    destruct (dict_mem account_name (accounts st)); [reflexivity|].
    destruct (negb (nonempty roll)); [reflexivity|].
    destruct initial_balance as [b|]; [|reflexivity].
    now destruct (b <? 0).
  - intros other a Hget. unfold create_account.
    destruct (negb (nonempty account_name)); [exact Hget|].
    destruct (dict_mem account_name (accounts st)) eqn:Em; [exact Hget|].
    destruct (negb (nonempty roll)); [exact Hget|].
    destruct initial_balance as [b|]; [|exact Hget].
    destruct (b <? 0); [exact Hget|]. cbn [accounts].
    rewrite dict_get_set_other; [exact Hget|].
    intros ->. apply dict_mem_false in Em. congruence.
  - unfold create_account.
    destruct (nonempty account_name) eqn:En; cbn [negb].
    2:{ right. split; [|reflexivity]. left. now apply nonempty_false. }
    destruct (dict_mem account_name (accounts st)) eqn:Em.
    { right. split; [tauto | reflexivity]. }
    destruct (nonempty roll) eqn:Er; cbn [negb].
    2:{ right. split; [|reflexivity]. right. right. left.
        now apply nonempty_false. }
    destruct initial_balance as [b|].
    2:{ right. split; [tauto | reflexivity]. }
    destruct (b <? 0) eqn:Eb.
    { right. split; [|reflexivity]. do 4 right. exists b. auto. }
    left. repeat split. exists b. split; [reflexivity|].
    split; [exact Eb|]. cbn [accounts].
    apply dict_set_new. now apply dict_mem_false.
Qed.

Lemma levied_item_unqualified (t : float) (accs : account_dict) :
  filter (qualifies t) accs = [] -> map (levied_item t) accs = accs.
Proof.
  induction accs as [|[k a] rest IH]; cbn [filter map]; [reflexivity|].
  destruct (qualifies t (k, a)) eqn:E; [discriminate|].
  intro Hf. rewrite IH by exact Hf.
  unfold levied_item, levied. cbn [fst snd].
  unfold qualifies in E. cbn [snd] in E. now rewrite E.
Qed.

(** X2: the bookkeeping of the levy.  On a store with distinct account
    names the levy adds, removes or moves no account and changes no roll
    number.  The amount it returns is the binary64 sum, taken from [0] in
    store order, of [balance * 0.025] over the accounts that pass
    [balance >= threshold], and it records one detail for each of them, in
    that order, under the account's name and roll number.  When no
    account passes, the store is returned as it was, the amount is [0] and
    no detail is recorded.  The levy of [main.py] keeps the account names
    and returns the same kind of sum, over the balances that pass
    [balance >= 1000]. *)
Theorem levy_bookkeeping (t : float) (accs : account_dict) :
  dict_wf accs ->
  dict_keys (fst (fst (apply_zakat_with t accs))) = dict_keys accs
  /\ (forall name,
        option_map roll_no
          (dict_get name (fst (fst (apply_zakat_with t accs))))
        = option_map roll_no (dict_get name accs))
  /\ snd (fst (apply_zakat_with t accs))
     = fold_left (fun c kv => c + balance (snd kv) * zakat_rate)
                 (filter (fun kv => t <=? balance (snd kv)) accs) 0
  /\ map (fun d => (detail_account d, detail_roll d))
         (snd (apply_zakat_with t accs))
     = map (fun kv => (fst kv, roll_no (snd kv)))
           (filter (fun kv => t <=? balance (snd kv)) accs)
  /\ (filter (fun kv => t <=? balance (snd kv)) accs = [] ->
      apply_zakat_with t accs = (accs, 0, []))
  /\ (forall maccs : Main.account_dict,
        dict_wf maccs ->
        dict_keys (fst (Main.apply_zakat_to_accounts maccs))
        = dict_keys maccs
        /\ snd (Main.apply_zakat_to_accounts maccs)
           = fold_left (fun c kv => c + snd kv * zakat_rate)
                       (filter (fun kv => 1000 <=? snd kv) maccs) 0).
Proof.
  intro Hwf. rewrite apply_zakat_with_spec64 by exact Hwf.
  cbn [fst snd].
  change (filter (fun kv => t <=? balance (snd kv)) accs)
    with (filter (qualifies t) accs).
  split; [apply dict_keys_levied64|]. split; [|split; [|split; [|split]]].
  - intro name. rewrite dict_get_levied64.
    destruct (dict_get name accs) as [a|]; [|reflexivity].
    cbn [option_map]. unfold levied.
    now destruct (geb (balance a) t).
  - reflexivity.
  - rewrite map_map. reflexivity.
  - intro Hf. rewrite levied_item_unqualified by exact Hf.
    now rewrite Hf.
  - intros maccs Hmwf. rewrite main_apply_zakat_spec64 by exact Hmwf.
    cbn [fst snd]. split; [|reflexivity].
    unfold dict_keys. rewrite map_map. reflexivity.
Qed.

(** X6: what a session keeps in its queue.  In a console or dashboard
    session the account names stay distinct, and every queued transfer has
    two distinct parties that exist and an amount for which [amount <= 0]
    is false: this holds at the start and is kept by account creation, by
    submission and by mining.  It does not make every queued amount
    positive: whenever two different valid numbers are typed for sender and
    receiver, the console enqueues the amount typed as [nan]. *)
Theorem queue_stays_checked (st : state chain) :
  (forall c : chain, queue_checked (fresh_session c))
  /\ (queue_checked st ->
      (forall name roll initial_balance,
          queue_checked (create_account name roll initial_balance st))
      /\ (forall name roll initial_balance,
            queue_checked
              (dashboard_create_account name roll initial_balance st))
      /\ (forall sender_input receiver_input amount_input,
            queue_checked
              (snd (create_transaction sender_input receiver_input
                                       amount_input st)))
      /\ (forall sender_option receiver_option amt,
            queue_checked
              (snd (add_to_pending sender_option receiver_option amt st)))
      /\ (forall fe, queue_checked (snd (mine_block add_block fe st))))
  /\ (forall (sender_no receiver_no : Z) (sender_name receiver_name : string),
        (1 <= sender_no)%Z -> (1 <= receiver_no)%Z ->
        sender_no <> receiver_no ->
        list_item (dict_keys (accounts st)) (sender_no - 1)%Z
        = Some sender_name ->
        list_item (dict_keys (accounts st)) (receiver_no - 1)%Z
        = Some receiver_name ->
        create_transaction (Some sender_no) (Some receiver_no) (Some nan) st
        = (TransactionAdded (mk_tx sender_name receiver_name nan),
           enqueue (mk_tx sender_name receiver_name nan) st)).
Proof.
  split; [|split].
  - intro c. split; cbn.
    + constructor.
    + intros tx [].
  - intro Hq. split; [|split; [|split; [|split]]].
    + intros name roll ib. unfold create_account.
      destruct (negb (nonempty name)); [exact Hq|].
      destruct (dict_mem name (accounts st)); [exact Hq|].
      destruct (negb (nonempty roll)); [exact Hq|].
      destruct ib as [b|]; [|exact Hq].
      destruct (b <? 0); [exact Hq|].
      now apply queue_checked_new_account.
    + intros name roll b. unfold dashboard_create_account.
      destruct (nonempty name && nonempty roll
                && negb (dict_mem name (accounts st))); [|exact Hq].
      now apply queue_checked_new_account.
    + intros si ri ai.
      eapply queue_checked_submission; [exact Hq|].
      apply create_transaction_sound64. exact (proj1 Hq).
    + intros so ro amt.
      eapply queue_checked_submission; [exact Hq|].
      apply add_to_pending_sound64. exact (proj1 Hq).
    + intro fe.
      destruct (mine_block_shape64 fe st (proj1 Hq)) as [Hk Hp].
      apply (queue_checked_keys st); [exact Hk | | exact Hq].
      intros tx Hin. destruct Hp as [Hp|Hp]; rewrite Hp in Hin;
        [exact Hin | destruct Hin].
  - intros sender_no receiver_no sender_name receiver_name
      Hs1 Hr1 Hne Hsn Hrn.
    unfold list_item in Hsn, Hrn.
    assert (Hsl : (Z.to_nat (sender_no - 1)
                   < length (dict_keys (accounts st)))%nat)
      by (apply nth_error_Some; congruence).
    assert (Hrl : (Z.to_nat (receiver_no - 1)
                   < length (dict_keys (accounts st)))%nat)
      by (apply nth_error_Some; congruence).
    assert (Hlen : length (dict_keys (accounts st)) = length (accounts st))
      by (unfold dict_keys; apply length_map).
    unfold create_transaction.
    replace (length (accounts st) <? 2)%nat with false
      by (symmetry; apply Nat.ltb_ge; lia).
    cbv zeta.
    replace ((sender_no - 1 <? 0)
             || (sender_no - 1 >=? Z.of_nat (length (dict_keys (accounts st)))))%Z
      with false
      by (symmetry; apply orb_false_iff; split;
          [apply Z.ltb_ge | rewrite Z.geb_leb; apply Z.leb_gt]; lia).
    replace ((receiver_no - 1 <? 0)
             || (receiver_no - 1
                 >=? Z.of_nat (length (dict_keys (accounts st)))))%Z
      with false
      by (symmetry; apply orb_false_iff; split;
          [apply Z.ltb_ge | rewrite Z.geb_leb; apply Z.leb_gt]; lia).
    replace (sender_no - 1 =? receiver_no - 1)%Z with false
      by (symmetry; apply Z.eqb_neq; lia).
    unfold list_item. rewrite Hsn, Hrn, leb_nan_l.
    destruct (dict_get sender_name (accounts st)) as [s|] eqn:Eget.
    + now rewrite ltb_nan_r.
    + exfalso. apply dict_get_None in Eget. apply Eget.
      eapply nth_error_In; eauto.
Qed.

End Binary64Facts.

(* ================================================================= *)
(** ** The statements on sample sessions *)

Section Binary64Samples.
Import Binary64.
Local Open Scope float_scope.
#[local] Set Warnings "-inexact-float".

Ltac solve_wf64 :=
  unfold dict_wf; vm_compute; repeat constructor; cbn; intuition discriminate.

(** The literal [0.025] is the binary64 number
    [7205759403792794 * 2^(-58)], a little above 1/40. *)
Lemma zakat_rate_value :
  Prim2SF zakat_rate = S754_finite false 7205759403792794 (-58)
  /\ exists r, exact zakat_rate = Some r /\ (25 # 1000 < r)%Q.
Proof.
  split; [reflexivity|]. eexists. split; [vm_compute; reflexivity|].
  vm_compute. reflexivity.
Qed.

(** C3, the levy is not the product: an account of the console holding
    104 is levied to [104 - 104 * 0.025], the binary64 number nearest to
    101.4, while [104 * (1 - 0.025)] evaluates to the binary64 number just
    below it; as an exact number the new balance is neither 104 times
    39/40 nor 104 times one minus the binary64 rate.  The same happens to
    an account holding 1002 in the dashboard and in [main.py]. *)
Lemma levy_differs_from_product :
  (dict_get "A" (accounts Demo.levy_104) = Some (mk_account 104 "r1")
   /\ dict_get "A"
        (fst (fst (apply_zakat_to_accounts Console
                     (accounts Demo.levy_104))))
      = Some (mk_account (104 - 104 * 0.025) "r1")
   /\ 104 - 104 * 0.025 <> 104 * (1 - 0.025)
   /\ exists x r,
        exact (104 - 104 * 0.025) = Some x
        /\ exact 0.025 = Some r
        /\ ~ (x == 104 * (1 - (25 # 1000)))%Q
        /\ ~ (x == 104 * (1 - r))%Q)
  /\ (dict_get "A" (accounts Demo.levy_1002) = Some (mk_account 1002 "r1")
      /\ dict_get "A"
           (fst (fst (apply_zakat_to_accounts Streamlit
                        (accounts Demo.levy_1002))))
         = Some (mk_account (1002 - 1002 * 0.025) "r1")
      /\ dict_get "A" (fst (Main.apply_zakat_to_accounts [("A", 1002)]))
         = Some (1002 - 1002 * 0.025)
      /\ 1002 - 1002 * 0.025 <> 1002 * (1 - 0.025)
      /\ exists x r,
           exact (1002 - 1002 * 0.025) = Some x
           /\ exact 0.025 = Some r
           /\ ~ (x == 1002 * (1 - (25 # 1000)))%Q
           /\ ~ (x == 1002 * (1 - r))%Q).
Proof.
  split.
  - split; [reflexivity|]. split; [vm_compute; reflexivity|].
    split; [vm_compute; discriminate|].
    do 2 eexists.
    split; [vm_compute; reflexivity|]. split; [vm_compute; reflexivity|].
    split; vm_compute; discriminate.
  - split; [reflexivity|]. split; [vm_compute; reflexivity|].
    split; [vm_compute; reflexivity|].
    split; [vm_compute; discriminate|].
    do 2 eexists.
    split; [vm_compute; reflexivity|]. split; [vm_compute; reflexivity|].
    split; vm_compute; discriminate.
Qed.

(** The levy of the console on the two sample accounts, 1000 and 50, and
    the levy of [main.py] on a balance that is NaN. *)
Lemma levy_rounds_witness :
  dict_wf (accounts Demo.plain_accounts)
  /\ dict_get "A"
       (fst (fst (apply_zakat_with 100 (accounts Demo.plain_accounts))))
     = Some (mk_account (1000 - 1000 * zakat_rate) "r1")
  /\ dict_get "B"
       (fst (fst (apply_zakat_with 100 (accounts Demo.plain_accounts))))
     = Some (mk_account 50 "r2")
  /\ dict_get "N" (fst (Main.apply_zakat_to_accounts [("N", nan)]))
     = Some nan.
Proof.
  assert (Hwf : dict_wf (accounts Demo.plain_accounts)) by solve_wf64.
  assert (Hmwf : dict_wf [("N", nan)]) by solve_wf64.
  split; [exact Hwf|].
  destruct (levy_rounds 100 (accounts Demo.plain_accounts) "A"
              (mk_account 1000 "r1") Hwf eq_refl) as (Ha & _).
  destruct (levy_rounds 100 (accounts Demo.plain_accounts) "B"
              (mk_account 50 "r2") Hwf eq_refl) as (_ & Hb & _ & _ & Hmain).
  split; [apply Ha; reflexivity|].
  split; [apply Hb; reflexivity|].
  apply (Hmain [("N", nan)] "N" nan Hmwf eq_refl). reflexivity.
Defined.

(** C2, a transfer that creates value: ["A"] opens with 1e16 and ["B"]
    with 1 in the console, and ["A"] submits 1 to ["B"], which is accepted.
    Mining levies ["A"] to 9.75e15; the transfer then leaves ["A"] at
    9.75e15, because [9750000000000000 - 1] rounds back to
    [9750000000000000], and raises ["B"] to 2.  The sum of the two
    balances, which are all the accounts, is one more after the transfer
    than before it, as an exact number; added as binary64 numbers the two
    sums differ as well. *)
Lemma transfer_not_conserved :
  let st := snd Demo.large in
  let before := fst (fst (apply_zakat_to_accounts Console (accounts st))) in
  let after := [("A", mk_account 9750000000000000 "r1");
                ("B", mk_account 2 "r2")] in
  fst Demo.large = TransactionAdded (mk_tx "A" "B" 1)
  /\ pending_transactions st = [mk_tx "A" "B" 1]
  /\ before = [("A", mk_account 9750000000000000 "r1");
               ("B", mk_account 1 "r2")]
  /\ apply_to_accounts (mk_tx "A" "B" 1) before = Ok after
  /\ 9750000000000000 - 1 = 9750000000000000
  /\ 9750000000000000 + 2 <> 9750000000000000 + 1
  /\ (exists T T',
        exact_total before = Some T
        /\ exact_total after = Some T'
        /\ (T' == T + 1)%Q
        /\ ~ (T' == T)%Q)
  /\ mine_block log_add_block Console st
     = (Ok (PyBool true),
        mk_state
          [("r1", [ZakatCollection 250000000000000;
                   TransferRecord "A" "r1" "B" "r2" 1])]
          after []).
Proof.
  cbv zeta.
  split; [vm_compute; reflexivity|]. split; [vm_compute; reflexivity|].
  split; [vm_compute; reflexivity|]. split; [vm_compute; reflexivity|].
  split; [vm_compute; reflexivity|].
  split; [vm_compute; discriminate|].
  split; [|vm_compute; reflexivity].
  do 2 eexists.
  split; [vm_compute; reflexivity|]. split; [vm_compute; reflexivity|].
  split; vm_compute; [reflexivity | discriminate].
Qed.

(** A transfer of 100 from ["A"] to ["B"], which rounds nowhere: the
    total, 1050 before, is 1050 after. *)
Lemma transfer_rounding_witness :
  apply_to_accounts (mk_tx "A" "B" 100) (accounts Demo.plain_accounts)
  = Ok [("A", mk_account 900 "r1"); ("B", mk_account 150 "r2")]
  /\ dict_keys [("A", mk_account 900 "r1"); ("B", mk_account 150 "r2")]
     = dict_keys (accounts Demo.plain_accounts)
  /\ exists T',
       exact_total [("A", mk_account 900 "r1"); ("B", mk_account 150 "r2")]
       = Some T'
       /\ (T' == 1050)%Q.
Proof.
  assert (Happ : apply_to_accounts (mk_tx "A" "B" 100)
                   (accounts Demo.plain_accounts)
                 = Ok [("A", mk_account 900 "r1");
                       ("B", mk_account 150 "r2")])
    by (vm_compute; reflexivity).
  split; [exact Happ|].
  destruct (transfer_rounding _ _ _ Happ)
    as ((s & r & Hs & Hr & _ & Hdistinct & _) & _ & Hkeys & _).
  split; [exact Hkeys|].
  vm_compute in Hs. injection Hs as <-.
  vm_compute in Hr. injection Hr as <-.
  destruct Hdistinct as (_ & _ & Hexact); [discriminate|].
  edestruct Hexact as (_ & T' & HT' & E).
  1-6: vm_compute; reflexivity.
  exists T'. split; [exact HT'|]. rewrite E. vm_compute. reflexivity.
Defined.



(** The levy of the console on the two sample accounts. *)
Lemma levy_bookkeeping_witness :
  dict_wf (accounts Demo.plain_accounts)
  /\ snd (fst (apply_zakat_with 100 (accounts Demo.plain_accounts)))
     = 0 + 1000 * zakat_rate
  /\ apply_zakat_with 5000 (accounts Demo.plain_accounts)
     = (accounts Demo.plain_accounts, 0, []).
Proof.
  assert (Hwf : dict_wf (accounts Demo.plain_accounts)) by solve_wf64.
  split; [exact Hwf|].
  destruct (levy_bookkeeping 100 (accounts Demo.plain_accounts) Hwf)
    as (_ & _ & Hc & _).
  destruct (levy_bookkeeping 5000 (accounts Demo.plain_accounts) Hwf)
    as (_ & _ & _ & _ & Hnone & _).
  split; [exact Hc | apply Hnone; reflexivity].
Defined.

(** The console session that queued the amount typed as [nan] still has
    a checked queue, before and after mining. *)
Lemma queue_stays_checked_witness :
  queue_checked (snd Demo.nan_submitted)
  /\ queue_checked
       (snd (mine_block log_add_block Console (snd Demo.nan_submitted)))
  /\ create_transaction (Some 2%Z) (Some 1%Z) (Some nan) Demo.nan_accounts
     = (TransactionAdded (mk_tx "B" "A" nan),
        enqueue (mk_tx "B" "A" nan) Demo.nan_accounts).
Proof.
  assert (Hstart : queue_checked Demo.start)
    by exact (proj1 (queue_stays_checked block_log log_add_block Demo.start)
                []).
  assert (Ha : queue_checked
                 (create_account "A" "r1" (Some 50) Demo.start))
    by exact (proj1 (proj1 (proj2 (queue_stays_checked block_log
                                     log_add_block Demo.start)) Hstart)
                "A"%string "r1"%string (Some 50)).
  assert (Hb : queue_checked Demo.nan_accounts)
    by exact (proj1 (proj1 (proj2 (queue_stays_checked block_log
                                     log_add_block _)) Ha)
                "B"%string "r2"%string (Some 20)).
  assert (Hq : queue_checked (snd Demo.nan_submitted))
    by exact (proj1 (proj2 (proj2 (proj1 (proj2 (queue_stays_checked
                block_log log_add_block _)) Hb)))
                (Some 1%Z) (Some 2%Z) (Some nan)).
  split; [exact Hq|]. split.
  - exact (proj2 (proj2 (proj2 (proj2 (proj1 (proj2 (queue_stays_checked
             block_log log_add_block _)) Hq)))) Console).
  - apply (proj2 (proj2 (queue_stays_checked block_log log_add_block
                           Demo.nan_accounts)) 2%Z 1%Z);
      try reflexivity; try discriminate.
Defined.

(** An account opened in the console with the balance typed as [nan]. *)
Lemma console_account_creation_witness :
  accounts (create_account "N" "r9" (Some nan) Demo.nan_accounts)
  = accounts Demo.nan_accounts ++ [("N", mk_account nan "r9")].
Proof.
  apply (proj1 (proj2 (proj2 (proj2 (proj2
           (console_account_creation block_log "N" "r9" (Some nan)
              Demo.nan_accounts))))));
    reflexivity.
Defined.

End Binary64Samples.
